(** * FocusCC / CharmCC: frame pipeline, cooldown gate, event history, presets

    A shallow embedding of the Python front ends of the repository

      - [cc.py]              (CharmCC 1.0, Tk, edge density)
      - [cc_110.py]          (CharmCC 1.1.0, Tk, video controls and presets)
      - [versions/v3/cc.py]  (FocusCC, Tk, detection area, blur, presets)
      - [versions/v3/ccqt.py](FocusCC, Qt)
      - [ccm_100.py], [versions/v3/ccm.py] (charmCCM, mean intensity, plot)

    Conventions.
      - Python [int] is [Z]; Python [float] is read over the rationals [Q]
        (finite binary64 values are rationals; rounding of float arithmetic
        is not tracked).
      - A [uint8] array element is a [Z] in [0, 255].
      - Module-level globals assigned by the preset loader hold whatever
        [json.load] returned, so the preset code works on a store from
        variable names to Python values; the frame pipeline reads the
        globals at the types the widgets give them.
      - Widgets (sliders, canvases, message boxes) are not modelled; what the
        user answers in a dialog is an input.
      - OpenCV is an interface ([OpenCV] below); only [cv2.LUT],
        [cv2.convertScaleAbs], [cv2.imwrite] and the fact that [cv2.putText]
        and [cv2.rectangle] draw on the frame are given a concrete meaning. *)

From Stdlib Require Import ZArith QArith Qround Qminmax Qabs Lqa Lia.
From stdpp Require Import base list strings gmap pretty sorting.

Open Scope Z_scope.

(** ** Python values and exceptions *)

Module py.

#[warnings="-register-all"]
Inductive value :=
| None_
| Bool (b : bool)
| Int (z : Z)
| Float (q : Q)
| Str (s : string)
| List (l : list value)
| Dict (d : list (string * value)).

Inductive exn :=
| FileNotFoundError (path : string)
| JSONDecodeError
| KeyError (key : string)
| TypeError
| NameError (name : string)
| ValueError
| IndexError.

(** [d[key] = v] on an insertion-ordered dict. *)
Fixpoint dict_set (key : string) (v : value) (d : list (string * value))
  : list (string * value) :=
  match d with
  | [] => [(key, v)]
  | (k, w) :: d' =>
      if String.eqb k key then (k, v) :: d' else (k, w) :: dict_set key v d'
  end.

Fixpoint dict_get (key : string) (d : list (string * value)) : option value :=
  match d with
  | [] => None
  | (k, w) :: d' => if String.eqb k key then Some w else dict_get key d'
  end.

(** A dict display [{k1: v1, ..., kn: vn}]. *)
Definition dict_display (kvs : list (string * value)) : list (string * value) :=
  fold_left (fun d kv => dict_set kv.1 kv.2 d) kvs [].

(** [obj[key]] for a string key: only a dict can be subscripted by a string. *)
Definition getitem (obj : value) (key : string) : exn + value :=
  match obj with
  | Dict d => match dict_get key d with
              | Some v => inr v
              | None => inl (KeyError key)
              end
  | _ => inl TypeError
  end.

(** [obj.get(key, default)]; every object but a dict lacks the method
    (AttributeError, not distinguished from TypeError here). *)
Definition get (obj : value) (key : string) (default : value) : exn + value :=
  match obj with
  | Dict d => inr (from_option id default (dict_get key d))
  | _ => inl TypeError
  end.

(** Scalars, and values that are a scalar or a list of scalars. *)
Definition scalar (v : value) : bool :=
  match v with
  | List _ | Dict _ => false
  | _ => true
  end.

Definition flat (v : value) : bool :=
  match v with
  | List l => forallb scalar l
  | Dict _ => false
  | _ => true
  end.

(** [int(x)] on a float truncates towards zero. *)
Definition int_of_float (x : Q) : Z := Z.quot (Qnum x) (Z.pos (Qden x)).

(** Comparisons of floats. *)
Definition lt (a b : Q) : bool := negb (Qle_bool b a).
Definition ge (a b : Q) : bool := Qle_bool b a.
Definition ne (a b : Q) : bool := negb (Qeq_bool a b).

(** [l[-1]] where the list is known to be non-empty is [last]; [l[-k:]]
    keeps the last [k] elements (the whole list when it is shorter). *)
Definition last_k {A} (k : nat) (l : list A) : list A :=
  drop (length l - k)%nat l.

(** *** Strings (ASCII) *)

(** [c.isspace()] *)
Definition isspace (c : Ascii.ascii) : bool :=
  let n := Ascii.nat_of_ascii c in
  ((9 <=? n) && (n <=? 13) || (28 <=? n) && (n <=? 32))%nat.

(** [s.lstrip()], [s.rstrip()], [s.strip()] *)
Fixpoint lstrip (s : string) : string :=
  match s with
  | EmptyString => EmptyString
  | String c s' => if isspace c then lstrip s' else s
  end.

Fixpoint rstrip (s : string) : string :=
  match s with
  | EmptyString => EmptyString
  | String c s' =>
      match rstrip s' with
      | EmptyString => if isspace c then EmptyString else String c EmptyString
      | t => String c t
      end
  end.

Definition strip (s : string) : string := lstrip (rstrip s).

(** [s.startswith(prefix)] *)
Fixpoint startswith (s prefix : string) {struct prefix} : bool :=
  match prefix with
  | EmptyString => true
  | String a prefix' =>
      match s with
      | EmptyString => false
      | String b s' => Ascii.eqb a b && startswith s' prefix'
      end
  end.

(** [sub in s] *)
Fixpoint contains (sub s : string) : bool :=
  startswith s sub
  || match s with
     | EmptyString => false
     | String _ s' => contains sub s'
     end.

(** [s.split(sep)] for a separator that is not empty: [cur] is the piece
    being read, [skip] the number of characters of a separator just found
    that are still to be passed over. *)
Fixpoint split_go (sep : string) (skip : nat) (cur : string) (s : string)
  : list string :=
  match s with
  | EmptyString => [cur]
  | String c s' =>
      match skip with
      | S k => split_go sep k cur s'
      | O =>
          if startswith s sep
          then cur :: split_go sep (String.length sep - 1) EmptyString s'
          else split_go sep 0 (cur +:+ String c EmptyString) s'
      end
  end.

Definition split (sep s : string) : list string := split_go sep 0 EmptyString s.

(** [l[i]] on a list: a negative index counts from the end. *)
Definition index {A} (l : list A) (i : Z) : exn + A :=
  let k := if i <? 0 then i + Z.of_nat (length l) else i in
  if k <? 0 then inl IndexError
  else match l !! Z.to_nat k with
       | Some x => inr x
       | None => inl IndexError
       end.

(** [s.upper()] *)
Definition upper_char (c : Ascii.ascii) : Ascii.ascii :=
  let n := Ascii.nat_of_ascii c in
  if ((97 <=? n) && (n <=? 122))%nat then Ascii.ascii_of_nat (n - 32) else c.

Fixpoint upper (s : string) : string :=
  match s with
  | EmptyString => EmptyString
  | String c s' => String (upper_char c) (upper s')
  end.

(** [int(s)] on a string: white space around, a sign, then decimal digits
    with single underscores between them. *)
Definition digit (c : Ascii.ascii) : option Z :=
  let n := Ascii.nat_of_ascii c in
  if ((48 <=? n) && (n <=? 57))%nat then Some (Z.of_nat n - 48) else None.

Fixpoint digits (acc : Z) (after_digit : bool) (s : string) : option Z :=
  match s with
  | EmptyString => if after_digit then Some acc else None
  | String c s' =>
      match digit c with
      | Some d => digits (10 * acc + d) true s'
      | None =>
          if String.eqb (String c EmptyString) "_" && after_digit
          then digits acc false s' else None
      end
  end.

Definition int_of_str (s : string) : exn + Z :=
  let t := strip s in
  let '(negative, body) :=
    match t with
    | String c r =>
        if String.eqb (String c EmptyString) "-" then (true, r)
        else if String.eqb (String c EmptyString) "+" then (false, r)
        else (false, t)
    | EmptyString => (false, t)
    end in
  match digits 0 false body with
  | Some n => inr (if negative then - n else n)
  | None => inl ValueError
  end.

(** ["\n"] *)
Definition newline : string := String (Ascii.ascii_of_nat 10) EmptyString.

End py.

(** ** The [json] module *)

Module json.

(** A JSON text, after tokenisation: a number literal without fraction or
    exponent is an integer literal, any other is a real literal. *)
#[warnings="-register-all"]
Inductive doc :=
| Null
| Lit (b : bool)
| IntLit (z : Z)
| RealLit (q : Q)
| StrLit (s : string)
| Arr (l : list doc)
| Obj (members : list (string * doc)).

(** [json.dump]: [int] is written with [int.__repr__], [float] with
    [float.__repr__] (always with a fraction or an exponent, and read back
    to the same float), [bool] as [true]/[false]. *)
Fixpoint dump (v : py.value) : doc :=
  match v with
  | py.None_ => Null
  | py.Bool b => Lit b
  | py.Int z => IntLit z
  | py.Float q => RealLit q
  | py.Str s => StrLit s
  | py.List l => Arr (map dump l)
  | py.Dict d => Obj (map (fun kv => (kv.1, dump kv.2)) d)
  end.

(** [json.load]: an object becomes a dict filled member by member, so of
    two members with one name the later value is kept. *)
Fixpoint load (j : doc) : py.value :=
  match j with
  | Null => py.None_
  | Lit b => py.Bool b
  | IntLit z => py.Int z
  | RealLit q => py.Float q
  | StrLit s => py.Str s
  | Arr l => py.List (map load l)
  | Obj ms =>
      py.Dict (fold_left (fun d kv => py.dict_set kv.1 (load kv.2) d) ms [])
  end.

End json.

(** ** Effects: module globals that survive a raised exception *)

Module eff.

(** A computation over a store [S] that returns or raises; the store is
    kept in both cases, as assignments made before a [raise] stay made. *)
Definition M (S A : Type) : Type := S -> (py.exn + A) * S.

Definition ret {S A} (a : A) : M S A := fun s => (inr a, s).

Definition bind {S A B} (m : M S A) (k : A -> M S B) : M S B :=
  fun s => match m s with
           | (inl e, s') => (inl e, s')
           | (inr a, s') => k a s'
           end.

Definition raise {S A} (e : py.exn) : M S A := fun s => (inl e, s).

Definition read {S} : M S S := fun s => (inr s, s).

Definition modify {S} (f : S -> S) : M S unit := fun s => (inr tt, f s).

(** Lift the result of a pure operation that may raise. *)
Definition lift {S A} (r : py.exn + A) : M S A := fun s => (r, s).

(** [try: body except <handles>: handler]. *)
Definition try_except {S A} (body : M S A)
    (handles : py.exn -> bool) (handler : py.exn -> M S A) : M S A :=
  fun s => match body s with
           | (inl e, s') => if handles e then handler e s' else (inl e, s')
           | r => r
           end.

Definition is_FileNotFoundError (e : py.exn) : bool :=
  match e with py.FileNotFoundError _ => true | _ => false end.

End eff.

#[global] Instance M_ret {S} : MRet (eff.M S) := fun A a => eff.ret a.
#[global] Instance M_bind {S} : MBind (eff.M S) := fun A B k m => eff.bind m k.

(** ** numpy: slices, fills, reductions *)

Module np.

(** A single-channel [uint8] image, as a list of rows. *)
Definition plane : Type := list (list Z).

(** Bound [i] of a slice over an axis of length [n]: a negative bound counts
    from the end, and both are clamped to the axis. *)
Definition slice_bound (n i : Z) : Z :=
  if i <? 0 then Z.max 0 (i + n) else Z.min i n.

(** [k] lies in [a[start:stop]]; an omitted bound is [None]. *)
Definition in_slice (n : Z) (start stop : option Z) (k : Z) : bool :=
  let lo := from_option (slice_bound n) 0 start in
  let hi := from_option (slice_bound n) n stop in
  (lo <=? k) && (k <? hi).

(** [a[start:stop, :] = 0] *)
Definition fill_rows_0 (start stop : option Z) (a : plane) : plane :=
  imap (fun r row =>
          if in_slice (Z.of_nat (length a)) start stop (Z.of_nat r)
          then map (fun _ => 0) row else row) a.

(** [a[:, start:stop] = 0] *)
Definition fill_cols_0 (start stop : option Z) (a : plane) : plane :=
  map (fun row =>
         imap (fun c v =>
                 if in_slice (Z.of_nat (length row)) start stop (Z.of_nat c)
                 then 0 else v) row) a.

(** [np.sum(a > 0)] *)
Definition count_positive (a : plane) : Z :=
  fold_right Z.add 0 (map (fun row => Z.of_nat (length (filter (fun v => 0 < v) row))) a).

(** [np.mean(a)] *)
Definition mean (a : plane) : Q :=
  let flat := concat a in
  (inject_Z (fold_right Z.add 0%Z flat) / inject_Z (Z.of_nat (length flat)))%Q.

(** [np.clip(x, lo, hi)] *)
Definition clip (x lo hi : Q) : Q := Qmin (Qmax x lo) hi.

Definition clipZ (x lo hi : Z) : Z := Z.min (Z.max x lo) hi.

(** [x.astype(np.uint8)] for a float. *)
Definition uint8_of_float (x : Q) : Z := py.int_of_float x mod 256.

(** [a[r, c]] for two indices that are not negative; [None] stands for the
    [IndexError] of an index past the end. *)
Definition item (a : plane) (r c : nat) : option Z :=
  a !! r ≫= fun row => row !! c.

End np.

(** ** OpenCV *)

Module cv2.

(** A BGR (or HSV) pixel and a three-channel image. *)
Definition pixel : Type := Z * Z * Z.
Definition raster : Type := list (list pixel).

Definition map_channels (f : Z -> Z) (p : pixel) : pixel :=
  (f p.1.1, f p.1.2, f p.2).

Definition is_uint8 (v : Z) : Prop := 0 <= v <= 255.

Definition uint8_raster (a : raster) : Prop :=
  Forall (Forall (fun p : pixel =>
                    is_uint8 p.1.1 /\ is_uint8 p.1.2 /\ is_uint8 p.2)) a.

(** The operations of OpenCV the programs call and this development does
    not look into. *)
Class OpenCV := {
  resize : raster -> Z * Z -> raster;
  cvtColor_BGR2GRAY : raster -> np.plane;
  cvtColor_BGR2HSV : raster -> raster;
  cvtColor_HSV2BGR : raster -> raster;
  GaussianBlur : np.plane -> Z * Z -> np.plane;
  Canny : np.plane -> Z -> Z -> np.plane;
}.

(** [cv2.LUT(src, table)]: every channel value indexes the table. *)
Definition LUT (src : raster) (table : list Z) : raster :=
  map (map (map_channels (fun v => nth (Z.to_nat v) table 0))) src.

(** [cvRound]: to the nearest integer, ties to even. *)
Definition cvRound (x : Q) : Z :=
  let f := Qfloor x in
  match (x - inject_Z f ?= 1 # 2)%Q with
  | Lt => f
  | Gt => f + 1
  | Eq => if Z.even f then f else f + 1
  end.

(** [cv2.convertScaleAbs(src, alpha, beta)]:
    [saturate_cast<uchar>(|src * alpha + beta|)]. *)
Definition convertScaleAbs (src : raster) (alpha beta : Q) : raster :=
  map (map (map_channels
              (fun v => Z.min 255 (cvRound (Qabs (inject_Z v * alpha + beta)))))) src.

(** Drawing. [cv2.putText] and [cv2.rectangle] paint on the array they are
    given. Glyphs and lines are not rasterised here: a frame is its pixel
    array together with the shapes drawn on it so far. *)
Inductive shape :=
| Text (text : string) (org : Z * Z) (fontScale : Z) (color : pixel) (thickness : Z)
| Rect (pt1 pt2 : Z * Z) (color : pixel) (thickness : Z).

Record frame := { pixels : raster; drawn : list shape }.

Definition fresh (a : raster) : frame := {| pixels := a; drawn := [] |}.

Definition putText (img : frame) (text : string) (org : Z * Z)
    (fontScale : Z) (color : pixel) (thickness : Z) : frame :=
  {| pixels := pixels img;
     drawn := drawn img ++ [Text text org fontScale color thickness] |}.

Definition rectangle (img : frame) (pt1 pt2 : Z * Z) (color : pixel)
    (thickness : Z) : frame :=
  {| pixels := pixels img;
     drawn := drawn img ++ [Rect pt1 pt2 color thickness] |}.

End cv2.

(** ** The working directory *)

Module os.

Inductive file :=
| JsonFile (j : json.doc)       (* a text file holding one JSON value *)
| OtherText                     (* any content [json.load] rejects *)
| ImageFile (img : cv2.frame).  (* written by [cv2.imwrite] *)

Abbreviation dir := (gmap string file).

(** [json.load(open(path, "r"))] *)
Definition load_json (path : string) (d : dir) : py.exn + py.value :=
  match d !! path with
  | None => inl (py.FileNotFoundError path)
  | Some (JsonFile j) => inr (json.load j)
  | Some _ => inl py.JSONDecodeError
  end.

(** [json.dump(v, open(path, "w"))] *)
Definition dump_json (path : string) (v : py.value) (d : dir) : dir :=
  <[path := JsonFile (json.dump v)]> d.

(** [cv2.imwrite(path, img)] *)
Definition imwrite (path : string) (img : cv2.frame) (d : dir) : dir :=
  <[path := ImageFile img]> d.

End os.

(** ** versions/v3/ccm.py: mean intensity with a plot *)

Module ccm.

(** [class CameraSettings] (the capture handle [cap] is left out). *)
Record CameraSettings := {
  frame_width : Z;
  frame_height : Z;
  contrast : Q;
  brightness : Z;
  saturation : Q;
  black_point : Z;
  threshold_value : Q;
  threshold_max_limit : Q;
  cooldown_time : Z;
  last_saved_time : Q;
  prefix : string;
  save_images : bool;
  running : bool;
}.

Definition CameraSettings_init : CameraSettings := {|
  frame_width := 640; frame_height := 480;
  contrast := 1; brightness := 0; saturation := 1; black_point := 0;
  threshold_value := 128; threshold_max_limit := 255;
  cooldown_time := 5; last_saved_time := 0;
  prefix := "event"; save_images := true; running := false |}.

Definition set_last_saved_time (t : Q) (s : CameraSettings) : CameraSettings := {|
  frame_width := frame_width s; frame_height := frame_height s;
  contrast := contrast s; brightness := brightness s;
  saturation := saturation s; black_point := black_point s;
  threshold_value := threshold_value s;
  threshold_max_limit := threshold_max_limit s;
  cooldown_time := cooldown_time s; last_saved_time := t;
  prefix := prefix s; save_images := save_images s; running := running s |}.

(** A vertical [pg.InfiniteLine] at [x = pos], and a [pg.TextItem]. *)
Record InfiniteLine := { pos : Z }.
Record TextItem := { text : string; text_x : Z; text_y : Q }.

(** [class PlotManager]: the data behind the plot widget. [x_range] is the
    last range given to [setXRange], [threshold_line] the last value given
    to the threshold line. *)
Record PlotManager := {
  xvals : list Z;
  mean_values : list Q;
  max_event_lines : nat;
  event_lines : list InfiniteLine;
  event_labels : list TextItem;
  threshold_line : Q;
  x_range : Z * Z;
}.

Definition PlotManager_init (threshold : Q) : PlotManager := {|
  xvals := []; mean_values := [];
  max_event_lines := 10;
  event_lines := []; event_labels := [];
  threshold_line := threshold; x_range := (0, 0) |}.

(** [max(l)] of a non-empty list of floats. *)
Definition max_of (l : list Q) : Q :=
  match l with
  | [] => 0%Q
  | x :: l' => fold_left Qmax l' x
  end.

Definition update_data (mean_val threshold : Q) (pm : PlotManager)
  : PlotManager :=
  let xvals1 :=
    match last (xvals pm) with
    | None => xvals pm ++ [0]             (* if not self.xvals *)
    | Some x => xvals pm ++ [x + 1]       (* self.xvals[-1] + 1 *)
    end in
  let mean_values1 := mean_values pm ++ [mean_val] in
  let n := length xvals1 in
  {| xvals := xvals1;
     mean_values := mean_values1;
     max_event_lines := max_event_lines pm;
     event_lines := event_lines pm;
     event_labels := event_labels pm;
     threshold_line := threshold;
     x_range :=
       if (n <? 300)%nat then (0, 300)
       else (nth (n - 300) xvals1 0, from_option id 0 (last xvals1)) |}.

(** [l.pop(0)] once the list is longer than [limit]. *)
Definition prune {A} (limit : nat) (l : list A) : list A :=
  if (limit <? length l)%nat then tail l else l.

(** The marker and the label [mark_event] makes. *)
Definition new_marker (pm : PlotManager) : InfiniteLine :=
  let x_event := from_option id 0 (last (xvals pm)) in
  {| pos := x_event |}.

Definition new_label (filename : string) (pm : PlotManager) : TextItem :=
  let x_event := from_option id 0 (last (xvals pm)) in
  let local_max :=
    if (10 <=? length (mean_values pm))%nat
    then max_of (py.last_k 10 (mean_values pm))
    else from_option id 0%Q (last (mean_values pm)) in
  let y_pos := if py.lt 0 local_max then (local_max * (11 # 10))%Q else 10%Q in
  {| text := filename; text_x := x_event; text_y := y_pos |}.

Definition mark_event (filename : string) (pm : PlotManager) : PlotManager :=
  let marker := new_marker pm in
  let event_lines1 := event_lines pm ++ [marker] in
  let text_item := new_label filename pm in
  let event_labels1 := event_labels pm ++ [text_item] in
  (* prune old markers and labels *)
  {| xvals := xvals pm;
     mean_values := mean_values pm;
     max_event_lines := max_event_lines pm;
     event_lines := prune (max_event_lines pm) event_lines1;
     event_labels := prune (max_event_lines pm) event_labels1;
     threshold_line := threshold_line pm;
     x_range := x_range pm |}.

Definition clear_plot (pm : PlotManager) : PlotManager :=
  {| xvals := [];
     mean_values := [];
     max_event_lines := max_event_lines pm;
     event_lines := [];
     event_labels := [];
     threshold_line := threshold_line pm;
     x_range := x_range pm |}.

(** [class CharmCCM], with the working directory and the log box. *)
Record CharmCCM := {
  settings : CameraSettings;
  plot_manager : PlotManager;
  files : os.dir;
  log_box : list string;
}.

Definition CharmCCM_init (d : os.dir) : CharmCCM := {|
  settings := CameraSettings_init;
  plot_manager := PlotManager_init (threshold_value CameraSettings_init);
  files := d;
  log_box := [] |}.

(** The conditioning at the head of [handle_new_frame]. *)
Definition condition `{cv2.OpenCV} (s : CameraSettings) (frame : cv2.raster)
  : cv2.raster :=
  let frame :=
    if negb (brightness s =? 0) || negb (black_point s =? 0)
       || py.ne (contrast s) 1
    then
      let shift := brightness s - black_point s in
      let scale := contrast s in
      let table :=
        map (fun i => np.uint8_of_float
                        (np.clip (scale * (inject_Z i + inject_Z shift)) 0 255))
            (seqZ 0 256) in
      cv2.LUT frame table
    else frame in
  if py.ne (saturation s) 1
  then
    let hsv := cv2.cvtColor_BGR2HSV frame in
    let hsv :=
      map (map (fun p : cv2.pixel =>
                  (p.1.1,
                   np.uint8_of_float
                     (np.clip (inject_Z p.1.2 * saturation s) 0 255),
                   p.2))) hsv in
    cv2.cvtColor_HSV2BGR hsv
  else frame.

(** [handle_new_frame(frame)], with the value [time.time()] returns. *)
Definition handle_new_frame `{cv2.OpenCV} (frame : cv2.raster)
    (current_time : Q) (w : CharmCCM) : CharmCCM :=
  let s := settings w in
  let frame := condition s frame in
  let gray := cv2.cvtColor_BGR2GRAY frame in
  let mean_val := np.mean gray in
  let pm := update_data mean_val (threshold_value s) (plot_manager w) in
  if py.lt (threshold_value s) mean_val then
    if py.ge (current_time - last_saved_time s) (inject_Z (cooldown_time s)) then
      let s := set_last_saved_time current_time s in
      if save_images s then
        let filename :=
          prefix s +:+ "_" +:+ pretty (py.int_of_float current_time) +:+ ".png" in
        {| settings := s;
           plot_manager := mark_event filename pm;
           files := os.imwrite filename (cv2.fresh frame) (files w);
           log_box := log_box w ++
             ["Event detected and image saved as '" +:+ filename +:+ "'."] |}
      else
        {| settings := s; plot_manager := pm;
           files := files w; log_box := log_box w |}
    else
      {| settings := s; plot_manager := pm;
         files := files w; log_box := log_box w |}
  else
    {| settings := s; plot_manager := pm;
       files := files w; log_box := log_box w |}.

(** [log_message(message)]; the clock time that the method puts before the
    message is left out, as it is in [handle_new_frame] above. *)
Definition log_message (message : string) (w : CharmCCM) : CharmCCM :=
  {| settings := settings w; plot_manager := plot_manager w;
     files := files w; log_box := log_box w ++ [message] |}.

Definition set_save_images (b : bool) (s : CameraSettings) : CameraSettings := {|
  frame_width := frame_width s; frame_height := frame_height s;
  contrast := contrast s; brightness := brightness s;
  saturation := saturation s; black_point := black_point s;
  threshold_value := threshold_value s;
  threshold_max_limit := threshold_max_limit s;
  cooldown_time := cooldown_time s; last_saved_time := last_saved_time s;
  prefix := prefix s; save_images := b; running := running s |}.

(** [Qt.Checked] *)
Definition Qt_Checked : Z := 2.

(** [toggle_image_saving(state)], [state] being what the check box's
    [stateChanged] signal carries. *)
Definition toggle_image_saving (state : Z) (w : CharmCCM) : CharmCCM :=
  let w :=
    {| settings := set_save_images (state =? Qt_Checked) (settings w);
       plot_manager := plot_manager w;
       files := files w; log_box := log_box w |} in
  log_message
    ("Image saving "
       +:+ (if save_images (settings w) then "enabled" else "disabled") +:+ ".")
    w.

End ccm.

(** ** ccm_100.py: the first mean-intensity program *)

Module ccm_100.

(** The module-level globals ([cap] is left out). *)
Record globals := {
  contrast : Q;
  brightness : Z;
  saturation : Q;
  black_point : Z;
  running : bool;
  threshold_value : Q;
  threshold_max_limit : Q;
  cooldown_time : Z;
  last_saved_time : Q;
  prefix : string;
  save_images : bool;
}.

Definition globals_init : globals := {|
  contrast := 1; brightness := 0; saturation := 1; black_point := 0;
  running := false;
  threshold_value := 128; threshold_max_limit := 255;
  cooldown_time := 5; last_saved_time := 0;
  prefix := "event"; save_images := true |}.

Definition set_last_saved_time (t : Q) (g : globals) : globals := {|
  contrast := contrast g; brightness := brightness g;
  saturation := saturation g; black_point := black_point g;
  running := running g;
  threshold_value := threshold_value g;
  threshold_max_limit := threshold_max_limit g;
  cooldown_time := cooldown_time g; last_saved_time := t;
  prefix := prefix g; save_images := save_images g |}.

(** The attributes of the [CharmCCM] window that hold data. *)
Record CharmCCM := {
  xvals : list Z;
  mean_values : list Q;
  threshold : Q;
  event_lines : list ccm.InfiniteLine;
  event_labels : list ccm.TextItem;
  max_event_lines : nat;
  x_range : Z * Z;
}.

Definition CharmCCM_init : CharmCCM := {|
  xvals := []; mean_values := [];
  threshold := threshold_value globals_init;
  event_lines := []; event_labels := [];
  max_event_lines := 10;
  x_range := (0, 0) |}.

Record world := {
  G : globals;
  self : CharmCCM;
  files : os.dir;
  log_box : list string;
}.

Definition world_init (d : os.dir) : world :=
  {| G := globals_init; self := CharmCCM_init; files := d; log_box := [] |}.

Definition update_plot (w : CharmCCM) : CharmCCM :=
  match xvals w with
  | [] => w
  | _ =>
      let n := length (xvals w) in
      {| xvals := xvals w; mean_values := mean_values w;
         threshold := threshold w;
         event_lines := event_lines w; event_labels := event_labels w;
         max_event_lines := max_event_lines w;
         x_range :=
           if (n <? 300)%nat then (0, 300)
           else (nth (n - 300) (xvals w) 0,
                 from_option id 0 (last (xvals w))) |}
  end.

Definition append_data (mean_val : Q) (w : CharmCCM) : CharmCCM :=
  {| xvals :=
       match last (xvals w) with
       | None => xvals w ++ [0]            (* if not self.xvals *)
       | Some x => xvals w ++ [x + 1]      (* self.xvals[-1] + 1 *)
       end;
     mean_values := mean_values w ++ [mean_val];
     threshold := threshold w;
     event_lines := event_lines w; event_labels := event_labels w;
     max_event_lines := max_event_lines w;
     x_range := x_range w |}.

(** The marker, the label and the pruning done when an image is saved. *)
Definition add_marker (filename : string) (w : CharmCCM) : CharmCCM :=
  let x_event := from_option id 0 (last (xvals w)) in
  let marker := {| ccm.pos := x_event |} in
  let event_lines1 := event_lines w ++ [marker] in
  let local_max :=
    if (10 <=? length (mean_values w))%nat
    then ccm.max_of (py.last_k 10 (mean_values w))
    else ccm.max_of (mean_values w) in
  let y_pos :=
    if py.lt 0 local_max then (local_max * (11 # 10))%Q
    else (threshold w + 10)%Q in
  let text_item :=
    {| ccm.text := filename; ccm.text_x := x_event; ccm.text_y := y_pos |} in
  let event_labels1 := event_labels w ++ [text_item] in
  {| xvals := xvals w; mean_values := mean_values w;
     threshold := threshold w;
     event_lines := ccm.prune (max_event_lines w) event_lines1;
     event_labels := ccm.prune (max_event_lines w) event_labels1;
     max_event_lines := max_event_lines w;
     x_range := x_range w |}.

Definition condition `{cv2.OpenCV} (g : globals) (frame : cv2.raster)
  : cv2.raster :=
  let frame :=
    if negb (brightness g =? 0) || negb (black_point g =? 0)
       || py.ne (contrast g) 1
    then
      let shift := brightness g - black_point g in
      let scale := contrast g in
      let table :=
        map (fun i => np.uint8_of_float
                        (np.clip (scale * (inject_Z i + inject_Z shift)) 0 255))
            (seqZ 0 256) in
      cv2.LUT frame table
    else frame in
  if py.ne (saturation g) 1
  then
    let hsv := cv2.cvtColor_BGR2HSV frame in
    let hsv :=
      map (map (fun p : cv2.pixel =>
                  (p.1.1,
                   np.uint8_of_float
                     (np.clip (inject_Z p.1.2 * saturation g) 0 255),
                   p.2))) hsv in
    cv2.cvtColor_HSV2BGR hsv
  else frame.

Definition handle_new_frame `{cv2.OpenCV} (frame : cv2.raster)
    (current_time : Q) (w : world) : world :=
  let g := G w in
  let frame := condition g frame in
  let gray := cv2.cvtColor_BGR2GRAY frame in
  let mean_val := np.mean gray in
  let win := update_plot (append_data mean_val (self w)) in
  if py.lt (threshold win) mean_val then
    if py.ge (current_time - last_saved_time g) (inject_Z (cooldown_time g)) then
      let g := set_last_saved_time current_time g in
      if save_images g then
        let filename :=
          prefix g +:+ "_" +:+ pretty (py.int_of_float current_time) +:+ ".png" in
        {| G := g;
           self := add_marker filename win;
           files := os.imwrite filename (cv2.fresh frame) (files w);
           log_box := log_box w ++
             ["Event detected and image saved as '" +:+ filename +:+ "'."] |}
      else {| G := g; self := win; files := files w; log_box := log_box w |}
    else {| G := g; self := win; files := files w; log_box := log_box w |}
  else {| G := g; self := win; files := files w; log_box := log_box w |}.

End ccm_100.

(** ** cc.py: CharmCC 1.0 *)

Module cc.

Definition FRAME_WIDTH : Z := 640.
Definition FRAME_HEIGHT : Z := 480.

(** The module-level globals; [cap_opened] stands for
    [cap and cap.isOpened()]. *)
Record globals := {
  running : bool;
  save_events : bool;
  only_view : bool;
  threshold : Z;
  low_threshold : Z;
  high_threshold : Z;
  cap_opened : bool;
  filename_prefix : string;
  cooldown : Z;
  last_event_time : Q;
  cooldown_enabled : bool;
}.

Definition globals_init : globals := {|
  running := false; save_events := false; only_view := true;
  threshold := 1000; low_threshold := 50; high_threshold := 150;
  cap_opened := false;
  filename_prefix := "event";
  cooldown := 5; last_event_time := 0; cooldown_enabled := true |}.

Definition set_last_event_time (t : Q) (g : globals) : globals := {|
  running := running g; save_events := save_events g;
  only_view := only_view g;
  threshold := threshold g; low_threshold := low_threshold g;
  high_threshold := high_threshold g;
  cap_opened := cap_opened g;
  filename_prefix := filename_prefix g;
  cooldown := cooldown g; last_event_time := t;
  cooldown_enabled := cooldown_enabled g |}.

(** Globals, working directory, log box, and what the canvas shows. *)
Record world := {
  G : globals;
  files : os.dir;
  log_box : list string;
  canvas : option (cv2.frame * np.plane);
}.

Definition log_message (message : string) (w : world) : world :=
  {| G := G w; files := files w;
     log_box := log_box w ++ [message]; canvas := canvas w |}.

(** [handle_event(frame)]; [now] is what [time.time()] returns in it. The
    frame comes back with what was drawn on it. *)
Definition handle_event (frame : cv2.frame) (now : Q) (w : world)
  : cv2.frame * world :=
  let w :=
    if save_events (G w) then
      let filename :=
        filename_prefix (G w) +:+ "_" +:+ pretty (py.int_of_float now)
          +:+ ".jpg" in
      let w := {| G := G w; files := os.imwrite filename frame (files w);
                  log_box := log_box w; canvas := canvas w |} in
      log_message ("Event detected and saved as " +:+ filename) w
    else w in
  let w :=
    if only_view (G w) then log_message "Event detected, no photo saved." w
    else w in
  (cv2.putText frame "EVENT DETECTED!" (10, 50) 1 (0, 0, 255) 2, w).

Definition display_frame (frame : cv2.frame) (edges : np.plane) (w : world)
  : world :=
  {| G := G w; files := files w; log_box := log_box w;
     canvas := Some (frame, edges) |}.

(** The test that lets an event through. *)
Definition event_passes (g : globals) (event_detected : bool)
    (current_time : Q) : bool :=
  running g && event_detected &&
  (negb (cooldown_enabled g)
   || py.lt (inject_Z (cooldown g)) (current_time - last_event_time g)).

(** [update_feed()]. [capture] is what [cap.read()] gives ([None] when
    [ret] is false), [current_time] the clock read in [update_feed], and
    [event_time] the clock read in [handle_event]. *)
Definition update_feed `{cv2.OpenCV} (capture : option cv2.raster)
    (current_time event_time : Q) (w : world) : world :=
  if negb (cap_opened (G w)) then w
  else
    match capture with
    | None => log_message "Error: Unable to read the video feed." w
    | Some frame =>
        let frame := cv2.resize frame (FRAME_WIDTH, FRAME_HEIGHT) in
        let gray := cv2.cvtColor_BGR2GRAY frame in
        let blurred := cv2.GaussianBlur gray (5, 5) in
        let edges :=
          cv2.Canny blurred (low_threshold (G w)) (high_threshold (G w)) in
        let event_detected :=
          bool_decide (np.count_positive edges > threshold (G w)) in
        let '(frame, w) :=
          if event_passes (G w) event_detected current_time then
            let '(frame, w) := handle_event (cv2.fresh frame) event_time w in
            (frame,
             {| G := set_last_event_time current_time (G w);
                files := files w; log_box := log_box w;
                canvas := canvas w |})
          else (cv2.fresh frame, w) in
        display_frame frame edges w
    end.

(** *** Cameras *)

(** [f"Camera {index}"] *)
Definition fallback_name (index : Z) : string := "Camera " +:+ pretty index.

(** The loop of the macOS branch of [get_camera_name], from line [i] on. *)
Fixpoint darwin_scan (lines : list string) (i : nat) (rest : list string)
    (camera_name : option string) : py.exn + option string :=
  match rest with
  | [] => inr None
  | line :: rest' =>
      match
        (if py.contains "Model ID" line
         then match py.index lines (Z.of_nat i - 1) with
              | inr l => inr (Some (py.strip l))
              | inl e => inl e
              end
         else inr camera_name)
      with
      | inl e => inl e
      | inr camera_name =>
          if py.contains "Unique ID" line
             && match camera_name with
                | Some name => negb (String.eqb name "")
                | None => false
                end
          then inr camera_name
          else darwin_scan lines (S i) rest' camera_name
      end
  end.

(** The loop of the other branch. *)
Fixpoint linux_scan (lines : list string) : py.exn + option string :=
  match lines with
  | [] => inr None
  | line :: rest =>
      if py.contains "Card type" line
      then match py.index (py.split ":" line) 1 with
           | inr part => inr (Some (py.strip part))
           | inl e => inl e
           end
      else linux_scan rest
  end.

(** [get_camera_name(index)]. [system] is what [platform.system()] returns,
    [run] what [subprocess.run] does: it raises, or it returns with the
    text given in [stdout]. Whatever is raised inside the [try] is caught
    and gives the fallback name, as does a loop that ends without
    [return]. *)
Definition get_camera_name (system : string) (run : py.exn + string)
    (index : Z) : string :=
  let found :=
    match run with
    | inl e => inl e
    | inr stdout =>
        let lines := py.split py.newline stdout in
        if String.eqb system "Darwin"
        then darwin_scan lines 0 lines None
        else linux_scan lines
    end in
  match found with
  | inr (Some name) => name
  | _ => fallback_name index
  end.

(** [list_cameras()]: [isOpened i] is what [cv2.VideoCapture(i).isOpened()]
    gives, [name i] what [get_camera_name(i)] returns. *)
Definition list_cameras (isOpened : Z -> bool) (name : Z -> string)
  : list (Z * string) :=
  omap (fun i => if isOpened i then Some (i, name i) else None) (seqZ 0 10).

(** An entry of the camera menu: [f"{index} - {name}"]. *)
Definition camera_label (camera : Z * string) : string :=
  pretty camera.1 +:+ " - " +:+ camera.2.

(** *** The callbacks *)

Definition set_running (b : bool) (g : globals) : globals := {|
  running := b; save_events := save_events g; only_view := only_view g;
  threshold := threshold g; low_threshold := low_threshold g;
  high_threshold := high_threshold g; cap_opened := cap_opened g;
  filename_prefix := filename_prefix g;
  cooldown := cooldown g; last_event_time := last_event_time g;
  cooldown_enabled := cooldown_enabled g |}.

Definition set_cap_opened (b : bool) (g : globals) : globals := {|
  running := running g; save_events := save_events g;
  only_view := only_view g;
  threshold := threshold g; low_threshold := low_threshold g;
  high_threshold := high_threshold g; cap_opened := b;
  filename_prefix := filename_prefix g;
  cooldown := cooldown g; last_event_time := last_event_time g;
  cooldown_enabled := cooldown_enabled g |}.

Definition set_save_events (b : bool) (g : globals) : globals := {|
  running := running g; save_events := b; only_view := only_view g;
  threshold := threshold g; low_threshold := low_threshold g;
  high_threshold := high_threshold g; cap_opened := cap_opened g;
  filename_prefix := filename_prefix g;
  cooldown := cooldown g; last_event_time := last_event_time g;
  cooldown_enabled := cooldown_enabled g |}.

Definition set_only_view (b : bool) (g : globals) : globals := {|
  running := running g; save_events := save_events g; only_view := b;
  threshold := threshold g; low_threshold := low_threshold g;
  high_threshold := high_threshold g; cap_opened := cap_opened g;
  filename_prefix := filename_prefix g;
  cooldown := cooldown g; last_event_time := last_event_time g;
  cooldown_enabled := cooldown_enabled g |}.

Definition set_threshold (v : Z) (g : globals) : globals := {|
  running := running g; save_events := save_events g;
  only_view := only_view g;
  threshold := v; low_threshold := low_threshold g;
  high_threshold := high_threshold g; cap_opened := cap_opened g;
  filename_prefix := filename_prefix g;
  cooldown := cooldown g; last_event_time := last_event_time g;
  cooldown_enabled := cooldown_enabled g |}.

Definition set_low_threshold (v : Z) (g : globals) : globals := {|
  running := running g; save_events := save_events g;
  only_view := only_view g;
  threshold := threshold g; low_threshold := v;
  high_threshold := high_threshold g; cap_opened := cap_opened g;
  filename_prefix := filename_prefix g;
  cooldown := cooldown g; last_event_time := last_event_time g;
  cooldown_enabled := cooldown_enabled g |}.

Definition set_high_threshold (v : Z) (g : globals) : globals := {|
  running := running g; save_events := save_events g;
  only_view := only_view g;
  threshold := threshold g; low_threshold := low_threshold g;
  high_threshold := v; cap_opened := cap_opened g;
  filename_prefix := filename_prefix g;
  cooldown := cooldown g; last_event_time := last_event_time g;
  cooldown_enabled := cooldown_enabled g |}.

Definition set_filename_prefix (v : string) (g : globals) : globals := {|
  running := running g; save_events := save_events g;
  only_view := only_view g;
  threshold := threshold g; low_threshold := low_threshold g;
  high_threshold := high_threshold g; cap_opened := cap_opened g;
  filename_prefix := v;
  cooldown := cooldown g; last_event_time := last_event_time g;
  cooldown_enabled := cooldown_enabled g |}.

Definition set_cooldown (v : Z) (g : globals) : globals := {|
  running := running g; save_events := save_events g;
  only_view := only_view g;
  threshold := threshold g; low_threshold := low_threshold g;
  high_threshold := high_threshold g; cap_opened := cap_opened g;
  filename_prefix := filename_prefix g;
  cooldown := v; last_event_time := last_event_time g;
  cooldown_enabled := cooldown_enabled g |}.

Definition set_cooldown_enabled (b : bool) (g : globals) : globals := {|
  running := running g; save_events := save_events g;
  only_view := only_view g;
  threshold := threshold g; low_threshold := low_threshold g;
  high_threshold := high_threshold g; cap_opened := cap_opened g;
  filename_prefix := filename_prefix g;
  cooldown := cooldown g; last_event_time := last_event_time g;
  cooldown_enabled := b |}.

(** The program between two callbacks: the world of [update_feed], the
    global [selected_camera], and the delays (in ms) of the [update_feed]
    calls that [root.after] has registered and Tk has not made yet. *)
Record tk := {
  W : world;
  selected_camera : Z;
  pending : list Z;
}.

Definition tk_init (d : os.dir) : tk :=
  {| W := {| G := globals_init; files := d; log_box := []; canvas := None |};
     selected_camera := 0;
     pending := [] |}.

Definition on_world (f : world -> world) (s : tk) : tk :=
  {| W := f (W s); selected_camera := selected_camera s;
     pending := pending s |}.

Definition on_globals (f : globals -> globals) (s : tk) : tk :=
  on_world (fun w => {| G := f (G w); files := files w;
                        log_box := log_box w; canvas := canvas w |}) s.

Definition log (message : string) (s : tk) : tk :=
  on_world (log_message message) s.

(** [root.after(ms, update_feed)] *)
Definition root_after (ms : Z) (s : tk) : tk :=
  {| W := W s; selected_camera := selected_camera s;
     pending := pending s ++ [ms] |}.

(** [start_camera()]; [isOpened] is what [cap.isOpened()] gives for the
    capture made from [selected_camera]. *)
Definition start_camera (isOpened : bool) (s : tk) : tk :=
  if cap_opened (G (W s)) then log "Webcam is already active." s
  else if negb isOpened then log "Error: Unable to access the webcam." s
  else
    let s := on_globals (set_cap_opened true) s in
    let s := on_globals (set_running true) s in
    let s := log ("Webcam " +:+ pretty (selected_camera s) +:+ " started.") s in
    root_after 10 s.

(** [stop_camera()]: a capture is released and dropped, open or not. *)
Definition stop_camera (s : tk) : tk :=
  let s := on_globals (set_running false) s in
  let s := on_globals (set_cap_opened false) s in
  log "Video feed stopped." s.

(** [select_camera(value)] *)
Definition select_camera (value : string) (isOpened : bool) : eff.M tk unit :=
  s ← eff.read;
  let was_running := running (G (W s)) in
  (if running (G (W s)) then eff.modify stop_camera else mret tt);;
  part ← eff.lift (py.index (py.split " - " value) 0);
  n ← eff.lift (py.int_of_str part);
  eff.modify (fun s => {| W := W s; selected_camera := n;
                          pending := pending s |});;
  eff.modify (log ("Selected camera: " +:+ pretty n));;
  if was_running then eff.modify (start_camera isOpened) else mret tt.

Definition toggle_save (s : tk) : tk :=
  let s := on_globals (fun g => set_save_events (negb (save_events g)) g) s in
  let s := on_globals (fun g => set_only_view (negb (save_events g)) g) s in
  log ("Save events: "
         +:+ (if save_events (G (W s)) then "Enabled" else "Disabled")) s.

(** The slider callbacks; [value] is what [int(value)] gives. *)
Definition update_threshold (value : Z) (s : tk) : tk :=
  log ("Threshold updated to: " +:+ pretty value)
      (on_globals (set_threshold value) s).

Definition update_canny_low (value : Z) (s : tk) : tk :=
  log ("Canny low threshold updated to: " +:+ pretty value)
      (on_globals (set_low_threshold value) s).

Definition update_canny_high (value : Z) (s : tk) : tk :=
  log ("Canny high threshold updated to: " +:+ pretty value)
      (on_globals (set_high_threshold value) s).

Definition update_filename_prefix (value : string) (s : tk) : tk :=
  log ("Filename prefix updated to: " +:+ value)
      (on_globals (set_filename_prefix value) s).

Definition update_cooldown (value : Z) (s : tk) : tk :=
  log ("Cooldown updated to: " +:+ pretty value +:+ " seconds")
      (on_globals (set_cooldown value) s).

Definition toggle_cooldown (s : tk) : tk :=
  let s :=
    on_globals (fun g => set_cooldown_enabled (negb (cooldown_enabled g)) g) s in
  log ("Cooldown: "
         +:+ (if cooldown_enabled (G (W s)) then "Enabled" else "Disabled")) s.

(** [update_feed()] with the [root.after] call each of its paths ends in:
    after 100 ms when there is no open capture or no frame, after 10 ms
    otherwise. *)
Definition update_feed_rearmed `{cv2.OpenCV} (capture : option cv2.raster)
    (current_time event_time : Q) (s : tk) : tk :=
  let ms :=
    if negb (cap_opened (G (W s))) then 100
    else match capture with None => 100 | Some _ => 10 end in
  root_after ms (on_world (update_feed capture current_time event_time) s).

(** What the user and Tk's main loop can do next. [Fire k] is Tk making
    the [k]-th registered call of [update_feed]. *)
Inductive action :=
| StartCamera (isOpened : bool)
| StopCamera
| SelectCamera (value : string) (isOpened : bool)
| ToggleSave
| UpdateThreshold (value : Z)
| UpdateCannyLow (value : Z)
| UpdateCannyHigh (value : Z)
| UpdateFilenamePrefix (value : string)
| UpdateCooldown (value : Z)
| ToggleCooldown
| Fire (k : nat) (capture : option cv2.raster) (current_time event_time : Q).

(** One callback. An exception that leaves a callback is reported by Tk and
    the main loop goes on, with the assignments made so far. *)
Definition act `{cv2.OpenCV} (s : tk) (a : action) : tk :=
  match a with
  | StartCamera isOpened => start_camera isOpened s
  | StopCamera => stop_camera s
  | SelectCamera value isOpened => (select_camera value isOpened s).2
  | ToggleSave => toggle_save s
  | UpdateThreshold value => update_threshold value s
  | UpdateCannyLow value => update_canny_low value s
  | UpdateCannyHigh value => update_canny_high value s
  | UpdateFilenamePrefix value => update_filename_prefix value s
  | UpdateCooldown value => update_cooldown value s
  | ToggleCooldown => toggle_cooldown s
  | Fire k capture current_time event_time =>
      match pending s !! k with
      | None => s
      | Some _ =>
          update_feed_rearmed capture current_time event_time
            {| W := W s; selected_camera := selected_camera s;
               pending := delete k (pending s) |}
      end
  end.

Definition run `{cv2.OpenCV} (actions : list action) (s : tk) : tk :=
  fold_left act actions s.

End cc.

(** ** cc_110.py: CharmCC 1.1.0, video controls and presets *)

Module cc_110.

(** The four globals [apply_video_controls] reads, at the types the
    sliders give them. *)
Record controls := {
  contrast : Q;
  brightness : Z;
  saturation : Q;
  black_point : Z;
}.

(** [a + k] for a [uint8] array element and a Python int: a scalar that
    fits [uint8] leaves the array type alone and the sum wraps, another
    one promotes the sum to a wider signed type. *)
Definition add_scalar (v k : Z) : Z :=
  if (0 <=? k) && (k <=? 255) then (v + k) mod 256 else v + k.

Definition apply_video_controls `{cv2.OpenCV} (c : controls)
    (frame : cv2.raster) : cv2.raster :=
  let frame :=
    cv2.convertScaleAbs frame (contrast c) (inject_Z (brightness c)) in
  let hsv := cv2.cvtColor_BGR2HSV frame in
  let hsv :=
    map (map (fun p : cv2.pixel =>
                (p.1.1,
                 np.uint8_of_float
                   (np.clip (inject_Z p.1.2 * saturation c) 0 255),
                 p.2))) hsv in
  let frame := cv2.cvtColor_HSV2BGR hsv in
  map (map (cv2.map_channels
              (fun v => np.clipZ (add_scalar v (black_point c)) 0 255 mod 256)))
      frame.

(** The state the preset code works on: the module globals by name, the
    name typed in the preset entry, the working directory, the log box. *)
Record world := {
  globals : gmap string py.value;
  preset_name : string;
  files : os.dir;
  log_box : list string;
}.

Definition globals_init : gmap string py.value :=
  list_to_map [
    ("threshold", py.Int 1000);
    ("low_threshold", py.Int 50);
    ("high_threshold", py.Int 150);
    ("contrast", py.Float 1);
    ("brightness", py.Int 0);
    ("saturation", py.Float 1);
    ("black_point", py.Int 0);
    ("cooldown", py.Int 5);
    ("cooldown_enabled", py.Bool true);
    ("filename_prefix", py.Str "event")
  ].

Definition world_init (d : os.dir) : world :=
  {| globals := globals_init; preset_name := "default";
     files := d; log_box := [] |}.

(** Reading and assigning a global. *)
Definition global (name : string) : eff.M world py.value :=
  fun w => match globals w !! name with
           | Some v => (inr v, w)
           | None => (inl (py.NameError name), w)
           end.

Definition assign (name : string) (v : py.value) : eff.M world unit :=
  eff.modify (fun w =>
    {| globals := <[name := v]> (globals w); preset_name := preset_name w;
       files := files w; log_box := log_box w |}).

Definition log_message (message : string) : eff.M world unit :=
  eff.modify (fun w =>
    {| globals := globals w; preset_name := preset_name w;
       files := files w; log_box := log_box w ++ [message] |}).

Definition json_dump (path : string) (v : py.value) : eff.M world unit :=
  eff.modify (fun w =>
    {| globals := globals w; preset_name := preset_name w;
       files := os.dump_json path v (files w); log_box := log_box w |}).

Definition json_load (path : string) : eff.M world py.value :=
  fun w => (os.load_json path (files w), w).

Definition save_preset : eff.M world unit :=
  threshold ← global "threshold";
  low_threshold ← global "low_threshold";
  high_threshold ← global "high_threshold";
  contrast ← global "contrast";
  brightness ← global "brightness";
  saturation ← global "saturation";
  black_point ← global "black_point";
  cooldown ← global "cooldown";
  cooldown_enabled ← global "cooldown_enabled";
  filename_prefix ← global "filename_prefix";
  let preset := py.Dict (py.dict_display [
    ("threshold", threshold);
    ("low_threshold", low_threshold);
    ("high_threshold", high_threshold);
    ("contrast", contrast);
    ("brightness", brightness);
    ("saturation", saturation);
    ("black_point", black_point);
    ("cooldown", cooldown);
    ("cooldown_enabled", cooldown_enabled);
    ("filename_prefix", filename_prefix)
  ]) in
  w ← eff.read;
  json_dump (preset_name w +:+ ".json") preset;;
  log_message ("Preset '" +:+ preset_name w +:+ "' saved").

(** [load_preset()]. The slider and entry updates that follow the ten
    assignments are widget calls and are left out. *)
Definition load_preset : eff.M world unit :=
  w ← eff.read;
  eff.try_except
    (preset ← json_load (preset_name w +:+ ".json");
     v ← eff.lift (py.getitem preset "threshold"); assign "threshold" v;;
     v ← eff.lift (py.getitem preset "low_threshold"); assign "low_threshold" v;;
     v ← eff.lift (py.getitem preset "high_threshold"); assign "high_threshold" v;;
     v ← eff.lift (py.getitem preset "contrast"); assign "contrast" v;;
     v ← eff.lift (py.getitem preset "brightness"); assign "brightness" v;;
     v ← eff.lift (py.getitem preset "saturation"); assign "saturation" v;;
     v ← eff.lift (py.getitem preset "black_point"); assign "black_point" v;;
     v ← eff.lift (py.getitem preset "cooldown"); assign "cooldown" v;;
     v ← eff.lift (py.getitem preset "cooldown_enabled");
     assign "cooldown_enabled" v;;
     v ← eff.lift (py.getitem preset "filename_prefix");
     assign "filename_prefix" v;;
     log_message ("Preset '" +:+ preset_name w +:+ "' loaded"))
    eff.is_FileNotFoundError
    (fun _ =>
       log_message ("Preset file '" +:+ preset_name w +:+ ".json' not found")).

End cc_110.

(** ** versions/v3/cc.py: FocusCC on Tk *)

Module v3_cc.

Definition FRAME_WIDTH : Z := 640.
Definition FRAME_HEIGHT : Z := 480.

(** *** The frame pipeline *)

(** The globals [update_feed] and the slider callbacks work on, at the
    types the widgets give them; [cap_opened] stands for
    [cap and cap.isOpened()]. *)
Record params := {
  running : bool;
  save_events : bool;
  only_view : bool;
  threshold : Z;
  low_threshold : Z;
  high_threshold : Z;
  cap_opened : bool;
  filename_prefix : string;
  cooldown : Z;
  last_event_time : Q;
  cooldown_enabled : bool;
  controls : cc_110.controls;  (* contrast, brightness, saturation, black_point *)
  detection_area : Z * Z * Z * Z;
  gaussian_blur : Z;
}.

Definition params_init : params := {|
  running := false; save_events := false; only_view := true;
  threshold := 1000; low_threshold := 50; high_threshold := 150;
  cap_opened := false;
  filename_prefix := "event";
  cooldown := 5; last_event_time := 0; cooldown_enabled := true;
  controls := {| cc_110.contrast := 1; cc_110.brightness := 0;
                 cc_110.saturation := 1; cc_110.black_point := 0 |};
  detection_area := (0, 0, FRAME_WIDTH, FRAME_HEIGHT);
  gaussian_blur := 5 |}.

Definition set_last_event_time (t : Q) (g : params) : params := {|
  running := running g; save_events := save_events g;
  only_view := only_view g;
  threshold := threshold g; low_threshold := low_threshold g;
  high_threshold := high_threshold g;
  cap_opened := cap_opened g;
  filename_prefix := filename_prefix g;
  cooldown := cooldown g; last_event_time := t;
  cooldown_enabled := cooldown_enabled g;
  controls := controls g;
  detection_area := detection_area g;
  gaussian_blur := gaussian_blur g |}.

Definition set_gaussian_blur (k : Z) (g : params) : params := {|
  running := running g; save_events := save_events g;
  only_view := only_view g;
  threshold := threshold g; low_threshold := low_threshold g;
  high_threshold := high_threshold g;
  cap_opened := cap_opened g;
  filename_prefix := filename_prefix g;
  cooldown := cooldown g; last_event_time := last_event_time g;
  cooldown_enabled := cooldown_enabled g;
  controls := controls g;
  detection_area := detection_area g;
  gaussian_blur := k |}.

Record world := {
  G : params;
  files : os.dir;
  logs : list string;
  canvas : option (cv2.frame * np.plane);
}.

Definition nl : string := String (Ascii.ascii_of_nat 10) EmptyString.

(** [log_message(message, level)], [level] already in upper case. *)
Definition log_message (message : string) (LEVEL : string) (w : world)
  : world :=
  {| G := G w; files := files w;
     logs := logs w ++ [LEVEL +:+ ": " +:+ message +:+ nl];
     canvas := canvas w |}.

(** The function of this file is, line for line, that of [cc_110.py]. *)
Definition apply_video_controls `{cv2.OpenCV} (g : params)
    (frame : cv2.raster) : cv2.raster :=
  cc_110.apply_video_controls (controls g) frame.

(** [# Apply detection area]: the four slice assignments. *)
Definition apply_detection_area (area : Z * Z * Z * Z) (edges : np.plane)
  : np.plane :=
  let '(x1, y1, x2, y2) := area in
  let edges := np.fill_rows_0 None (Some y1) edges in   (* edges[:y1, :] = 0 *)
  let edges := np.fill_rows_0 (Some y2) None edges in   (* edges[y2:, :] = 0 *)
  let edges := np.fill_cols_0 None (Some x1) edges in   (* edges[:, :x1] = 0 *)
  let edges := np.fill_cols_0 (Some x2) None edges in   (* edges[:, x2:] = 0 *)
  edges.

Definition handle_event (frame : cv2.frame) (now : Q) (w : world)
  : cv2.frame * world :=
  let w :=
    if save_events (G w) then
      let filename :=
        filename_prefix (G w) +:+ "_" +:+ pretty (py.int_of_float now)
          +:+ ".jpg" in
      let w := {| G := G w; files := os.imwrite filename frame (files w);
                  logs := logs w; canvas := canvas w |} in
      log_message ("Event detected and saved as " +:+ filename) "INFO" w
    else w in
  let w :=
    if only_view (G w)
    then log_message "Event detected, no photo saved." "INFO" w
    else w in
  (cv2.putText frame "EVENT DETECTED!" (10, 50) 1 (0, 0, 255) 2, w).

Definition display_frame (frame : cv2.frame) (edges : np.plane) (w : world)
  : world :=
  let '(x1, y1, x2, y2) := detection_area (G w) in
  let frame := cv2.rectangle frame (x1, y1) (x2, y2) (0, 0, 255) 2 in
  {| G := G w; files := files w; logs := logs w;
     canvas := Some (frame, edges) |}.

Definition event_passes (g : params) (event_detected : bool)
    (current_time : Q) : bool :=
  running g && event_detected &&
  (negb (cooldown_enabled g)
   || py.lt (inject_Z (cooldown g)) (current_time - last_event_time g)).

(** The edge map and the count [update_feed] compares with the threshold. *)
Definition detect `{cv2.OpenCV} (g : params) (frame : cv2.raster)
  : np.plane :=
  let gray := cv2.cvtColor_BGR2GRAY frame in
  let blurred := cv2.GaussianBlur gray (gaussian_blur g, gaussian_blur g) in
  let edges := cv2.Canny blurred (low_threshold g) (high_threshold g) in
  apply_detection_area (detection_area g) edges.

Definition update_feed `{cv2.OpenCV} (capture : option cv2.raster)
    (current_time event_time : Q) (w : world) : world :=
  if negb (cap_opened (G w)) then w
  else
    match capture with
    | None => log_message "Error: Unable to read the video feed." "ERROR" w
    | Some frame =>
        let frame := cv2.resize frame (FRAME_WIDTH, FRAME_HEIGHT) in
        let frame := apply_video_controls (G w) frame in
        let edges := detect (G w) frame in
        let event_detected :=
          bool_decide (np.count_positive edges > threshold (G w)) in
        let '(frame, w) :=
          if event_passes (G w) event_detected current_time then
            let '(frame, w) := handle_event (cv2.fresh frame) event_time w in
            (frame,
             {| G := set_last_event_time current_time (G w);
                files := files w; logs := logs w; canvas := canvas w |})
          else (cv2.fresh frame, w) in
        display_frame frame edges w
    end.

(** [update_gaussian_blur(value)], [value] being what [int(value)] gives. *)
Definition update_gaussian_blur (value : Z) (w : world) : world :=
  let gaussian_blur := value in
  let gaussian_blur :=
    if gaussian_blur mod 2 =? 0 then gaussian_blur + 1 else gaussian_blur in
  log_message ("Gaussian blur updated to: " +:+ pretty gaussian_blur) "INFO"
    {| G := set_gaussian_blur gaussian_blur (G w);
       files := files w; logs := logs w; canvas := canvas w |}.

(** *** Presets *)

(** The state the preset code works on: the module globals by name, the
    name typed in the preset entry ([preset_name]), the name chosen in the
    dropdown ([preset_var]), the list [available_presets] made from the
    directory listing when the program starts, the working directory and
    the log. *)
Record session := {
  globals : gmap string py.value;
  preset_name : string;
  preset_var : string;
  available_presets : list string;
  cwd : os.dir;
  log_lines : list string;
}.

Definition globals_init : gmap string py.value :=
  list_to_map [
    ("threshold", py.Int 1000);
    ("low_threshold", py.Int 50);
    ("high_threshold", py.Int 150);
    ("contrast", py.Float 1);
    ("brightness", py.Int 0);
    ("saturation", py.Float 1);
    ("black_point", py.Int 0);
    ("cooldown", py.Int 5);
    ("cooldown_enabled", py.Bool true);
    ("filename_prefix", py.Str "event");
    ("detection_area",
     py.List [py.Int 0; py.Int 0; py.Int FRAME_WIDTH; py.Int FRAME_HEIGHT])
  ].

Definition global (name : string) : eff.M session py.value :=
  fun s => match globals s !! name with
           | Some v => (inr v, s)
           | None => (inl (py.NameError name), s)
           end.

Definition assign (name : string) (v : py.value) : eff.M session unit :=
  eff.modify (fun s =>
    {| globals := <[name := v]> (globals s);
       preset_name := preset_name s; preset_var := preset_var s;
       available_presets := available_presets s;
       cwd := cwd s; log_lines := log_lines s |}).

Definition log (message : string) (LEVEL : string) : eff.M session unit :=
  eff.modify (fun s =>
    {| globals := globals s;
       preset_name := preset_name s; preset_var := preset_var s;
       available_presets := available_presets s;
       cwd := cwd s;
       log_lines := log_lines s ++ [LEVEL +:+ ": " +:+ message +:+ nl] |}).

Definition json_dump (path : string) (v : py.value) : eff.M session unit :=
  eff.modify (fun s =>
    {| globals := globals s;
       preset_name := preset_name s; preset_var := preset_var s;
       available_presets := available_presets s;
       cwd := os.dump_json path v (cwd s); log_lines := log_lines s |}).

Definition json_load (path : string) : eff.M session py.value :=
  fun s => (os.load_json path (cwd s), s).

(** [save_preset()]; [askyesno] is the answer the user gives if the
    overwrite question is put. *)
Definition save_preset (askyesno : bool) : eff.M session unit :=
  threshold ← global "threshold";
  low_threshold ← global "low_threshold";
  high_threshold ← global "high_threshold";
  contrast ← global "contrast";
  brightness ← global "brightness";
  saturation ← global "saturation";
  black_point ← global "black_point";
  cooldown ← global "cooldown";
  cooldown_enabled ← global "cooldown_enabled";
  filename_prefix ← global "filename_prefix";
  detection_area ← global "detection_area";
  let preset := py.Dict (py.dict_display [
    ("threshold", threshold);
    ("low_threshold", low_threshold);
    ("high_threshold", high_threshold);
    ("contrast", contrast);
    ("brightness", brightness);
    ("saturation", saturation);
    ("black_point", black_point);
    ("cooldown", cooldown);
    ("cooldown_enabled", cooldown_enabled);
    ("filename_prefix", filename_prefix);
    ("detection_area", detection_area)
  ]) in
  s ← eff.read;
  if bool_decide (preset_name s ∈ available_presets s) && negb askyesno
  then mret tt
  else
    json_dump (preset_name s +:+ ".json") preset;;
    log ("Preset '" +:+ preset_name s +:+ "' saved") "INFO".

(** [load_preset()], without the widget updates that follow the
    assignments. *)
Definition load_preset : eff.M session unit :=
  s ← eff.read;
  let preset_name := preset_var s in
  eff.try_except
    (preset ← json_load (preset_name +:+ ".json");
     v ← eff.lift (py.getitem preset "threshold"); assign "threshold" v;;
     v ← eff.lift (py.getitem preset "low_threshold"); assign "low_threshold" v;;
     v ← eff.lift (py.getitem preset "high_threshold"); assign "high_threshold" v;;
     v ← eff.lift (py.getitem preset "contrast"); assign "contrast" v;;
     v ← eff.lift (py.getitem preset "brightness"); assign "brightness" v;;
     v ← eff.lift (py.getitem preset "saturation"); assign "saturation" v;;
     v ← eff.lift (py.getitem preset "black_point"); assign "black_point" v;;
     v ← eff.lift (py.getitem preset "cooldown"); assign "cooldown" v;;
     v ← eff.lift (py.getitem preset "cooldown_enabled");
     assign "cooldown_enabled" v;;
     v ← eff.lift (py.getitem preset "filename_prefix");
     assign "filename_prefix" v;;
     v ← eff.lift (py.getitem preset "detection_area");
     assign "detection_area" v;;
     log ("Preset '" +:+ preset_name +:+ "' loaded") "INFO")
    eff.is_FileNotFoundError
    (fun _ =>
       log ("Preset file '" +:+ preset_name +:+ ".json' not found") "ERROR").

(** *** Two more callbacks *)

Definition set_filename_prefix (value : string) (g : params) : params := {|
  running := running g; save_events := save_events g;
  only_view := only_view g;
  threshold := threshold g; low_threshold := low_threshold g;
  high_threshold := high_threshold g;
  cap_opened := cap_opened g;
  filename_prefix := value;
  cooldown := cooldown g; last_event_time := last_event_time g;
  cooldown_enabled := cooldown_enabled g;
  controls := controls g;
  detection_area := detection_area g;
  gaussian_blur := gaussian_blur g |}.

(** [update_filename_prefix(value)]. The message is built from [filename],
    a name that is bound nowhere at module level (it is a local of
    [handle_event]), so reading it raises [NameError] after the global has
    been assigned. *)
Definition update_filename_prefix (value : string) : eff.M world unit :=
  eff.modify (fun w => {| G := set_filename_prefix value (G w);
                          files := files w; logs := logs w;
                          canvas := canvas w |});;
  filename ← eff.raise (py.NameError "filename");
  eff.modify (log_message ("Filename prefix updated to: " +:+ filename) "INFO").

(** [filter_logs(level)]: the lines the log box holds afterwards. *)
Definition filter_logs (level : string) (w : world) : list string :=
  filter (fun log => py.startswith log (py.upper level) = true) (logs w).

End v3_cc.

(** ** versions/v3/ccqt.py: FocusCC on Qt *)

Module ccqt.

Definition FRAME_WIDTH : Z := 960.
Definition FRAME_HEIGHT : Z := 640.

(** *** The frame pipeline *)

Record params := {
  running : bool;
  save_events : bool;
  only_view : bool;
  threshold : Z;
  low_threshold : Z;
  high_threshold : Z;
  cap_opened : bool;
  filename_prefix : string;
  cooldown : Z;
  last_event_time : Q;
  cooldown_enabled : bool;
  contrast : Q;
  brightness : Z;
  saturation : Q;
  black_point : Z;
  detection_area : Z * Z * Z * Z;
  gaussian_blur : Z;
}.

Definition params_init : params := {|
  running := false; save_events := false; only_view := true;
  threshold := 1000; low_threshold := 50; high_threshold := 150;
  cap_opened := false;
  filename_prefix := "event";
  cooldown := 5; last_event_time := 0; cooldown_enabled := true;
  contrast := 1; brightness := 0; saturation := 1; black_point := 0;
  detection_area := (0, 0, FRAME_WIDTH, FRAME_HEIGHT);
  gaussian_blur := 5 |}.

Definition set_last_event_time (t : Q) (g : params) : params := {|
  running := running g; save_events := save_events g;
  only_view := only_view g;
  threshold := threshold g; low_threshold := low_threshold g;
  high_threshold := high_threshold g;
  cap_opened := cap_opened g;
  filename_prefix := filename_prefix g;
  cooldown := cooldown g; last_event_time := t;
  cooldown_enabled := cooldown_enabled g;
  contrast := contrast g; brightness := brightness g;
  saturation := saturation g; black_point := black_point g;
  detection_area := detection_area g;
  gaussian_blur := gaussian_blur g |}.

Definition set_gaussian_blur (k : Z) (g : params) : params := {|
  running := running g; save_events := save_events g;
  only_view := only_view g;
  threshold := threshold g; low_threshold := low_threshold g;
  high_threshold := high_threshold g;
  cap_opened := cap_opened g;
  filename_prefix := filename_prefix g;
  cooldown := cooldown g; last_event_time := last_event_time g;
  cooldown_enabled := cooldown_enabled g;
  contrast := contrast g; brightness := brightness g;
  saturation := saturation g; black_point := black_point g;
  detection_area := detection_area g;
  gaussian_blur := k |}.

(** Globals, working directory, the global [logs] (a line is kept without
    its [[HH:MM:SS]] stamp), and [self.last_stacked_frame]. *)
Record world := {
  G : params;
  files : os.dir;
  logs : list string;
  last_stacked_frame : option (cv2.frame * np.plane);
}.

Definition log_message (msg : string) (LEVEL : string) (w : world) : world :=
  {| G := G w; files := files w;
     logs := logs w ++ [LEVEL +:+ ": " +:+ msg +:+ v3_cc.nl];
     last_stacked_frame := last_stacked_frame w |}.

Definition apply_video_controls `{cv2.OpenCV} (g : params)
    (frame : cv2.raster) : cv2.raster :=
  (* 1) .. 5): the table over 0..255 *)
  let shift := brightness g - black_point g in
  let scale := contrast g in
  let table :=
    map (fun i => np.uint8_of_float
                    (np.clip (scale * (inject_Z i + inject_Z shift)) 0 255))
        (seqZ 0 256) in
  (* 6) *)
  let frame := cv2.LUT frame table in
  (* 7) *)
  if py.ne (saturation g) 1
  then
    let hsv := cv2.cvtColor_BGR2HSV frame in
    let hsv :=
      map (map (fun p : cv2.pixel =>
                  (p.1.1,
                   np.uint8_of_float
                     (np.clip (inject_Z p.1.2 * saturation g) 0 255),
                   p.2))) hsv in
    cv2.cvtColor_HSV2BGR hsv
  else frame.

Definition handle_event (frame : cv2.frame) (now : Q) (w : world)
  : cv2.frame * world :=
  let w :=
    if save_events (G w) then
      let filename :=
        filename_prefix (G w) +:+ "_" +:+ pretty (py.int_of_float now)
          +:+ ".jpg" in
      let w := {| G := G w; files := os.imwrite filename frame (files w);
                  logs := logs w;
                  last_stacked_frame := last_stacked_frame w |} in
      log_message ("Event detected and saved as " +:+ filename) "INFO" w
    else log_message "Event detected, no photo saved." "INFO" w in
  (cv2.putText frame "EVENT DETECTED!" (10, 50) 1 (0, 0, 255) 2, w).

Definition update_last_event_time (t : Q) (w : world) : world :=
  {| G := set_last_event_time t (G w); files := files w; logs := logs w;
     last_stacked_frame := last_stacked_frame w |}.

Definition stack_and_show (frame_bgr : cv2.frame) (edges : np.plane)
    (w : world) : world :=
  let '(x1, y1, x2, y2) := detection_area (G w) in
  let frame_bgr := cv2.rectangle frame_bgr (x1, y1) (x2, y2) (0, 0, 255) 2 in
  {| G := G w; files := files w; logs := logs w;
     last_stacked_frame := Some (frame_bgr, edges) |}.

(** The kernel size handed to [cv2.GaussianBlur]. *)
Definition gb_val (gaussian_blur : Z) : Z :=
  if gaussian_blur mod 2 =? 1 then gaussian_blur else gaussian_blur + 1.

(** [# restrict edges] *)
Definition restrict_edges (area : Z * Z * Z * Z) (edges : np.plane)
  : np.plane :=
  let '(x1, y1, x2, y2) := area in
  let edges := np.fill_rows_0 None (Some y1) edges in   (* edges[:y1, :] = 0 *)
  let edges := np.fill_rows_0 (Some y2) None edges in   (* edges[y2:, :] = 0 *)
  let edges := np.fill_cols_0 None (Some x1) edges in   (* edges[:, :x1] = 0 *)
  let edges := np.fill_cols_0 (Some x2) None edges in   (* edges[:, x2:] = 0 *)
  edges.

Definition detect `{cv2.OpenCV} (g : params) (frame : cv2.raster)
  : np.plane :=
  let gray := cv2.cvtColor_BGR2GRAY frame in
  let gb_val := gb_val (gaussian_blur g) in
  let blurred := cv2.GaussianBlur gray (gb_val, gb_val) in
  let edges := cv2.Canny blurred (low_threshold g) (high_threshold g) in
  restrict_edges (detection_area g) edges.

Definition event_passes (g : params) (event_detected : bool)
    (current_time : Q) : bool :=
  event_detected &&
  (negb (cooldown_enabled g)
   || py.lt (inject_Z (cooldown g)) (current_time - last_event_time g)).

Definition update_feed `{cv2.OpenCV} (capture : option cv2.raster)
    (current_time event_time : Q) (w : world) : world :=
  if negb (running (G w)) || negb (cap_opened (G w)) then w
  else
    match capture with
    | None => log_message "Error: Unable to read the video feed." "ERROR" w
    | Some frame =>
        let frame := cv2.resize frame (FRAME_WIDTH, FRAME_HEIGHT) in
        let frame := apply_video_controls (G w) frame in
        let edges := detect (G w) frame in
        let event_detected :=
          bool_decide (np.count_positive edges > threshold (G w)) in
        let '(frame, w) :=
          if event_passes (G w) event_detected current_time then
            let '(frame, w) := handle_event (cv2.fresh frame) event_time w in
            (frame, update_last_event_time current_time w)
          else (cv2.fresh frame, w) in
        stack_and_show frame edges w
    end.

Definition update_gaussian_blur (val : Z) (w : world) : world :=
  let gaussian_blur := if val mod 2 =? 1 then val else val in
  log_message ("Gaussian blur updated to: " +:+ pretty gaussian_blur) "INFO"
    {| G := set_gaussian_blur gaussian_blur (G w);
       files := files w; logs := logs w;
       last_stacked_frame := last_stacked_frame w |}.

(** *** Presets *)

Inductive StandardButton := Yes | No.

(** The state the preset code works on: the module globals by name, the
    text of the preset entry, the items and the current index of the preset
    combo box, [self.available_presets], the working directory, the log. *)
Record session := {
  globals : gmap string py.value;
  preset_name_entry : string;
  preset_combo : list string;
  preset_combo_index : option nat;
  available_presets : list string;
  cwd : os.dir;
  log_lines : list string;
}.

Definition globals_init : gmap string py.value :=
  list_to_map [
    ("threshold", py.Int 1000);
    ("low_threshold", py.Int 50);
    ("high_threshold", py.Int 150);
    ("contrast", py.Float 1);
    ("brightness", py.Int 0);
    ("saturation", py.Float 1);
    ("black_point", py.Int 0);
    ("cooldown", py.Int 5);
    ("cooldown_enabled", py.Bool true);
    ("filename_prefix", py.Str "event");
    ("detection_area",
     py.List [py.Int 0; py.Int 0; py.Int FRAME_WIDTH; py.Int FRAME_HEIGHT]);
    ("gaussian_blur", py.Int 5)
  ].

Definition global (name : string) : eff.M session py.value :=
  fun s => match globals s !! name with
           | Some v => (inr v, s)
           | None => (inl (py.NameError name), s)
           end.

Definition assign (name : string) (v : py.value) : eff.M session unit :=
  eff.modify (fun s =>
    {| globals := <[name := v]> (globals s);
       preset_name_entry := preset_name_entry s;
       preset_combo := preset_combo s;
       preset_combo_index := preset_combo_index s;
       available_presets := available_presets s;
       cwd := cwd s; log_lines := log_lines s |}).

Definition log (msg : string) (LEVEL : string) : eff.M session unit :=
  eff.modify (fun s =>
    {| globals := globals s;
       preset_name_entry := preset_name_entry s;
       preset_combo := preset_combo s;
       preset_combo_index := preset_combo_index s;
       available_presets := available_presets s;
       cwd := cwd s;
       log_lines := log_lines s ++ [LEVEL +:+ ": " +:+ msg +:+ v3_cc.nl] |}).

Definition json_dump (path : string) (v : py.value) : eff.M session unit :=
  eff.modify (fun s =>
    {| globals := globals s;
       preset_name_entry := preset_name_entry s;
       preset_combo := preset_combo s;
       preset_combo_index := preset_combo_index s;
       available_presets := available_presets s;
       cwd := os.dump_json path v (cwd s); log_lines := log_lines s |}).

Definition json_load (path : string) : eff.M session py.value :=
  fun s => (os.load_json path (cwd s), s).

(** [self.preset_combo.currentText()] *)
Definition currentText (s : session) : string :=
  match preset_combo_index s with
  | Some i => from_option id "" (preset_combo s !! i)
  | None => ""
  end.

(** [self.available_presets.append(name)] and
    [self.preset_combo.addItem(name)]; an empty combo box selects its first
    item. *)
Definition remember (name : string) : eff.M session unit :=
  eff.modify (fun s =>
    {| globals := globals s;
       preset_name_entry := preset_name_entry s;
       preset_combo := preset_combo s ++ [name];
       preset_combo_index :=
         match preset_combo_index s with
         | Some i => Some i
         | None => Some 0%nat
         end;
       available_presets := available_presets s ++ [name];
       cwd := cwd s; log_lines := log_lines s |}).

(** [save_preset()]; [reply] is the button the user presses if the
    overwrite question is put. *)
Definition save_preset (reply : StandardButton) : eff.M session unit :=
  s ← eff.read;
  let current_preset :=
    if String.eqb (preset_name_entry s) "" then "default"
    else preset_name_entry s in
  threshold ← global "threshold";
  low_threshold ← global "low_threshold";
  high_threshold ← global "high_threshold";
  contrast ← global "contrast";
  brightness ← global "brightness";
  saturation ← global "saturation";
  black_point ← global "black_point";
  cooldown ← global "cooldown";
  cooldown_enabled ← global "cooldown_enabled";
  filename_prefix ← global "filename_prefix";
  detection_area ← global "detection_area";
  gaussian_blur ← global "gaussian_blur";
  let preset_dict := py.Dict (py.dict_display [
    ("threshold", threshold);
    ("low_threshold", low_threshold);
    ("high_threshold", high_threshold);
    ("contrast", contrast);
    ("brightness", brightness);
    ("saturation", saturation);
    ("black_point", black_point);
    ("cooldown", cooldown);
    ("cooldown_enabled", cooldown_enabled);
    ("filename_prefix", filename_prefix);
    ("detection_area", detection_area);
    ("gaussian_blur", gaussian_blur)
  ]) in
  if bool_decide (current_preset ∈ available_presets s)
     && (if reply is No then true else false)
  then mret tt
  else
    json_dump (current_preset +:+ ".json") preset_dict;;
    log ("Preset '" +:+ current_preset +:+ "' saved.") "INFO";;
    if bool_decide (current_preset ∉ available_presets s)
    then remember current_preset
    else mret tt.

(** [load_preset()], without the widget updates that follow the
    assignments. *)
Definition load_preset : eff.M session unit :=
  s ← eff.read;
  let load_name := currentText s in
  if String.eqb load_name "" then
    log "No preset selected to load." "ERROR"
  else
    eff.try_except
      (loaded ← json_load (load_name +:+ ".json");
       v ← eff.lift (py.getitem loaded "threshold"); assign "threshold" v;;
       v ← eff.lift (py.getitem loaded "low_threshold");
       assign "low_threshold" v;;
       v ← eff.lift (py.getitem loaded "high_threshold");
       assign "high_threshold" v;;
       v ← eff.lift (py.getitem loaded "contrast"); assign "contrast" v;;
       v ← eff.lift (py.getitem loaded "brightness"); assign "brightness" v;;
       v ← eff.lift (py.getitem loaded "saturation"); assign "saturation" v;;
       v ← eff.lift (py.getitem loaded "black_point"); assign "black_point" v;;
       v ← eff.lift (py.getitem loaded "cooldown"); assign "cooldown" v;;
       v ← eff.lift (py.getitem loaded "cooldown_enabled");
       assign "cooldown_enabled" v;;
       v ← eff.lift (py.getitem loaded "filename_prefix");
       assign "filename_prefix" v;;
       v ← eff.lift (py.getitem loaded "detection_area");
       assign "detection_area" v;;
       v ← eff.lift (py.get loaded "gaussian_blur" (py.Int 5));
       assign "gaussian_blur" v;;
       log ("Preset '" +:+ load_name +:+ "' loaded.") "INFO")
      eff.is_FileNotFoundError
      (fun _ =>
         log ("Preset file '" +:+ load_name +:+ ".json' not found.") "ERROR").

(** *** Fitting the picture into the label *)

(** The sizes [update_display_label] computes for a picture of [w] by [h]
    pixels and a label of [label_w] by [label_h]: the width and the height
    the picture is scaled to, and where it is drawn on the black pixmap.
    [None] stands for the [ZeroDivisionError] of a division by [0.0]. *)
Definition letterbox (w h label_w label_h : Z) : option (Z * Z * Z * Z) :=
  if h =? 0 then None
  else
    let aspect_ratio := (inject_Z w / inject_Z h)%Q in
    if label_h =? 0 then None
    else
      let container_ratio := (inject_Z label_w / inject_Z label_h)%Q in
      let sizes :=
        if py.lt aspect_ratio container_ratio
        then
          let final_h := label_h in
          Some (py.int_of_float (aspect_ratio * inject_Z final_h), final_h)
        else
          let final_w := label_w in
          if Qeq_bool aspect_ratio 0 then None
          else Some (final_w, py.int_of_float (inject_Z final_w / aspect_ratio)) in
      match sizes with
      | None => None
      | Some (final_w, final_h) =>
          let offset_x := (label_w - final_w) / 2 in
          let offset_y := (label_h - final_h) / 2 in
          Some (final_w, final_h, offset_x, offset_y)
      end.

End ccqt.

(** ** OpenCV on 8-bit images, as far as it is needed to run the programs *)

Module cv2_8u.

(** Modelled from OpenCV's documentation of [COLOR_BGR2HSV] for 8-bit
    images: [V = max(R, G, B)], [S = 255 (V - min) / V] (0 when [V = 0]),
    [H = 60 (G - B) / (V - min)] when [V = R],
    [120 + 60 (B - R) / (V - min)] when [V = G],
    [240 + 60 (R - G) / (V - min)] when [V = B], 0 when [R = G = B],
    plus 360 when negative; [H / 2] is stored, each value rounded. *)
Definition BGR2HSV_pixel (p : cv2.pixel) : cv2.pixel :=
  let '(b, g, r) := p in
  let v := Z.max r (Z.max g b) in
  let m := Z.min r (Z.min g b) in
  let s :=
    if v =? 0 then 0
    else cv2.cvRound (inject_Z (255 * (v - m)) / inject_Z v) in
  let h : Q :=
    if v =? m then 0%Q
    else if v =? r then (inject_Z (60 * (g - b)) / inject_Z (v - m))%Q
    else if v =? g then (120 + inject_Z (60 * (b - r)) / inject_Z (v - m))%Q
    else (240 + inject_Z (60 * (r - g)) / inject_Z (v - m))%Q in
  let h := if py.lt h 0 then (h + 360)%Q else h in
  (cv2.cvRound (h / 2), s, v).

(** Modelled from OpenCV's documentation of [COLOR_BGR2GRAY]:
    [Y = 0.299 R + 0.587 G + 0.114 B]. *)
Definition BGR2GRAY_pixel (p : cv2.pixel) : Z :=
  let '(b, g, r) := p in
  cv2.cvRound ((299 # 1000) * inject_Z r + (587 # 1000) * inject_Z g
               + (114 # 1000) * inject_Z b).

(** An implementation of the interface with these two conversions, any
    [HSV2BGR], and stand-ins for the rest: no resampling, no smoothing, and
    an edge wherever the value exceeds the high threshold. *)
Definition with_HSV2BGR (HSV2BGR : cv2.raster -> cv2.raster) : cv2.OpenCV := {|
  cv2.resize := fun a _ => a;
  cv2.cvtColor_BGR2GRAY := map (map BGR2GRAY_pixel);
  cv2.cvtColor_BGR2HSV := map (map BGR2HSV_pixel);
  cv2.cvtColor_HSV2BGR := HSV2BGR;
  cv2.GaussianBlur := fun a _ => a;
  cv2.Canny := fun a low high => map (map (fun v => if high <? v then 255 else 0)) a |}.

End cv2_8u.

(** ** Runs: calls and frames arriving one after another *)

Module runs.

(** The calls a [PlotManager] receives. *)
Inductive plot_call :=
| UpdateData (mean_val threshold : Q)
| MarkEvent (filename : string)
| ClearPlot.

Definition plot_step (pm : ccm.PlotManager) (c : plot_call) : ccm.PlotManager :=
  match c with
  | UpdateData mean_val threshold => ccm.update_data mean_val threshold pm
  | MarkEvent filename => ccm.mark_event filename pm
  | ClearPlot => ccm.clear_plot pm
  end.

Definition plot_run (calls : list plot_call) (pm : ccm.PlotManager)
  : ccm.PlotManager :=
  fold_left plot_step calls pm.


(** Frames with the clock value read while each is handled. *)
Definition ccm_frames `{cv2.OpenCV} (inputs : list (cv2.raster * Q))
    (w : ccm.CharmCCM) : ccm.CharmCCM :=
  fold_left (fun w i => ccm.handle_new_frame i.1 i.2 w) inputs w.

Definition ccm_100_frames `{cv2.OpenCV} (inputs : list (cv2.raster * Q))
    (w : ccm_100.world) : ccm_100.world :=
  fold_left (fun w i => ccm_100.handle_new_frame i.1 i.2 w) inputs w.

End runs.

(** ** Predicates used in the statements *)

Module spec.

(** The two plotting lists have one length and the x-values count up from
    zero. *)
Definition series_ok (xs : list Z) (ms : list Q) : Prop :=
  length xs = length ms /\ xs = seqZ 0 (Z.of_nat (length xs)).



(** The globals after a loader has read [keys] in this order from
    [preset], assigning each value as it is read, and the exception that
    stopped it, if any. *)
Fixpoint assign_while_readable (preset : py.value) (keys : list string)
    (g : gmap string py.value) : gmap string py.value * option py.exn :=
  match keys with
  | [] => (g, None)
  | k :: keys' =>
      match py.getitem preset k with
      | inr v => assign_while_readable preset keys' (<[k := v]> g)
      | inl e => (g, Some e)
      end
  end.

(** The fields of a preset, in the order [load_preset] reads them. *)
Definition cc_110_fields : list string :=
  ["threshold"; "low_threshold"; "high_threshold"; "contrast"; "brightness";
   "saturation"; "black_point"; "cooldown"; "cooldown_enabled";
   "filename_prefix"].

Definition v3_fields : list string := cc_110_fields ++ ["detection_area"].





(** Every element of the edge map is zero. *)
Definition all_zero (a : np.plane) : Prop :=
  Forall (Forall (fun v => v = 0)) a.

(** Row [r], column [c] lies in the rectangle [x1 <= c < x2],
    [y1 <= r < y2]. *)
Definition inside (area : Z * Z * Z * Z) (r c : nat) : bool :=
  let '(x1, y1, x2, y2) := area in
  (y1 <=? Z.of_nat r) && (Z.of_nat r <? y2)
  && (x1 <=? Z.of_nat c) && (Z.of_nat c <? x2).

(** The state of [ccm.py] and the state of [ccm_100.py] hold the same
    settings, series, markers, label texts and positions along x, files and
    log lines. *)
Definition same_program (w : ccm.CharmCCM) (v : ccm_100.world) : Prop :=
  let s := ccm.settings w in
  let g := ccm_100.G v in
  let pm := ccm.plot_manager w in
  let self := ccm_100.self v in
  ccm.contrast s = ccm_100.contrast g /\
  ccm.brightness s = ccm_100.brightness g /\
  ccm.saturation s = ccm_100.saturation g /\
  ccm.black_point s = ccm_100.black_point g /\
  ccm.threshold_value s = ccm_100.threshold self /\
  ccm.cooldown_time s = ccm_100.cooldown_time g /\
  ccm.last_saved_time s = ccm_100.last_saved_time g /\
  ccm.prefix s = ccm_100.prefix g /\
  ccm.save_images s = ccm_100.save_images g /\
  ccm.xvals pm = ccm_100.xvals self /\
  ccm.mean_values pm = ccm_100.mean_values self /\
  ccm.max_event_lines pm = ccm_100.max_event_lines self /\
  ccm.event_lines pm = ccm_100.event_lines self /\
  ccm.text <$> ccm.event_labels pm = ccm.text <$> ccm_100.event_labels self /\
  ccm.text_x <$> ccm.event_labels pm
    = ccm.text_x <$> ccm_100.event_labels self /\
  ccm.files w = ccm_100.files v /\
  ccm.log_box w = ccm_100.log_box v.

End spec.

(** * Properties *)

(** ** Lists *)

Section list_facts.
Context {A : Type}.
Implicit Types l : list A.




Lemma prune_fmap {B} (f : A -> B) (k : nat) l :
  f <$> ccm.prune k l = ccm.prune k (f <$> l).
Proof.
  unfold ccm.prune. rewrite length_fmap.
  destruct (k <? length l)%nat; [|done]. by destruct l.
Qed.

End list_facts.

Lemma seqZ_snoc (n : nat) :
  seqZ 0 (Z.of_nat (S n)) = seqZ 0 (Z.of_nat n) ++ [Z.of_nat n].
Proof.
  replace (Z.of_nat (S n)) with (Z.of_nat n + 1) by lia.
  rewrite seqZ_app by lia. simpl. f_equal.
Qed.

Lemma next_x_counts (xs : list Z) (n : nat) :
  xs = seqZ 0 (Z.of_nat n) ->
  match last xs with
  | None => xs ++ [0]
  | Some x => xs ++ [x + 1]
  end = seqZ 0 (Z.of_nat (S n)).
Proof.
  intros ->. destruct n as [|k].
  - reflexivity.
  - rewrite (seqZ_snoc (S k)). rewrite (seqZ_snoc k) at 1 2.
    rewrite last_snoc. rewrite <- seqZ_snoc. do 2 f_equal. lia.
Qed.

Lemma last_counting (n : nat) :
  from_option id 0 (last (seqZ 0 (Z.of_nat (S n)))) = Z.of_nat n.
Proof. rewrite seqZ_snoc, last_snoc. reflexivity. Qed.

(** ** The plotting series *)

Lemma series_ok_nil : spec.series_ok [] [].
Proof. split; reflexivity. Qed.

Lemma series_ok_next xs ms m :
  spec.series_ok xs ms ->
  spec.series_ok (match last xs with
                  | None => xs ++ [0]
                  | Some x => xs ++ [x + 1]
                  end) (ms ++ [m]).
Proof.
  intros [Hlen Hxs].
  rewrite (next_x_counts xs (length xs) Hxs).
  split.
  - rewrite length_seqZ, length_app. simpl. lia.
  - rewrite length_seqZ. f_equal. lia.
Qed.

Lemma plot_step_series pm c :
  spec.series_ok (ccm.xvals pm) (ccm.mean_values pm) ->
  spec.series_ok (ccm.xvals (runs.plot_step pm c))
                 (ccm.mean_values (runs.plot_step pm c)).
Proof.
  intros H. destruct c; simpl.
  - by apply series_ok_next.
  - exact H.
  - apply series_ok_nil.
Qed.

Lemma plot_run_series calls : forall pm,
  spec.series_ok (ccm.xvals pm) (ccm.mean_values pm) ->
  spec.series_ok (ccm.xvals (runs.plot_run calls pm))
                 (ccm.mean_values (runs.plot_run calls pm)).
Proof.
  induction calls as [|c calls IH]; intros pm H; simpl.
  - exact H.
  - apply IH. by apply plot_step_series.
Qed.

(** ** Markers *)













(** ** Comparisons *)

Lemma py_lt_iff (a b : Q) : py.lt a b = true <-> (a < b)%Q.
Proof.
  unfold py.lt. rewrite negb_true_iff, <- not_true_iff_false, Qle_bool_iff.
  split; [apply Qnot_le_lt | apply Qlt_not_le].
Qed.

Lemma py_ge_iff (a b : Q) : py.ge a b = true <-> (b <= a)%Q.
Proof. unfold py.ge. apply Qle_bool_iff. Qed.

Lemma py_lt_false_iff (a b : Q) : py.lt a b = false <-> (b <= a)%Q.
Proof.
  rewrite <- not_true_iff_false, py_lt_iff.
  split; [apply Qnot_lt_le | apply Qle_not_lt].
Qed.

Lemma py_ge_false_iff (a b : Q) : py.ge a b = false <-> (a < b)%Q.
Proof.
  rewrite <- not_true_iff_false, py_ge_iff.
  split; [apply Qnot_le_lt | apply Qlt_not_le].
Qed.

(** ** The blur kernel *)

Lemma odd_coercion (k : Z) :
  Z.odd (if Z.even k then k + 1 else k) = true.
Proof.
  destruct (Z.even k) eqn:E.
  - by rewrite Z.add_1_r, Z.odd_succ.
  - by rewrite <- Z.negb_even, E.
Qed.

Lemma gb_val_spec (k : Z) :
  ccqt.gb_val k = if Z.even k then k + 1 else k.
Proof.
  unfold ccqt.gb_val. rewrite Zmod_even. by destruct (Z.even k).
Qed.

(** C8. The kernel size handed to the Gaussian smoothing is odd. In
    [ccqt.py] the stored parameter [k] is used as [k] when odd and as
    [k + 1] when even, at the point of use; in [versions/v3/cc.py] the
    setter stores [k] when odd and [k + 1] when even, the start value 5 is
    odd, and the stored value is the one used. No value is rejected. *)
Theorem blur_kernel_coerced_to_odd :
  (forall k : Z,
     ccqt.gb_val k = (if Z.even k then k + 1 else k) /\
     Z.odd (ccqt.gb_val k) = true) /\
  (forall (cv : cv2.OpenCV) (g : ccqt.params) (frame : cv2.raster),
     let k := ccqt.gb_val (ccqt.gaussian_blur g) in
     ccqt.detect g frame
       = ccqt.restrict_edges (ccqt.detection_area g)
           (cv2.Canny (cv2.GaussianBlur (cv2.cvtColor_BGR2GRAY frame) (k, k))
                      (ccqt.low_threshold g) (ccqt.high_threshold g))) /\
  (forall (k : Z) (w : ccqt.world),
     ccqt.gaussian_blur (ccqt.G (ccqt.update_gaussian_blur k w)) = k) /\
  Z.odd (v3_cc.gaussian_blur v3_cc.params_init) = true /\
  (forall (k : Z) (w : v3_cc.world),
     let k' := v3_cc.gaussian_blur (v3_cc.G (v3_cc.update_gaussian_blur k w)) in
     k' = (if Z.even k then k + 1 else k) /\ Z.odd k' = true) /\
  (forall (cv : cv2.OpenCV) capture t1 t2 (w : v3_cc.world),
     v3_cc.gaussian_blur (v3_cc.G (v3_cc.update_feed capture t1 t2 w))
       = v3_cc.gaussian_blur (v3_cc.G w)) /\
  (forall (cv : cv2.OpenCV) (g : v3_cc.params) (frame : cv2.raster),
     let k := v3_cc.gaussian_blur g in
     v3_cc.detect g frame
       = v3_cc.apply_detection_area (v3_cc.detection_area g)
           (cv2.Canny (cv2.GaussianBlur (cv2.cvtColor_BGR2GRAY frame) (k, k))
                      (v3_cc.low_threshold g) (v3_cc.high_threshold g))).
Proof.
  split_and!.
  - intros k. rewrite gb_val_spec. split; [done|apply odd_coercion].
  - reflexivity.
  - intros k w. simpl. by destruct (k mod 2 =? 1).
  - reflexivity.
  - intros k w k'. subst k'. simpl.
    rewrite Zmod_even. destruct (Z.even k) eqn:E; simpl.
    + split; [done|]. by rewrite Z.add_1_r, Z.odd_succ.
    + split; [done|]. by rewrite <- Z.negb_even, E.
  - intros cv capture t1 t2 w. unfold v3_cc.update_feed.
    destruct (negb _); [done|]. destruct capture as [frame|]; [|done].
    unfold v3_cc.display_frame.
    destruct (v3_cc.event_passes _ _ _); simpl.
    + unfold v3_cc.handle_event.
      destruct (v3_cc.save_events _), (v3_cc.only_view _); simpl;
        by destruct (v3_cc.detection_area _) as [[[??]?]?].
    + by destruct (v3_cc.detection_area _) as [[[??]?]?].
  - reflexivity.
Qed.

(** ** The cooldown test *)

Lemma ccqt_update_feed_commit `{cv2.OpenCV} (frame : cv2.raster)
    (now event_time : Q) (w : ccqt.world) :
  ccqt.running (ccqt.G w) = true -> ccqt.cap_opened (ccqt.G w) = true ->
  let conditioned :=
    ccqt.apply_video_controls (ccqt.G w)
      (cv2.resize frame (ccqt.FRAME_WIDTH, ccqt.FRAME_HEIGHT)) in
  let event_detected :=
    bool_decide (np.count_positive (ccqt.detect (ccqt.G w) conditioned)
                 > ccqt.threshold (ccqt.G w)) in
  ccqt.G (ccqt.update_feed (Some frame) now event_time w)
    = if ccqt.event_passes (ccqt.G w) event_detected now
      then ccqt.set_last_event_time now (ccqt.G w)
      else ccqt.G w.
Proof.
  intros Hr Hc conditioned event_detected. unfold ccqt.update_feed.
  rewrite Hr, Hc. simpl. fold conditioned. fold event_detected.
  destruct (ccqt.event_passes _ _ _); unfold ccqt.stack_and_show.
  - unfold ccqt.handle_event.
    destruct (ccqt.save_events _); simpl;
      by destruct (ccqt.detection_area _) as [[[??]?]?].
  - by destruct (ccqt.detection_area _) as [[[??]?]?].
Qed.

Lemma ccm_gate `{cv2.OpenCV} frame (now : Q) (w : ccm.CharmCCM) :
  let s := ccm.settings w in
  let mean_val := np.mean (cv2.cvtColor_BGR2GRAY (ccm.condition s frame)) in
  (ccm.threshold_value s < mean_val)%Q ->
  let w' := ccm.handle_new_frame frame now w in
  ((inject_Z (ccm.cooldown_time s) <= now - ccm.last_saved_time s)%Q ->
     ccm.settings w' = ccm.set_last_saved_time now s) /\
  ((now - ccm.last_saved_time s < inject_Z (ccm.cooldown_time s))%Q ->
     ccm.settings w' = s /\ ccm.files w' = ccm.files w /\
     ccm.event_lines (ccm.plot_manager w')
       = ccm.event_lines (ccm.plot_manager w)).
Proof.
  intros s mean_val Hm w'. subst w'. unfold ccm.handle_new_frame.
  fold s. fold mean_val.
  apply py_lt_iff in Hm. rewrite Hm.
  split; intros Hc.
  - apply py_ge_iff in Hc. rewrite Hc. by destruct (ccm.save_images _).
  - apply py_ge_false_iff in Hc. rewrite Hc. done.
Qed.

Lemma ccm_100_gate `{cv2.OpenCV} frame (now : Q) (w : ccm_100.world) :
  let g := ccm_100.G w in
  let mean_val :=
    np.mean (cv2.cvtColor_BGR2GRAY (ccm_100.condition g frame)) in
  (ccm_100.threshold (ccm_100.self w) < mean_val)%Q ->
  let w' := ccm_100.handle_new_frame frame now w in
  ((inject_Z (ccm_100.cooldown_time g) <= now - ccm_100.last_saved_time g)%Q ->
     ccm_100.G w' = ccm_100.set_last_saved_time now g) /\
  ((now - ccm_100.last_saved_time g < inject_Z (ccm_100.cooldown_time g))%Q ->
     ccm_100.G w' = g /\ ccm_100.files w' = ccm_100.files w /\
     ccm_100.event_lines (ccm_100.self w')
       = ccm_100.event_lines (ccm_100.self w)).
Proof.
  intros g mean_val Hm w'. subst w'. unfold ccm_100.handle_new_frame.
  fold g. fold mean_val.
  assert (Ht : ccm_100.threshold
                 (ccm_100.update_plot
                    (ccm_100.append_data mean_val (ccm_100.self w)))
               = ccm_100.threshold (ccm_100.self w)).
  { unfold ccm_100.update_plot.
    by destruct (ccm_100.xvals (ccm_100.append_data _ _)). }
  assert (Hl : ccm_100.event_lines
                 (ccm_100.update_plot
                    (ccm_100.append_data mean_val (ccm_100.self w)))
               = ccm_100.event_lines (ccm_100.self w)).
  { unfold ccm_100.update_plot.
    by destruct (ccm_100.xvals (ccm_100.append_data _ _)). }
  rewrite Ht. apply py_lt_iff in Hm. rewrite Hm.
  split; intros Hc.
  - apply py_ge_iff in Hc. rewrite Hc. by destruct (ccm_100.save_images _).
  - apply py_ge_false_iff in Hc. rewrite Hc. done.
Qed.

(** C1, as amended. In the edge-density programs ([cc.py],
    [versions/v3/cc.py], [versions/v3/ccqt.py]) the cooldown test is strict:
    with the cooldown enabled (and the camera running), a frame that meets
    the criterion passes if and only if [now - last_event_time > cooldown],
    and [update_feed] of [ccqt.py] commits [last_event_time = now] exactly
    when the test passes; with a cooldown of 5 and the last event at 0 no
    [t] in (0, 5] passes and every [t > 5] does. In the mean-intensity
    programs ([ccm.py], [ccm_100.py]), which have no enable flag, the test
    is inclusive: a frame above the threshold fires when
    [now - last_saved_time >= cooldown_time] and not otherwise. *)
Theorem cooldown_test_by_program :
  (forall (g : cc.globals) (now : Q),
     cc.running g = true -> cc.cooldown_enabled g = true ->
     (cc.event_passes g true now = true
      <-> (inject_Z (cc.cooldown g) < now - cc.last_event_time g)%Q)) /\
  (forall (g : v3_cc.params) (now : Q),
     v3_cc.running g = true -> v3_cc.cooldown_enabled g = true ->
     (v3_cc.event_passes g true now = true
      <-> (inject_Z (v3_cc.cooldown g) < now - v3_cc.last_event_time g)%Q)) /\
  (forall (g : ccqt.params) (now : Q),
     ccqt.cooldown_enabled g = true ->
     (ccqt.event_passes g true now = true
      <-> (inject_Z (ccqt.cooldown g) < now - ccqt.last_event_time g)%Q)) /\
  (forall (cv : cv2.OpenCV) (frame : cv2.raster) (now event_time : Q)
          (w : ccqt.world),
     ccqt.running (ccqt.G w) = true -> ccqt.cap_opened (ccqt.G w) = true ->
     let conditioned :=
       ccqt.apply_video_controls (ccqt.G w)
         (cv2.resize frame (ccqt.FRAME_WIDTH, ccqt.FRAME_HEIGHT)) in
     let event_detected :=
       bool_decide (np.count_positive (ccqt.detect (ccqt.G w) conditioned)
                    > ccqt.threshold (ccqt.G w)) in
     ccqt.G (ccqt.update_feed (Some frame) now event_time w)
       = if ccqt.event_passes (ccqt.G w) event_detected now
         then ccqt.set_last_event_time now (ccqt.G w)
         else ccqt.G w) /\
  (forall (g : ccqt.params) (t : Q),
     ccqt.cooldown_enabled g = true -> ccqt.cooldown g = 5 ->
     (ccqt.last_event_time g == 0)%Q ->
     ((0 < t <= 5)%Q -> ccqt.event_passes g true t = false) /\
     ((5 < t)%Q -> ccqt.event_passes g true t = true)) /\
  (forall (cv : cv2.OpenCV) (frame : cv2.raster) (now : Q) (w : ccm.CharmCCM),
     let s := ccm.settings w in
     let mean_val := np.mean (cv2.cvtColor_BGR2GRAY (ccm.condition s frame)) in
     (ccm.threshold_value s < mean_val)%Q ->
     let w' := ccm.handle_new_frame frame now w in
     ((inject_Z (ccm.cooldown_time s) <= now - ccm.last_saved_time s)%Q ->
        ccm.settings w' = ccm.set_last_saved_time now s) /\
     ((now - ccm.last_saved_time s < inject_Z (ccm.cooldown_time s))%Q ->
        ccm.settings w' = s /\ ccm.files w' = ccm.files w /\
        ccm.event_lines (ccm.plot_manager w')
          = ccm.event_lines (ccm.plot_manager w))) /\
  (forall (cv : cv2.OpenCV) (frame : cv2.raster) (now : Q) (w : ccm_100.world),
     let g := ccm_100.G w in
     let mean_val :=
       np.mean (cv2.cvtColor_BGR2GRAY (ccm_100.condition g frame)) in
     (ccm_100.threshold (ccm_100.self w) < mean_val)%Q ->
     let w' := ccm_100.handle_new_frame frame now w in
     ((inject_Z (ccm_100.cooldown_time g) <= now - ccm_100.last_saved_time g)%Q ->
        ccm_100.G w' = ccm_100.set_last_saved_time now g) /\
     ((now - ccm_100.last_saved_time g < inject_Z (ccm_100.cooldown_time g))%Q ->
        ccm_100.G w' = g /\ ccm_100.files w' = ccm_100.files w /\
        ccm_100.event_lines (ccm_100.self w')
          = ccm_100.event_lines (ccm_100.self w))).
Proof.
  split_and!.
  - intros g now Hr He. unfold cc.event_passes. rewrite Hr, He. simpl.
    apply py_lt_iff.
  - intros g now Hr He. unfold v3_cc.event_passes. rewrite Hr, He. simpl.
    apply py_lt_iff.
  - intros g now He. unfold ccqt.event_passes. rewrite He. simpl.
    apply py_lt_iff.
  - intros cv frame now event_time w. apply ccqt_update_feed_commit.
  - intros g t He Hc Hl. unfold ccqt.event_passes. rewrite He, Hc. simpl.
    split; intros Ht.
    + apply py_lt_false_iff. rewrite Hl. change (inject_Z 5) with 5%Q. lra.
    + apply py_lt_iff. rewrite Hl. change (inject_Z 5) with 5%Q. lra.
  - intros cv frame now w. apply ccm_gate.
  - intros cv frame now w. apply ccm_100_gate.
Qed.

Lemma cooldown_test_by_program_witness :
  ccqt.event_passes ccqt.params_init true 5 = false /\
  ccqt.event_passes ccqt.params_init true (5001 # 1000) = true.
Proof.
  destruct cooldown_test_by_program as (_ & _ & _ & _ & H & _).
  split.
  - apply (H ccqt.params_init 5%Q eq_refl eq_refl); [reflexivity|].
    split; [reflexivity | by vm_compute].
  - apply (H ccqt.params_init (5001 # 1000)%Q eq_refl eq_refl); reflexivity.
Defined.

(** C1, as stated, fails on the mean-intensity programs: with a cooldown of
    5 seconds and the last saving at 0, a frame above the threshold handled
    at [t = 5] is saved, by [ccm_100.py] and by [ccm.py]. *)
Lemma ccm_fires_at_t5 :
  let frame := [[(200, 200, 200)]] in
  let w := @ccm_100.handle_new_frame (cv2_8u.with_HSV2BGR id) frame 5
             (ccm_100.world_init ∅) in
  let w' := @ccm.handle_new_frame (cv2_8u.with_HSV2BGR id) frame 5
              (ccm.CharmCCM_init ∅) in
  ccm_100.cooldown_time (ccm_100.G (ccm_100.world_init ∅)) = 5 /\
  ccm_100.last_saved_time (ccm_100.G (ccm_100.world_init ∅)) = 0%Q /\
  ccm_100.last_saved_time (ccm_100.G w) = 5%Q /\
  ccm_100.files w !! "event_5.png" = Some (os.ImageFile (cv2.fresh frame)) /\
  ccm.last_saved_time (ccm.settings w') = 5%Q /\
  ccm.files w' !! "event_5.png" = Some (os.ImageFile (cv2.fresh frame)).
Proof. vm_compute. by split_and!. Qed.

(** ** The detection area *)

Lemma zeros_row (row : list Z) : Forall (fun v => v = 0) (map (fun _ => 0) row).
Proof. induction row; constructor; auto. Qed.

Lemma fill_cols_0_keeps_zero start stop a :
  spec.all_zero a -> spec.all_zero (np.fill_cols_0 start stop a).
Proof.
  unfold spec.all_zero, np.fill_cols_0. intros H.
  apply Forall_fmap. eapply Forall_impl; [exact H|]. simpl.
  intros row Hrow. apply Forall_lookup. intros c v Hv.
  apply list_lookup_imap_Some in Hv as (v0 & E & ->).
  destruct (np.in_slice _ _ _ _); [done|].
  by apply (proj1 (Forall_lookup _ _) Hrow c).
Qed.

Lemma fill_rows_0_inverted (y1 y2 : Z) a :
  0 <= y2 < y1 ->
  spec.all_zero (np.fill_rows_0 (Some y2) None (np.fill_rows_0 None (Some y1) a)).
Proof.
  intros Hy. unfold spec.all_zero. apply Forall_lookup. intros r row Hrow.
  unfold np.fill_rows_0 in Hrow at 1.
  apply list_lookup_imap_Some in Hrow as (row1 & E1 & ->).
  unfold np.fill_rows_0 in E1 at 1.
  apply list_lookup_imap_Some in E1 as (row0 & E0 & ->).
  apply lookup_lt_Some in E0.
  unfold np.fill_rows_0 at 1. rewrite length_imap.
  unfold np.in_slice, np.slice_bound. simpl.
  destruct (y1 <? 0) eqn:N1; [lia|]. destruct (y2 <? 0) eqn:N2; [lia|].
  destruct (Z.leb_spec (y2 `min` Z.of_nat (length a)) (Z.of_nat r));
    destruct (Z.ltb_spec (Z.of_nat r) (Z.of_nat (length a)));
    destruct (Z.leb_spec 0 (Z.of_nat r));
    destruct (Z.ltb_spec (Z.of_nat r) (y1 `min` Z.of_nat (length a)));
    simpl; try apply zeros_row; lia.
Qed.

Lemma fill_cols_0_inverted (x1 x2 : Z) a :
  0 <= x2 < x1 ->
  spec.all_zero (np.fill_cols_0 (Some x2) None (np.fill_cols_0 None (Some x1) a)).
Proof.
  intros Hx. unfold spec.all_zero, np.fill_cols_0.
  rewrite <- list_fmap_compose. apply Forall_fmap, Forall_true. simpl.
  intros row. apply Forall_lookup. intros c v Hv.
  apply list_lookup_imap_Some in Hv as (v1 & E1 & ->).
  apply list_lookup_imap_Some in E1 as (v0 & E0 & ->).
  apply lookup_lt_Some in E0. rewrite length_imap.
  unfold np.in_slice, np.slice_bound. simpl.
  destruct (x1 <? 0) eqn:N1; [lia|]. destruct (x2 <? 0) eqn:N2; [lia|].
  destruct (Z.leb_spec (x2 `min` Z.of_nat (length row)) (Z.of_nat c));
    destruct (Z.ltb_spec (Z.of_nat c) (Z.of_nat (length row)));
    destruct (Z.leb_spec 0 (Z.of_nat c));
    destruct (Z.ltb_spec (Z.of_nat c) (x1 `min` Z.of_nat (length row)));
    simpl; try done; lia.
Qed.

Lemma restrict_edges_inverted x1 y1 x2 y2 edges :
  0 <= x2 < x1 \/ 0 <= y2 < y1 ->
  spec.all_zero (ccqt.restrict_edges (x1, y1, x2, y2) edges).
Proof.
  intros [Hx|Hy]; unfold ccqt.restrict_edges.
  - by apply fill_cols_0_inverted.
  - by apply fill_cols_0_keeps_zero, fill_cols_0_keeps_zero, fill_rows_0_inverted.
Qed.

Lemma count_positive_zero a : spec.all_zero a -> np.count_positive a = 0.
Proof.
  unfold np.count_positive. induction 1 as [|row a Hrow Ha IH]; [done|].
  simpl. rewrite IH.
  replace (filter (fun v => 0 < v) row) with (@nil Z); [done|].
  symmetry. clear -Hrow. induction Hrow as [|v row Hv Hrow IH]; [done|].
  rewrite filter_cons. destruct (decide (0 < v)); [lia|done].
Qed.

Lemma apply_detection_area_restrict_edges area edges :
  v3_cc.apply_detection_area area edges = ccqt.restrict_edges area edges.
Proof. reflexivity. Qed.

(** C2. For a detection area with [x1 > x2] or [y1 > y2] (coordinates not
    negative, as the sliders and the data model have them) the four slice
    assignments leave no non-zero element in the edge map, whatever the
    frame: the count of edge pixels is 0, the criterion is not met for any
    threshold that is not negative, and [update_feed] returns (no
    exception path) without handling an event: globals and files are as
    before. *)
Theorem inverted_region_is_empty :
  forall (cv : cv2.OpenCV) (x1 y1 x2 y2 : Z),
    (0 <= x2 < x1 \/ 0 <= y2 < y1) ->
    (forall edges : np.plane,
       let masked := ccqt.restrict_edges (x1, y1, x2, y2) edges in
       spec.all_zero masked /\
       np.count_positive masked = 0 /\
       v3_cc.apply_detection_area (x1, y1, x2, y2) edges = masked) /\
    (forall (capture : option cv2.raster) (now event_time : Q) (w : ccqt.world),
       ccqt.detection_area (ccqt.G w) = (x1, y1, x2, y2) ->
       0 <= ccqt.threshold (ccqt.G w) ->
       let w' := ccqt.update_feed capture now event_time w in
       ccqt.G w' = ccqt.G w /\ ccqt.files w' = ccqt.files w) /\
    (forall (capture : option cv2.raster) (now event_time : Q) (w : v3_cc.world),
       v3_cc.detection_area (v3_cc.G w) = (x1, y1, x2, y2) ->
       0 <= v3_cc.threshold (v3_cc.G w) ->
       let w' := v3_cc.update_feed capture now event_time w in
       v3_cc.G w' = v3_cc.G w /\ v3_cc.files w' = v3_cc.files w).
Proof.
  intros cv x1 y1 x2 y2 Hinv. split_and!.
  - intros edges masked. subst masked. split_and!.
    + by apply restrict_edges_inverted.
    + by apply count_positive_zero, restrict_edges_inverted.
    + reflexivity.
  - intros capture now event_time w Harea Hthr w'. subst w'.
    unfold ccqt.update_feed.
    destruct (negb _ || negb _); [done|].
    destruct capture as [frame|]; [|done].
    unfold ccqt.detect. rewrite Harea.
    rewrite count_positive_zero by (by apply restrict_edges_inverted).
    rewrite bool_decide_false by lia.
    unfold ccqt.event_passes, ccqt.stack_and_show. simpl. by rewrite Harea.
  - intros capture now event_time w Harea Hthr w'. subst w'.
    unfold v3_cc.update_feed.
    destruct (negb _); [done|].
    destruct capture as [frame|]; [|done].
    unfold v3_cc.detect. rewrite Harea.
    rewrite apply_detection_area_restrict_edges.
    rewrite count_positive_zero by (by apply restrict_edges_inverted).
    rewrite bool_decide_false by lia.
    unfold v3_cc.event_passes, v3_cc.display_frame.
    rewrite andb_false_r. simpl. by rewrite Harea.
Qed.

Lemma inverted_region_is_empty_witness :
  np.count_positive
    (ccqt.restrict_edges (5, 0, 2, 3) [[1; 1; 1]; [1; 1; 1]; [1; 1; 1]]) = 0.
Proof.
  apply (inverted_region_is_empty (cv2_8u.with_HSV2BGR id) 5 0 2 3
           ltac:(lia)).
Defined.

(** ** Conditioning *)

Lemma int_of_float_integer (q : Q) (i : Z) :
  (q == inject_Z i)%Q -> py.int_of_float q = i.
Proof.
  destruct q as [a b]. unfold Qeq, py.int_of_float. simpl.
  intros H. rewrite Z.mul_1_r in H. subst a.
  apply Z.quot_mul. done.
Qed.

Lemma clip_inside (x : Q) (i : Z) :
  (x == inject_Z i)%Q -> 0 <= i <= 255 ->
  (np.clip x 0 255 == inject_Z i)%Q.
Proof.
  intros Hx Hi. unfold np.clip.
  assert (H0 : (0 <= x)%Q).
  { rewrite Hx. change 0%Q with (inject_Z 0). rewrite <- Zle_Qle. lia. }
  assert (H255 : (x <= 255)%Q).
  { rewrite Hx. change 255%Q with (inject_Z 255). rewrite <- Zle_Qle. lia. }
  destruct (Q.max_spec x (inject_Z 0)) as [[? E1]|[? E1]];
    destruct (Q.min_spec (Qmax x (inject_Z 0)) (inject_Z 255)) as [[? E2]|[? E2]];
    change (inject_Z 0) with 0%Q in *; change (inject_Z 255) with 255%Q in *;
    lra.
Qed.

Lemma lut_entry_identity (scale : Q) (v : Z) :
  (scale == 1)%Q -> 0 <= v <= 255 ->
  nth (Z.to_nat v)
      (map (fun i => np.uint8_of_float
                       (np.clip (scale * (inject_Z i + inject_Z (0 - 0))) 0 255))
           (seqZ 0 256)) 0 = v.
Proof.
  intros Hs Hv.
  rewrite nth_lookup, list_lookup_fmap, lookup_seqZ_lt by lia. simpl.
  rewrite Z.add_0_l, Z2Nat.id by lia.
  unfold np.uint8_of_float.
  rewrite (int_of_float_integer _ v).
  - apply Z.mod_small. lia.
  - apply clip_inside; [|done]. rewrite Hs. change (inject_Z (0 - 0)) with 0%Q. lra.
Qed.

Lemma LUT_identity (table : list Z) (frame : cv2.raster) :
  (forall v, 0 <= v <= 255 -> nth (Z.to_nat v) table 0 = v) ->
  cv2.uint8_raster frame ->
  cv2.LUT frame table = frame.
Proof.
  intros Htab Hframe. unfold cv2.LUT.
  rewrite <- (list_fmap_id frame) at 2.
  apply Forall_fmap_ext. eapply Forall_impl; [exact Hframe|]. simpl.
  intros row Hrow. rewrite <- (list_fmap_id row) at 2.
  apply Forall_fmap_ext. eapply Forall_impl; [exact Hrow|]. simpl.
  intros [[b g] r] (Hb & Hg & Hr). unfold cv2.map_channels. simpl in *.
  by rewrite !Htab.
Qed.

Lemma py_ne_false (a b : Q) : (a == b)%Q -> py.ne a b = false.
Proof.
  intros H. unfold py.ne. apply negb_false_iff. by apply Qeq_bool_iff.
Qed.

(** C7, as amended. With identity parameters (contrast 1, brightness 0,
    black point 0, saturation 1) the conditioning of [ccqt.py], [ccm.py]
    and [ccm_100.py], which map the channels through a lookup table and
    touch the saturation only when it differs from 1, returns every 8-bit
    frame unchanged, pixel for pixel, whatever the colour conversions
    are. *)
Theorem identity_conditioning_in_lut_programs :
  forall (cv : cv2.OpenCV) (frame : cv2.raster),
    cv2.uint8_raster frame ->
    (forall g : ccqt.params,
       (ccqt.contrast g == 1)%Q -> ccqt.brightness g = 0 ->
       ccqt.black_point g = 0 -> (ccqt.saturation g == 1)%Q ->
       ccqt.apply_video_controls g frame = frame) /\
    (forall s : ccm.CameraSettings,
       (ccm.contrast s == 1)%Q -> ccm.brightness s = 0 ->
       ccm.black_point s = 0 -> (ccm.saturation s == 1)%Q ->
       ccm.condition s frame = frame) /\
    (forall g : ccm_100.globals,
       (ccm_100.contrast g == 1)%Q -> ccm_100.brightness g = 0 ->
       ccm_100.black_point g = 0 -> (ccm_100.saturation g == 1)%Q ->
       ccm_100.condition g frame = frame).
Proof.
  intros cv frame Hframe. split_and!.
  - intros g Hc Hb Hk Hs. unfold ccqt.apply_video_controls.
    rewrite (py_ne_false _ _ Hs), Hb, Hk.
    apply LUT_identity; [|done]. intros v Hv. by apply lut_entry_identity.
  - intros s Hc Hb Hk Hs. unfold ccm.condition.
    by rewrite (py_ne_false _ _ Hs), (py_ne_false _ _ Hc), Hb, Hk.
  - intros g Hc Hb Hk Hs. unfold ccm_100.condition.
    by rewrite (py_ne_false _ _ Hs), (py_ne_false _ _ Hc), Hb, Hk.
Qed.

(** C7, as stated, fails on [cc_110.py] (and [versions/v3/cc.py], which has
    the same function): there every frame goes through the 8-bit
    BGR -> HSV -> BGR conversion. The pixels (0, 0, 255) and (0, 1, 255)
    have one HSV value, so whatever the conversion back is, identity
    parameters do not return every frame unchanged. *)
Lemma cc_110_identity_loses_a_frame :
  ~ exists HSV2BGR : cv2.raster -> cv2.raster,
      forall frame : cv2.raster,
        cv2.uint8_raster frame ->
        @cc_110.apply_video_controls (cv2_8u.with_HSV2BGR HSV2BGR)
          {| cc_110.contrast := 1; cc_110.brightness := 0;
             cc_110.saturation := 1; cc_110.black_point := 0 |} frame = frame.
Proof.
  intros [HSV2BGR H].
  assert (Hu : forall p : cv2.pixel,
            cv2.is_uint8 p.1.1 /\ cv2.is_uint8 p.1.2 /\ cv2.is_uint8 p.2 ->
            cv2.uint8_raster [[p]]).
  { intros p Hp. repeat constructor; apply Hp. }
  pose proof (H [[(0, 0, 255)]] (Hu (0, 0, 255) ltac:(unfold cv2.is_uint8; simpl; lia))) as H1.
  pose proof (H [[(0, 1, 255)]] (Hu (0, 1, 255) ltac:(unfold cv2.is_uint8; simpl; lia))) as H2.
  unfold cc_110.apply_video_controls in H1, H2.
  match type of H1 with context [cv2.cvtColor_HSV2BGR ?a] =>
    let a' := eval vm_compute in a in change a with a' in H1 end.
  match type of H2 with context [cv2.cvtColor_HSV2BGR ?a] =>
    let a' := eval vm_compute in a in change a with a' in H2 end.
  rewrite H1 in H2. discriminate H2.
Qed.

Lemma identity_conditioning_in_lut_programs_witness :
  @ccqt.apply_video_controls (cv2_8u.with_HSV2BGR id) ccqt.params_init
    [[(0, 1, 255); (12, 200, 7)]] = [[(0, 1, 255); (12, 200, 7)]].
Proof.
  apply (identity_conditioning_in_lut_programs (cv2_8u.with_HSV2BGR id)
           [[(0, 1, 255); (12, 200, 7)]]); try reflexivity.
  repeat constructor; simpl; lia.
Defined.

(** ** The saved event image *)

Lemma ccqt_update_feed_saves `{cv2.OpenCV} (frame : cv2.raster)
    (now event_time : Q) (w : ccqt.world) :
  ccqt.running (ccqt.G w) = true -> ccqt.cap_opened (ccqt.G w) = true ->
  ccqt.save_events (ccqt.G w) = true ->
  let conditioned :=
    ccqt.apply_video_controls (ccqt.G w)
      (cv2.resize frame (ccqt.FRAME_WIDTH, ccqt.FRAME_HEIGHT)) in
  let event_detected :=
    bool_decide (np.count_positive (ccqt.detect (ccqt.G w) conditioned)
                 > ccqt.threshold (ccqt.G w)) in
  ccqt.event_passes (ccqt.G w) event_detected now = true ->
  ccqt.files (ccqt.update_feed (Some frame) now event_time w)
    = <[ccqt.filename_prefix (ccqt.G w) +:+ "_"
          +:+ pretty (py.int_of_float event_time) +:+ ".jpg"
        := os.ImageFile (cv2.fresh conditioned)]> (ccqt.files w).
Proof.
  intros Hr Hc Hs conditioned event_detected Hp. unfold ccqt.update_feed.
  rewrite Hr, Hc. simpl. fold conditioned. fold event_detected.
  rewrite Hp. unfold ccqt.handle_event, ccqt.stack_and_show.
  rewrite Hs. simpl. by destruct (ccqt.detection_area _) as [[[??]?]?].
Qed.

(** C9, as amended. When an event is handled with saving enabled, the file
    written is named [{prefix}_{int(time.time())}.jpg] ([.png] in the
    mean-intensity programs, which use the time read for the cooldown) and
    holds the frame as it is handed over, before ["EVENT DETECTED!"] is
    drawn: the text is drawn after the file is written and is on the frame
    that is displayed. [update_feed] hands over the conditioned frame with
    nothing drawn on it; the mean-intensity programs draw nothing. *)
Theorem saved_image_is_the_frame_before_the_text :
  (forall (frame : cv2.frame) (now : Q) (w : cc.world),
     cc.save_events (cc.G w) = true ->
     let r := cc.handle_event frame now w in
     cc.files r.2
       = <[cc.filename_prefix (cc.G w) +:+ "_"
             +:+ pretty (py.int_of_float now) +:+ ".jpg"
           := os.ImageFile frame]> (cc.files w) /\
     r.1 = cv2.putText frame "EVENT DETECTED!" (10, 50) 1 (0, 0, 255) 2) /\
  (forall (frame : cv2.frame) (now : Q) (w : v3_cc.world),
     v3_cc.save_events (v3_cc.G w) = true ->
     let r := v3_cc.handle_event frame now w in
     v3_cc.files r.2
       = <[v3_cc.filename_prefix (v3_cc.G w) +:+ "_"
             +:+ pretty (py.int_of_float now) +:+ ".jpg"
           := os.ImageFile frame]> (v3_cc.files w) /\
     r.1 = cv2.putText frame "EVENT DETECTED!" (10, 50) 1 (0, 0, 255) 2) /\
  (forall (frame : cv2.frame) (now : Q) (w : ccqt.world),
     ccqt.save_events (ccqt.G w) = true ->
     let r := ccqt.handle_event frame now w in
     ccqt.files r.2
       = <[ccqt.filename_prefix (ccqt.G w) +:+ "_"
             +:+ pretty (py.int_of_float now) +:+ ".jpg"
           := os.ImageFile frame]> (ccqt.files w) /\
     r.1 = cv2.putText frame "EVENT DETECTED!" (10, 50) 1 (0, 0, 255) 2) /\
  (forall (cv : cv2.OpenCV) (frame : cv2.raster) (now event_time : Q)
          (w : ccqt.world),
     ccqt.running (ccqt.G w) = true -> ccqt.cap_opened (ccqt.G w) = true ->
     ccqt.save_events (ccqt.G w) = true ->
     let conditioned :=
       ccqt.apply_video_controls (ccqt.G w)
         (cv2.resize frame (ccqt.FRAME_WIDTH, ccqt.FRAME_HEIGHT)) in
     let event_detected :=
       bool_decide (np.count_positive (ccqt.detect (ccqt.G w) conditioned)
                    > ccqt.threshold (ccqt.G w)) in
     ccqt.event_passes (ccqt.G w) event_detected now = true ->
     ccqt.files (ccqt.update_feed (Some frame) now event_time w)
       = <[ccqt.filename_prefix (ccqt.G w) +:+ "_"
             +:+ pretty (py.int_of_float event_time) +:+ ".jpg"
           := os.ImageFile (cv2.fresh conditioned)]> (ccqt.files w)) /\
  (forall (cv : cv2.OpenCV) (frame : cv2.raster) (now : Q) (w : ccm.CharmCCM),
     let s := ccm.settings w in
     let conditioned := ccm.condition s frame in
     (ccm.threshold_value s < np.mean (cv2.cvtColor_BGR2GRAY conditioned))%Q ->
     (inject_Z (ccm.cooldown_time s) <= now - ccm.last_saved_time s)%Q ->
     ccm.save_images s = true ->
     ccm.files (ccm.handle_new_frame frame now w)
       = <[ccm.prefix s +:+ "_" +:+ pretty (py.int_of_float now) +:+ ".png"
           := os.ImageFile (cv2.fresh conditioned)]> (ccm.files w)).
Proof.
  split_and!.
  - intros frame now w Hs r. subst r. unfold cc.handle_event.
    rewrite Hs. simpl. by destruct (cc.only_view _).
  - intros frame now w Hs r. subst r. unfold v3_cc.handle_event.
    rewrite Hs. simpl. by destruct (v3_cc.only_view _).
  - intros frame now w Hs r. subst r. unfold ccqt.handle_event.
    by rewrite Hs.
  - intros cv frame now event_time w. apply ccqt_update_feed_saves.
  - intros cv frame now w s conditioned Hm Hc Hs.
    unfold ccm.handle_new_frame. fold s. fold conditioned.
    apply py_lt_iff in Hm. apply py_ge_iff in Hc. rewrite Hm, Hc.
    simpl. by rewrite Hs.
Qed.

Lemma saved_image_is_the_frame_before_the_text_witness :
  let w := {| ccqt.G :=
                {| ccqt.running := true; ccqt.save_events := true;
                   ccqt.only_view := false;
                   ccqt.threshold := 1000; ccqt.low_threshold := 50;
                   ccqt.high_threshold := 150; ccqt.cap_opened := true;
                   ccqt.filename_prefix := "event";
                   ccqt.cooldown := 5; ccqt.last_event_time := 0;
                   ccqt.cooldown_enabled := true;
                   ccqt.contrast := 1; ccqt.brightness := 0;
                   ccqt.saturation := 1; ccqt.black_point := 0;
                   ccqt.detection_area := (0, 0, 960, 640);
                   ccqt.gaussian_blur := 5 |};
              ccqt.files := ∅; ccqt.logs := [];
              ccqt.last_stacked_frame := None |} in
  let frame := cv2.fresh [[(1, 2, 3)]] in
  (ccqt.handle_event frame (3400000001 # 2) w).1
    = cv2.putText frame "EVENT DETECTED!" (10, 50) 1 (0, 0, 255) 2.
Proof.
  intros w frame.
  destruct saved_image_is_the_frame_before_the_text as (_ & _ & H & _).
  apply (H frame (3400000001 # 2)%Q w eq_refl).
Defined.

(** C9, as stated, fails: with saving enabled, [handle_event] of [cc.py]
    writes [event_1700000000.jpg] with the frame it was given, on which
    nothing is drawn; the text is only on the frame it returns for
    display. *)
Lemma saved_image_lacks_the_text :
  let w := {| cc.G :=
                {| cc.running := true; cc.save_events := true;
                   cc.only_view := false;
                   cc.threshold := 1000; cc.low_threshold := 50;
                   cc.high_threshold := 150; cc.cap_opened := true;
                   cc.filename_prefix := "event";
                   cc.cooldown := 5; cc.last_event_time := 0;
                   cc.cooldown_enabled := true |};
              cc.files := ∅; cc.log_box := []; cc.canvas := None |} in
  let frame := cv2.fresh [[(1, 2, 3)]] in
  let r := cc.handle_event frame (3400000001 # 2) w in
  exists saved : cv2.frame,
    cc.files r.2 !! "event_1700000000.jpg" = Some (os.ImageFile saved) /\
    cv2.drawn saved = [] /\
    saved <> cv2.putText frame "EVENT DETECTED!" (10, 50) 1 (0, 0, 255) 2 /\
    cv2.drawn r.1 = [cv2.Text "EVENT DETECTED!" (10, 50) 1 (0, 0, 255) 2].
Proof.
  intros w frame r. exists frame. split_and!; try done.
Qed.

(** ** Dicts and JSON *)












(** ** Loading a preset *)

Lemma getitem_raises (preset : py.value) (k : string) (e : py.exn) :
  py.getitem preset k = inl e -> eff.is_FileNotFoundError e = false.
Proof.
  destruct preset; simpl; try (by intros [= <-]).
  destruct (py.dict_get k d); by intros [= <-].
Qed.

Lemma getitem_some_dict (preset v : py.value) (k : string) :
  py.getitem preset k = inr v -> exists d, preset = py.Dict d.
Proof. destruct preset; simpl; try done. eauto. Qed.

(** Reduce the monad, the record projections and the pairs, and nothing
    else (the maps stay as they are written). *)
Ltac step :=
  lazy beta iota zeta delta
    [mbind M_bind mret M_ret eff.bind eff.ret eff.read eff.modify eff.lift
     eff.try_except fst snd andb negb spec.assign_while_readable
     cc_110.globals cc_110.preset_name cc_110.files cc_110.log_box
     v3_cc.globals v3_cc.preset_name v3_cc.preset_var
     v3_cc.available_presets v3_cc.cwd v3_cc.log_lines
     ccqt.globals ccqt.preset_name_entry ccqt.preset_combo
     ccqt.preset_combo_index ccqt.available_presets ccqt.cwd
     ccqt.log_lines].

Ltac run_loader :=
  repeat match goal with
  | |- context [py.getitem ?p ?k] =>
      let E := fresh "E" in
      destruct (py.getitem p k) as [?e|?v] eqn:E;
      [ rewrite ?(getitem_raises _ _ _ E); step; try (by split_and!) | step ]
  end.

Lemma cc_110_load_runs (w : cc_110.world) :
  let path := cc_110.preset_name w +:+ ".json" in
  let r := cc_110.load_preset w in
  match os.load_json path (cc_110.files w) with
  | inl (py.FileNotFoundError _) =>
      r.1 = inr tt /\ cc_110.globals r.2 = cc_110.globals w /\
      cc_110.files r.2 = cc_110.files w
  | inl e => r = (inl e, w)
  | inr preset =>
      let a := spec.assign_while_readable preset spec.cc_110_fields
                 (cc_110.globals w) in
      cc_110.globals r.2 = a.1 /\
      cc_110.files r.2 = cc_110.files w /\
      r.1 = match a.2 with None => inr tt | Some e => inl e end
  end.
Proof.
  intros path r. subst r path. destruct w as [g name d lg].
  unfold cc_110.load_preset, cc_110.json_load, cc_110.assign,
    cc_110.log_message, spec.cc_110_fields.
  step.
  destruct (os.load_json _ _) as [e|preset]; step.
  - by destruct e.
  - run_loader. by split_and!.
Qed.

Lemma ccqt_load_runs (s : ccqt.session) :
  let load_name := ccqt.currentText s in
  load_name <> "" ->
  let r := ccqt.load_preset s in
  match os.load_json (load_name +:+ ".json") (ccqt.cwd s) with
  | inl (py.FileNotFoundError _) =>
      r.1 = inr tt /\ ccqt.globals r.2 = ccqt.globals s /\
      ccqt.cwd r.2 = ccqt.cwd s
  | inl e => r = (inl e, s)
  | inr loaded =>
      let a := spec.assign_while_readable loaded spec.v3_fields
                 (ccqt.globals s) in
      ccqt.cwd r.2 = ccqt.cwd s /\
      match a.2 with
      | Some e => ccqt.globals r.2 = a.1 /\ r.1 = inl e
      | None =>
          r.1 = inr tt /\
          exists v, py.get loaded "gaussian_blur" (py.Int 5) = inr v /\
                    ccqt.globals r.2 = <["gaussian_blur" := v]> a.1
      end
  end.
Proof.
  intros load_name Hne r. subst r.
  unfold ccqt.load_preset. step. fold load_name.
  destruct (String.eqb_spec load_name "") as [|_]; [done|].
  clearbody load_name. destruct s as [g entry combo idx avail d lg].
  unfold ccqt.json_load, ccqt.assign, ccqt.log,
    spec.v3_fields, spec.cc_110_fields, app.
  step.
  destruct (os.load_json _ _) as [e|loaded]; step.
  - by destruct e.
  - run_loader.
    destruct (getitem_some_dict _ _ _ E) as [d' ->].
    unfold py.get. step. split_and!; try done. by eexists.
Qed.

(** ** Saving a preset, and loading it back *)
























(** * Further properties of the programs *)

(** ** The detection area, element by element *)

(** Lookups in a plane are lookups in a list of rows. *)
Ltac rows := change np.plane with (list (list Z)) in *.

Lemma fill_rows_0_lookup start stop (a : list (list Z)) (r : nat) :
  np.fill_rows_0 start stop a !! r
    = (fun row =>
         if np.in_slice (Z.of_nat (length a)) start stop (Z.of_nat r)
         then map (fun _ => 0) row else row) <$> a !! r.
Proof. apply list_lookup_imap. Qed.

Lemma fill_cols_0_lookup start stop (a : list (list Z)) (r : nat) :
  np.fill_cols_0 start stop a !! r
    = (fun row =>
         imap (fun c v =>
                 if np.in_slice (Z.of_nat (length row)) start stop (Z.of_nat c)
                 then 0 else v) row) <$> a !! r.
Proof. apply list_lookup_fmap. Qed.

Lemma fill_rows_0_length start stop (a : list (list Z)) :
  length (np.fill_rows_0 start stop a) = length a.
Proof. apply length_imap. Qed.

Lemma fill_cols_0_length start stop (a : list (list Z)) :
  length (np.fill_cols_0 start stop a) = length a.
Proof. apply length_fmap. Qed.

Lemma restrict_edges_row x1 y1 x2 y2 (edges : list (list Z)) (r : nat) :
  0 <= x1 -> 0 <= y1 -> 0 <= x2 -> 0 <= y2 ->
  ccqt.restrict_edges (x1, y1, x2, y2) edges !! r
    = imap (fun c v => if spec.inside (x1, y1, x2, y2) r c then v else 0)
        <$> edges !! r.
Proof.
  intros Hx1 Hy1 Hx2 Hy2. unfold ccqt.restrict_edges. rows.
  rewrite !fill_cols_0_lookup, !fill_rows_0_lookup, fill_rows_0_length.
  destruct (edges !! r) as [row|] eqn:E; [|done]. simpl. f_equal.
  pose proof (lookup_lt_Some _ _ _ E) as Hr.
  apply list_eq. intros c. rewrite !list_lookup_imap, length_imap.
  assert (Hz : forall l : list Z, map (fun _ => 0) l !! c = (fun _ => 0) <$> l !! c)
    by (intros l; apply list_lookup_fmap).
  assert (Hlen : forall (b : bool) (l : list Z),
            length (if b then map (fun _ => 0) l else l) = length l)
    by (intros [] l; [apply length_map|done]).
  rewrite !Hlen.
  assert (Hrow : forall (b : bool) (l : list Z),
            (if b then map (fun _ => 0) l else l) !! c
            = (fun v => if b then 0 else v) <$> l !! c).
  { intros [] l; [apply Hz|]. by destruct (l !! c). }
  rewrite !Hrow.
  destruct (row !! c) as [v|] eqn:Ec; [|done]. simpl. f_equal.
  pose proof (lookup_lt_Some _ _ _ Ec) as Hc.
  unfold np.in_slice, np.slice_bound, spec.inside. simpl.
  destruct (x1 <? 0) eqn:N1; [lia|]. destruct (x2 <? 0) eqn:N2; [lia|].
  destruct (y1 <? 0) eqn:N3; [lia|]. destruct (y2 <? 0) eqn:N4; [lia|].
  repeat match goal with
  | |- context [Z.leb ?a ?b] => destruct (Z.leb_spec a b)
  | |- context [Z.ltb ?a ?b] => destruct (Z.ltb_spec a b)
  end; simpl; try done; lia.
Qed.

Lemma restrict_edges_item x1 y1 x2 y2 (edges : list (list Z)) (r c : nat) :
  0 <= x1 -> 0 <= y1 -> 0 <= x2 -> 0 <= y2 ->
  np.item (ccqt.restrict_edges (x1, y1, x2, y2) edges) r c
    = (fun v => if spec.inside (x1, y1, x2, y2) r c then v else 0)
        <$> np.item edges r c.
Proof.
  intros Hx1 Hy1 Hx2 Hy2. unfold np.item. rows.
  rewrite restrict_edges_row by done.
  destruct (edges !! r) as [row|]; [|done]. simpl.
  apply list_lookup_imap.
Qed.
(** X1. The four slice assignments of [update_feed] keep the edge map
    inside the rectangle and clear it outside: for coordinates that are not
    negative, the element in row [r], column [c] of the masked map is the
    element of the edge map when [y1 <= r < y2] and [x1 <= c < x2], and 0
    otherwise ([versions/v3/ccqt.py] and [versions/v3/cc.py] alike). *)
Theorem detection_area_keeps_inside_clears_outside :
  forall (x1 y1 x2 y2 : Z) (edges : np.plane) (r c : nat),
    0 <= x1 -> 0 <= y1 -> 0 <= x2 -> 0 <= y2 ->
    np.item (ccqt.restrict_edges (x1, y1, x2, y2) edges) r c
      = (fun v => if spec.inside (x1, y1, x2, y2) r c then v else 0)
          <$> np.item edges r c /\
    np.item (v3_cc.apply_detection_area (x1, y1, x2, y2) edges) r c
      = (fun v => if spec.inside (x1, y1, x2, y2) r c then v else 0)
          <$> np.item edges r c.
Proof.
  intros x1 y1 x2 y2 edges r c Hx1 Hy1 Hx2 Hy2.
  split; exact (restrict_edges_item x1 y1 x2 y2 edges r c Hx1 Hy1 Hx2 Hy2).
Qed.

Lemma detection_area_keeps_inside_clears_outside_witness :
  np.item (ccqt.restrict_edges (1, 0, 3, 1) [[7; 8; 9; 10]; [1; 2; 3; 4]]) 0 1
    = Some 8 /\
  np.item (ccqt.restrict_edges (1, 0, 3, 1) [[7; 8; 9; 10]; [1; 2; 3; 4]]) 1 1
    = Some 0.
Proof.
  split.
  - apply (detection_area_keeps_inside_clears_outside 1 0 3 1
             [[7; 8; 9; 10]; [1; 2; 3; 4]] 0 1); lia.
  - apply (detection_area_keeps_inside_clears_outside 1 0 3 1
             [[7; 8; 9; 10]; [1; 2; 3; 4]] 1 1); lia.
Defined.

(** ** Masking and the count of edge pixels *)

Lemma positives_zeros (row : list Z) :
  filter (fun v : Z => (0 < v)%Z) (map (fun _ : Z => 0) row) = [].
Proof.
  induction row as [|x row IH]; [done|]. simpl.
  rewrite filter_cons. by destruct (decide (0 < 0)); [lia|].
Qed.

Lemma positives_imap_le (g : nat -> Z -> Z) (row : list Z) :
  (forall i v, g i v = v \/ g i v = 0) ->
  (length (filter (fun v : Z => (0 < v)%Z) (imap g row))
   <= length (filter (fun v : Z => (0 < v)%Z) row))%nat.
Proof.
  revert g. induction row as [|x row IH]; intros g Hg; [done|]. simpl.
  rewrite !filter_cons.
  specialize (IH (g ∘ S) (fun i v => Hg (S i) v)).
  destruct (Hg 0%nat x) as [-> | ->].
  - destruct (decide (0 < x)); simpl; lia.
  - destruct (decide (0 < 0)); [lia|]. destruct (decide (0 < x)); simpl; lia.
Qed.

Lemma count_positive_le (a b : list (list Z)) :
  Forall2 (fun ra rb => (length (filter (fun v : Z => (0 < v)%Z) ra)
                         <= length (filter (fun v : Z => (0 < v)%Z) rb))%nat) a b ->
  np.count_positive a <= np.count_positive b.
Proof.
  unfold np.count_positive. induction 1 as [|ra rb a b Hr _ IH]; [done|].
  simpl. lia.
Qed.

Lemma fill_rows_0_count start stop (a : list (list Z)) :
  np.count_positive (np.fill_rows_0 start stop a) <= np.count_positive a.
Proof.
  apply count_positive_le, Forall2_same_length_lookup_2.
  - apply fill_rows_0_length.
  - intros r ra rb Ha Hb. rewrite fill_rows_0_lookup, Hb in Ha.
    simpl in Ha. injection Ha as <-.
    destruct (np.in_slice _ _ _ _); [|done].
    rewrite positives_zeros. simpl. lia.
Qed.

Lemma fill_cols_0_count start stop (a : list (list Z)) :
  np.count_positive (np.fill_cols_0 start stop a) <= np.count_positive a.
Proof.
  apply count_positive_le, Forall2_same_length_lookup_2.
  - apply fill_cols_0_length.
  - intros r ra rb Ha Hb. rewrite fill_cols_0_lookup, Hb in Ha.
    simpl in Ha. injection Ha as <-.
    apply positives_imap_le. intros i v.
    destruct (np.in_slice _ _ _ _); auto.
Qed.

Lemma fill_rows_0_shape start stop (a : list (list Z)) :
  map length (np.fill_rows_0 start stop a) = map length a.
Proof.
  apply list_eq. intros r.
  rewrite !list_lookup_fmap, fill_rows_0_lookup.
  destruct (a !! r) as [row|]; [|done]. simpl. f_equal.
  destruct (np.in_slice _ _ _ _); [apply length_map|done].
Qed.

Lemma fill_cols_0_shape start stop (a : list (list Z)) :
  map length (np.fill_cols_0 start stop a) = map length a.
Proof.
  apply list_eq. intros r.
  rewrite !list_lookup_fmap, fill_cols_0_lookup.
  destruct (a !! r) as [row|]; [|done]. simpl. f_equal. apply length_imap.
Qed.

(** X2. Whatever the detection area is (negative coordinates, which count
    from the far edge, included), masking keeps the shape of the edge map
    and never raises the number of edge pixels: an area can suppress an
    event but never cause one. *)
Theorem masking_never_adds_edge_pixels :
  forall (area : Z * Z * Z * Z) (edges : np.plane) (threshold : Z),
    let masked := ccqt.restrict_edges area edges in
    map length masked = map length edges /\
    np.count_positive masked <= np.count_positive edges /\
    v3_cc.apply_detection_area area edges = masked /\
    (bool_decide (np.count_positive masked > threshold) = true ->
     bool_decide (np.count_positive edges > threshold) = true).
Proof.
  intros [[[x1 y1] x2] y2] edges threshold masked. subst masked.
  assert (Hle : np.count_positive (ccqt.restrict_edges (x1, y1, x2, y2) edges)
                <= np.count_positive edges).
  { unfold ccqt.restrict_edges.
    etrans; [apply fill_cols_0_count|]. etrans; [apply fill_cols_0_count|].
    etrans; [apply fill_rows_0_count|]. apply fill_rows_0_count. }
  split_and!; [|done|done|].
  - unfold ccqt.restrict_edges.
    by rewrite !fill_cols_0_shape, !fill_rows_0_shape.
  - intros H. apply bool_decide_eq_true in H. apply bool_decide_eq_true. lia.
Qed.

(** ** The full-frame area *)

Lemma fill_rows_0_id start stop (a : list (list Z)) :
  (forall r : nat, (r < length a)%nat ->
     np.in_slice (Z.of_nat (length a)) start stop (Z.of_nat r) = false) ->
  np.fill_rows_0 start stop a = a.
Proof.
  intros H. apply list_eq. intros r. rewrite fill_rows_0_lookup.
  destruct (a !! r) as [row|] eqn:E; [|done]. simpl.
  by rewrite H by (by apply lookup_lt_Some in E).
Qed.

Lemma fill_cols_0_id start stop (a : list (list Z)) :
  Forall (fun row : list Z => forall c : nat, (c < length row)%nat ->
     np.in_slice (Z.of_nat (length row)) start stop (Z.of_nat c) = false) a ->
  np.fill_cols_0 start stop a = a.
Proof.
  intros H. apply list_eq. intros r. rewrite fill_cols_0_lookup.
  destruct (a !! r) as [row|] eqn:E; [|done]. simpl. f_equal.
  pose proof (proj1 (Forall_lookup _ _) H r row E) as Hrow. simpl in Hrow.
  apply list_eq. intros c. rewrite list_lookup_imap.
  destruct (row !! c) as [v|] eqn:Ec; [|done]. simpl.
  by rewrite Hrow by (by apply lookup_lt_Some in Ec).
Qed.

(** X3. An area that starts at the origin and reaches the far edges of the
    edge map masks nothing: with the default area
    [[0, 0, FRAME_WIDTH, FRAME_HEIGHT]] the detection sees the whole
    frame. *)
Theorem full_frame_area_masks_nothing :
  forall (x2 y2 : Z) (edges : np.plane),
    Z.of_nat (length edges) <= y2 ->
    Forall (fun row : list Z => Z.of_nat (length row) <= x2) edges ->
    ccqt.restrict_edges (0, 0, x2, y2) edges = edges /\
    v3_cc.apply_detection_area (0, 0, x2, y2) edges = edges.
Proof.
  intros x2 y2 edges Hy Hx.
  assert (ccqt.restrict_edges (0, 0, x2, y2) edges = edges) as H;
    [|split; exact H].
  unfold ccqt.restrict_edges.
  rewrite (fill_rows_0_id None (Some 0) edges).
  2: { intros r Hr. unfold np.in_slice, np.slice_bound. simpl.
       destruct (Z.ltb_spec (Z.of_nat r) (0 `min` Z.of_nat (length edges)));
         [lia|]. by rewrite andb_false_r. }
  rewrite (fill_rows_0_id (Some y2) None edges).
  2: { intros r Hr. unfold np.in_slice, np.slice_bound. simpl.
       destruct (y2 <? 0) eqn:N; [lia|].
       destruct (Z.leb_spec (y2 `min` Z.of_nat (length edges)) (Z.of_nat r));
         [lia|done]. }
  rewrite (fill_cols_0_id None (Some 0) edges).
  2: { apply Forall_forall. intros row _ c Hc.
       unfold np.in_slice, np.slice_bound. simpl.
       destruct (Z.ltb_spec (Z.of_nat c) (0 `min` Z.of_nat (length row)));
         [lia|]. by rewrite andb_false_r. }
  apply fill_cols_0_id.
  eapply Forall_impl; [exact Hx|]. simpl. intros row Hrow c Hc.
  unfold np.in_slice, np.slice_bound. simpl.
  destruct (x2 <? 0) eqn:N; [lia|].
  destruct (Z.leb_spec (x2 `min` Z.of_nat (length row)) (Z.of_nat c));
    [lia|done].
Qed.

Lemma full_frame_area_masks_nothing_witness :
  ccqt.restrict_edges (0, 0, 960, 640) [[255; 0; 255]; [0; 255; 0]]
    = [[255; 0; 255]; [0; 255; 0]].
Proof.
  apply (full_frame_area_masks_nothing 960 640 [[255; 0; 255]; [0; 255; 0]]).
  - simpl. lia.
  - repeat constructor; simpl; lia.
Defined.
(** ** The lookup table of the conditioning *)

Lemma lut_entry (f : Z -> Z) (v : Z) :
  0 <= v <= 255 -> nth (Z.to_nat v) (map f (seqZ 0 256)) 0 = f v.
Proof.
  intros Hv. rewrite nth_lookup, list_lookup_fmap, lookup_seqZ_lt by lia.
  simpl. by rewrite Z.add_0_l, Z2Nat.id by lia.
Qed.

Lemma LUT_through (table : list Z) (f : Z -> Z) (frame : cv2.raster) :
  (forall v, 0 <= v <= 255 -> nth (Z.to_nat v) table 0 = f v) ->
  cv2.uint8_raster frame ->
  cv2.LUT frame table = map (map (cv2.map_channels f)) frame.
Proof.
  intros Htab Hframe. unfold cv2.LUT.
  apply Forall_fmap_ext. eapply Forall_impl; [exact Hframe|]. simpl.
  intros row Hrow.
  apply Forall_fmap_ext. eapply Forall_impl; [exact Hrow|]. simpl.
  intros [[b g] r] (Hb & Hg & Hr). unfold cv2.map_channels. simpl in *.
  by rewrite !Htab.
Qed.

Lemma LUT_pointwise (f : Z -> Z) (frame : cv2.raster) :
  cv2.uint8_raster frame ->
  cv2.LUT frame (map f (seqZ 0 256)) = map (map (cv2.map_channels f)) frame.
Proof. apply LUT_through. intros v Hv. by apply lut_entry. Qed.

Lemma int_of_float_floor (q : Q) : (0 <= q)%Q -> py.int_of_float q = Qfloor q.
Proof.
  destruct q as [a b]. unfold Qle, py.int_of_float, Qfloor. simpl.
  intros H. apply Z.quot_div_nonneg; lia.
Qed.

Lemma clip_bounds (x : Q) : (0 <= np.clip x 0 255 <= 255)%Q.
Proof.
  unfold np.clip.
  destruct (Q.max_spec x 0) as [[? E1]|[? E1]];
    destruct (Q.min_spec (Qmax x 0) 255) as [[? E2]|[? E2]]; lra.
Qed.

Lemma clip_mono (x y : Q) : (x <= y)%Q -> (np.clip x 0 255 <= np.clip y 0 255)%Q.
Proof.
  intros H. unfold np.clip.
  destruct (Q.max_spec x 0) as [[? E1]|[? E1]];
    destruct (Q.max_spec y 0) as [[? E3]|[? E3]];
    destruct (Q.min_spec (Qmax x 0) 255) as [[? E2]|[? E2]];
    destruct (Q.min_spec (Qmax y 0) 255) as [[? E4]|[? E4]]; lra.
Qed.

Lemma uint8_of_clip (x : Q) :
  np.uint8_of_float (np.clip x 0 255) = Qfloor (np.clip x 0 255) /\
  0 <= Qfloor (np.clip x 0 255) <= 255.
Proof.
  pose proof (clip_bounds x) as [H0 H255].
  assert (0 <= Qfloor (np.clip x 0 255) <= 255) as Hb.
  { split.
    - change 0 with (Qfloor 0). by apply Qfloor_resp_le.
    - change 255 with (Qfloor 255). by apply Qfloor_resp_le. }
  split; [|done]. unfold np.uint8_of_float.
  rewrite int_of_float_floor by done. apply Z.mod_small. lia.
Qed.

Lemma clip_integer (x : Q) (n : Z) :
  (x == inject_Z n)%Q -> (np.clip x 0 255 == inject_Z (np.clipZ n 0 255))%Q.
Proof.
  intros Hx. unfold np.clipZ.
  destruct (Z.max_spec n 0) as [[Hn ->]|[Hn ->]].
  - (* n < 0 *)
    assert (x <= 0)%Q.
    { rewrite Hx. change 0%Q with (inject_Z 0). rewrite <- Zle_Qle. lia. }
    rewrite Z.min_l by lia. unfold np.clip. change (inject_Z 0) with 0%Q.
    destruct (Q.max_spec x 0) as [[? E1]|[? E1]];
      destruct (Q.min_spec (Qmax x 0) 255) as [[? E2]|[? E2]]; lra.
  - destruct (Z.min_spec n 255) as [[Hm ->]|[Hm ->]].
    + apply clip_inside; [done|lia].
    + assert (255 <= x)%Q.
      { rewrite Hx. change 255%Q with (inject_Z 255). rewrite <- Zle_Qle. lia. }
      unfold np.clip. change (inject_Z 255) with 255%Q.
      destruct (Q.max_spec x 0) as [[? E1]|[? E1]];
        destruct (Q.min_spec (Qmax x 0) 255) as [[? E2]|[? E2]]; lra.
Qed.

(** X4. In [apply_video_controls] of [versions/v3/ccqt.py], with contrast 1
    and saturation 1, brightness and black point act only through their
    difference: every channel value [v] of an 8-bit frame becomes
    [v + brightness - black_point], held to [0, 255]. *)
Theorem lut_shifts_and_clamps :
  forall (cv : cv2.OpenCV) (g : ccqt.params) (frame : cv2.raster),
    cv2.uint8_raster frame ->
    (ccqt.contrast g == 1)%Q -> (ccqt.saturation g == 1)%Q ->
    ccqt.apply_video_controls g frame
      = map (map (cv2.map_channels
                    (fun v => np.clipZ
                                (v + (ccqt.brightness g - ccqt.black_point g))
                                0 255))) frame.
Proof.
  intros cv g frame Hframe Hc Hs. unfold ccqt.apply_video_controls.
  rewrite (py_ne_false _ _ Hs), LUT_pointwise by done.
  apply Forall_fmap_ext, Forall_true. intros row.
  apply Forall_fmap_ext, Forall_true. intros [[b gr] r].
  unfold cv2.map_channels. simpl.
  assert (E : forall v : Z,
            np.uint8_of_float
              (np.clip (ccqt.contrast g
                        * (inject_Z v
                           + inject_Z (ccqt.brightness g - ccqt.black_point g)))
                 0 255)
            = np.clipZ (v + (ccqt.brightness g - ccqt.black_point g)) 0 255).
  { intros v. unfold np.uint8_of_float.
    rewrite (int_of_float_integer _
               (np.clipZ (v + (ccqt.brightness g - ccqt.black_point g)) 0 255)).
    - apply Z.mod_small. unfold np.clipZ. lia.
    - apply clip_integer. rewrite Hc, inject_Z_plus. lra. }
  by rewrite !E.
Qed.

Lemma lut_shifts_and_clamps_witness :
  @ccqt.apply_video_controls (cv2_8u.with_HSV2BGR id)
    (ccqt.set_gaussian_blur 5 ccqt.params_init) [[(0, 100, 255)]]
  = [[(0, 100, 255)]].
Proof.
  apply (lut_shifts_and_clamps (cv2_8u.with_HSV2BGR id)
           (ccqt.set_gaussian_blur 5 ccqt.params_init) [[(0, 100, 255)]]);
    try reflexivity.
  repeat constructor; simpl; lia.
Defined.

(** X5. In [apply_video_controls] of [versions/v3/ccqt.py], with saturation
    1 and a contrast that is not negative, the conditioning is one tone
    curve applied to every channel of an 8-bit frame; the curve stays in
    [0, 255] and preserves order (a brighter input is never darker in the
    output). *)
Theorem lut_tone_curve_is_monotone :
  forall (cv : cv2.OpenCV) (g : ccqt.params),
    (ccqt.saturation g == 1)%Q -> (0 <= ccqt.contrast g)%Q ->
    exists f : Z -> Z,
      (forall frame : cv2.raster,
         cv2.uint8_raster frame ->
         ccqt.apply_video_controls g frame
           = map (map (cv2.map_channels f)) frame) /\
      (forall v : Z, 0 <= f v <= 255) /\
      (forall u v : Z, u <= v -> f u <= f v).
Proof.
  intros cv g Hs Hc.
  exists (fun i => np.uint8_of_float
                     (np.clip (ccqt.contrast g
                               * (inject_Z i
                                  + inject_Z (ccqt.brightness g
                                              - ccqt.black_point g)))
                        0 255)).
  split_and!.
  - intros frame Hframe. unfold ccqt.apply_video_controls.
    by rewrite (py_ne_false _ _ Hs), LUT_pointwise.
  - intros v. simpl.
    destruct (uint8_of_clip
                (ccqt.contrast g
                 * (inject_Z v
                    + inject_Z (ccqt.brightness g - ccqt.black_point g))))
      as [-> ?]. done.
  - intros u v Huv. simpl.
    destruct (uint8_of_clip
                (ccqt.contrast g
                 * (inject_Z u
                    + inject_Z (ccqt.brightness g - ccqt.black_point g))))
      as [-> _].
    destruct (uint8_of_clip
                (ccqt.contrast g
                 * (inject_Z v
                    + inject_Z (ccqt.brightness g - ccqt.black_point g))))
      as [-> _].
    apply Qfloor_resp_le, clip_mono.
    assert (inject_Z u <= inject_Z v)%Q by (by rewrite <- Zle_Qle).
    nra.
Qed.

Lemma lut_tone_curve_is_monotone_witness :
  exists f : Z -> Z,
    (forall frame : cv2.raster,
       cv2.uint8_raster frame ->
       @ccqt.apply_video_controls (cv2_8u.with_HSV2BGR id) ccqt.params_init frame
         = map (map (cv2.map_channels f)) frame) /\
    (forall v : Z, 0 <= f v <= 255) /\
    (forall u v : Z, u <= v -> f u <= f v).
Proof.
  apply (lut_tone_curve_is_monotone (cv2_8u.with_HSV2BGR id) ccqt.params_init).
  - reflexivity.
  - simpl. lra.
Defined.

(** ** The last stage of [cc_110.py]'s conditioning *)

(** X6. In [apply_video_controls] of [cc_110.py] (whose text
    [versions/v3/cc.py] repeats), a black point between 0 and 255 is added to the 8-bit frame modulo 256:
    [np.clip] then has nothing left to clip, so a channel that passes 255
    wraps around to a dark value instead of staying at 255. *)
Theorem black_point_wraps_around :
  forall (cv : cv2.OpenCV) (c : cc_110.controls) (frame : cv2.raster),
    0 <= cc_110.black_point c <= 255 ->
    let scaled :=
      cv2.convertScaleAbs frame (cc_110.contrast c)
        (inject_Z (cc_110.brightness c)) in
    let hsv :=
      map (map (fun p : cv2.pixel =>
                  (p.1.1,
                   np.uint8_of_float
                     (np.clip (inject_Z p.1.2 * cc_110.saturation c) 0 255),
                   p.2))) (cv2.cvtColor_BGR2HSV scaled) in
    cc_110.apply_video_controls c frame
      = map (map (cv2.map_channels
                    (fun v => (v + cc_110.black_point c) mod 256)))
            (cv2.cvtColor_HSV2BGR hsv).
Proof.
  intros cv c frame Hk scaled hsv.
  unfold cc_110.apply_video_controls. fold scaled. fold hsv.
  apply Forall_fmap_ext, Forall_true. intros row.
  apply Forall_fmap_ext, Forall_true. intros [[b gr] r].
  unfold cv2.map_channels, cc_110.add_scalar, np.clipZ. simpl.
  destruct (Z.leb_spec 0 (cc_110.black_point c)); [|lia].
  destruct (Z.leb_spec (cc_110.black_point c) 255); [|lia]. simpl.
  assert (E : forall v : Z,
            Z.min (Z.max ((v + cc_110.black_point c) mod 256) 0) 255 mod 256
            = (v + cc_110.black_point c) mod 256).
  { intros v.
    pose proof (Z.mod_pos_bound (v + cc_110.black_point c) 256 ltac:(lia)).
    rewrite Z.max_l, Z.min_l by lia. apply Z.mod_small. lia. }
  by rewrite !E.
Qed.

Lemma black_point_wraps_around_witness :
  @cc_110.apply_video_controls (cv2_8u.with_HSV2BGR id)
    {| cc_110.contrast := 1; cc_110.brightness := 0;
       cc_110.saturation := 1; cc_110.black_point := 10 |} [[(250, 250, 250)]]
  = [[(10, 10, 4)]].
Proof.
  apply (black_point_wraps_around (cv2_8u.with_HSV2BGR id)
           {| cc_110.contrast := 1; cc_110.brightness := 0;
              cc_110.saturation := 1; cc_110.black_point := 10 |}
           [[(250, 250, 250)]] ltac:(simpl; lia)).
Defined.
(** ** The plot window *)

Lemma nth_counting (k n : nat) :
  (k < n)%nat -> nth k (seqZ 0 (Z.of_nat n)) 0 = Z.of_nat k.
Proof.
  intros H. rewrite nth_lookup, lookup_seqZ_lt by lia. simpl. lia.
Qed.

Lemma update_data_window (pm : ccm.PlotManager) (m t : Q) :
  spec.series_ok (ccm.xvals pm) (ccm.mean_values pm) ->
  let n := length (ccm.xvals pm) in
  ccm.x_range (ccm.update_data m t pm)
    = if (S n <? 300)%nat then (0, 300)
      else (Z.of_nat n - 299, Z.of_nat n).
Proof.
  intros [_ Hxs] n. unfold ccm.update_data. cbn [ccm.x_range].
  rewrite (next_x_counts (ccm.xvals pm) n Hxs).
  rewrite length_seqZ, Nat2Z.id.
  destruct (S n <? 300)%nat eqn:E; [done|].
  apply Nat.ltb_ge in E.
  rewrite last_counting, nth_counting by lia. f_equal. lia.
Qed.

(** X7. The plot of [versions/v3/ccm.py] scrolls with the data: whatever
    calls the [PlotManager] has received since it was made, after the next
    [update_data] the x-range is [0, 300] while fewer than 300 samples are
    held, and from then on it spans the newest 300 samples and ends at the
    newest one. *)
Theorem plot_window_follows_newest_sample :
  forall (calls : list runs.plot_call) (threshold m t : Q),
    let pm := runs.plot_run calls (ccm.PlotManager_init threshold) in
    let n := length (ccm.xvals pm) in
    ccm.x_range (ccm.update_data m t pm)
      = if (S n <? 300)%nat then (0, 300)
        else (Z.of_nat n - 299, Z.of_nat n).
Proof.
  intros calls threshold m t pm n. apply update_data_window.
  apply plot_run_series, series_ok_nil.
Qed.

(** ** Markers, labels and the saved files *)

Lemma prune_Forall {A} (P : A -> Prop) (k : nat) (l : list A) :
  Forall P l -> Forall P (ccm.prune k l).
Proof.
  intros H. unfold ccm.prune. destruct (k <? length l)%nat; [|done].
  destruct H; [constructor|done].
Qed.

Lemma ccm_frame_keeps_threshold `{cv2.OpenCV} frame t (w : ccm.CharmCCM) :
  ccm.threshold_value (ccm.settings (ccm.handle_new_frame frame t w))
    = ccm.threshold_value (ccm.settings w).
Proof.
  unfold ccm.handle_new_frame.
  repeat match goal with |- context [if ?b then _ else _] =>
    match b with
    | context [if _ then _ else _] => fail 1
    | _ => destruct b
    end end; reflexivity.
Qed.

Lemma ccm_frame_series `{cv2.OpenCV} frame t (w : ccm.CharmCCM) :
  spec.series_ok (ccm.xvals (ccm.plot_manager w))
                 (ccm.mean_values (ccm.plot_manager w)) ->
  spec.series_ok
    (ccm.xvals (ccm.plot_manager (ccm.handle_new_frame frame t w)))
    (ccm.mean_values (ccm.plot_manager (ccm.handle_new_frame frame t w))).
Proof.
  intros Hser. unfold ccm.handle_new_frame.
  repeat match goal with |- context [if ?b then _ else _] =>
    match b with
    | context [if _ then _ else _] => fail 1
    | _ => destruct b
    end end; simpl; by apply series_ok_next.
Qed.

Lemma ccm_frame_markers `{cv2.OpenCV} frame t (w : ccm.CharmCCM) :
  let above (pm : ccm.PlotManager) (thr : Q) (line : ccm.InfiniteLine) :=
    exists m : Q, ccm.mean_values pm !! Z.to_nat (ccm.pos line) = Some m
                  /\ (thr < m)%Q in
  let pm := ccm.plot_manager w in
  let thr := ccm.threshold_value (ccm.settings w) in
  spec.series_ok (ccm.xvals pm) (ccm.mean_values pm) ->
  Forall (above pm thr) (ccm.event_lines pm) ->
  Forall (above (ccm.plot_manager (ccm.handle_new_frame frame t w)) thr)
         (ccm.event_lines (ccm.plot_manager (ccm.handle_new_frame frame t w))).
Proof.
  intros above pm thr Hser Hold.
  assert (Hkeep : forall m0 : Q,
            Forall (fun line => exists m : Q,
                      (ccm.mean_values pm ++ [m0]) !! Z.to_nat (ccm.pos line)
                        = Some m /\ (thr < m)%Q)
                   (ccm.event_lines pm)).
  { intros m0. eapply Forall_impl; [exact Hold|]. simpl.
    intros line (m & Hm & Hlt). exists m. split; [|done].
    by apply lookup_app_l_Some. }
  unfold ccm.handle_new_frame. fold pm. fold thr.
  set (m0 := np.mean _).
  destruct (py.lt thr m0) eqn:Hcross; [|apply Hkeep].
  destruct (py.ge _ _); [|apply Hkeep].
  cbn [ccm.save_images ccm.set_last_saved_time].
  destruct (ccm.save_images (ccm.settings w)); [|apply Hkeep].
  cbn [ccm.plot_manager ccm.mark_event ccm.event_lines ccm.mean_values
       ccm.update_data ccm.max_event_lines].
  apply prune_Forall, Forall_app. split; [apply Hkeep|].
  constructor; [|constructor].
  exists m0. split; [|by apply py_lt_iff].
  unfold ccm.new_marker. cbn [ccm.pos ccm.xvals ccm.update_data].
  destruct Hser as [Hlen Hxs].
  rewrite (next_x_counts (ccm.xvals pm) (length (ccm.xvals pm)) Hxs).
  rewrite last_counting, Nat2Z.id, Hlen.
  apply list_lookup_middle. reflexivity.
Qed.

Lemma ccm_frames_markers `{cv2.OpenCV} inputs : forall w : ccm.CharmCCM,
  let above (pm : ccm.PlotManager) (thr : Q) (line : ccm.InfiniteLine) :=
    exists m : Q, ccm.mean_values pm !! Z.to_nat (ccm.pos line) = Some m
                  /\ (thr < m)%Q in
  let thr := ccm.threshold_value (ccm.settings w) in
  spec.series_ok (ccm.xvals (ccm.plot_manager w))
                 (ccm.mean_values (ccm.plot_manager w)) ->
  Forall (above (ccm.plot_manager w) thr) (ccm.event_lines (ccm.plot_manager w)) ->
  Forall (above (ccm.plot_manager (runs.ccm_frames inputs w)) thr)
         (ccm.event_lines (ccm.plot_manager (runs.ccm_frames inputs w))).
Proof.
  induction inputs as [|[frame t] inputs IH]; intros w above thr Hser Hold;
    [exact Hold|].
  simpl. subst thr.
  rewrite <- (ccm_frame_keeps_threshold frame t w).
  apply IH.
  - pose proof (ccm_frame_series frame t w Hser). done.
  - rewrite ccm_frame_keeps_threshold. by apply ccm_frame_markers.
Qed.

(** X8. In [versions/v3/ccm.py], over any sequence of frames from the
    start of the program, every marker on the plot stands at a frame whose
    mean intensity was above the threshold: a marker at x-position [p] has
    [mean_values[p] > threshold_value]. *)
Theorem markers_stand_on_frames_above_threshold :
  forall (cv : cv2.OpenCV) (inputs : list (cv2.raster * Q)) (d : os.dir),
    let w := runs.ccm_frames inputs (ccm.CharmCCM_init d) in
    Forall (fun line : ccm.InfiniteLine =>
              exists m : Q,
                ccm.mean_values (ccm.plot_manager w) !! Z.to_nat (ccm.pos line)
                  = Some m /\
                (ccm.threshold_value (ccm.settings w) < m)%Q)
           (ccm.event_lines (ccm.plot_manager w)).
Proof.
  intros cv inputs d w. subst w.
  assert (Hthr : forall (inputs : list (cv2.raster * Q)) (w : ccm.CharmCCM),
            ccm.threshold_value (ccm.settings (runs.ccm_frames inputs w))
            = ccm.threshold_value (ccm.settings w)).
  { clear. induction inputs as [|[frame t] inputs IH]; intros w; [done|].
    simpl. rewrite IH. apply ccm_frame_keeps_threshold. }
  rewrite Hthr.
  apply (ccm_frames_markers inputs (ccm.CharmCCM_init d)).
  - apply series_ok_nil.
  - constructor.
Qed.

Lemma ccm_frame_labels `{cv2.OpenCV} frame t (w : ccm.CharmCCM) :
  Forall (fun label : ccm.TextItem =>
            exists img : cv2.frame,
              ccm.files w !! ccm.text label = Some (os.ImageFile img))
         (ccm.event_labels (ccm.plot_manager w)) ->
  Forall (fun label : ccm.TextItem =>
            exists img : cv2.frame,
              ccm.files (ccm.handle_new_frame frame t w) !! ccm.text label
                = Some (os.ImageFile img))
         (ccm.event_labels (ccm.plot_manager (ccm.handle_new_frame frame t w))).
Proof.
  intros Hold. unfold ccm.handle_new_frame.
  set (m0 := np.mean _).
  destruct (py.lt _ m0); [|exact Hold].
  destruct (py.ge _ _); [|exact Hold].
  cbn [ccm.save_images ccm.set_last_saved_time].
  destruct (ccm.save_images (ccm.settings w)); [|exact Hold].
  cbn [ccm.plot_manager ccm.files ccm.mark_event ccm.event_labels
       ccm.update_data ccm.max_event_lines ccm.prefix].
  set (filename := ccm.prefix _ +:+ _). clearbody filename.
  apply prune_Forall, Forall_app. split.
  - eapply Forall_impl; [exact Hold|]. simpl. intros label [img Himg].
    unfold os.imwrite.
    destruct (decide (filename = ccm.text label)) as [Heq|Hne].
    + rewrite <- Heq, lookup_insert_eq. by eexists.
    + rewrite lookup_insert_ne by done. by eexists.
  - constructor; [|constructor].
    unfold os.imwrite, ccm.new_label. cbn [ccm.text].
    rewrite lookup_insert_eq. by eexists.
Qed.

(** X9. In [versions/v3/ccm.py], over any sequence of frames from the
    start of the program, and whatever the directory held before, every
    label on the plot is the name of a file in the directory, and that file
    is an image written by the program. *)
Theorem labels_name_saved_images :
  forall (cv : cv2.OpenCV) (inputs : list (cv2.raster * Q)) (d : os.dir),
    let w := runs.ccm_frames inputs (ccm.CharmCCM_init d) in
    Forall (fun label : ccm.TextItem =>
              exists img : cv2.frame,
                ccm.files w !! ccm.text label = Some (os.ImageFile img))
           (ccm.event_labels (ccm.plot_manager w)).
Proof.
  intros cv inputs d w. subst w.
  assert (Hrun : forall (inputs : list (cv2.raster * Q)) (w : ccm.CharmCCM),
            Forall (fun label : ccm.TextItem =>
                      exists img : cv2.frame,
                        ccm.files w !! ccm.text label = Some (os.ImageFile img))
                   (ccm.event_labels (ccm.plot_manager w)) ->
            Forall (fun label : ccm.TextItem =>
                      exists img : cv2.frame,
                        ccm.files (runs.ccm_frames inputs w) !! ccm.text label
                          = Some (os.ImageFile img))
                   (ccm.event_labels
                      (ccm.plot_manager (runs.ccm_frames inputs w)))).
  { clear. induction inputs as [|[frame t] inputs IH]; intros w Hold;
      [exact Hold|].
    simpl. apply IH. by apply ccm_frame_labels. }
  apply Hrun. constructor.
Qed.
(** ** Saving switched off *)

(** X10. In [versions/v3/ccm.py] a frame above the threshold and past the
    cooldown restarts the cooldown even while image saving is switched
    off: nothing is written, logged or marked, but [last_saved_time] is
    set. If saving is then switched on, a second frame within the cooldown
    of the first is not saved either, however bright it is. *)
Theorem unsaved_event_restarts_cooldown :
  forall (cv : cv2.OpenCV) (frame1 frame2 : cv2.raster) (t1 t2 : Q)
         (w : ccm.CharmCCM),
    let s := ccm.settings w in
    ccm.save_images s = false ->
    (ccm.threshold_value s
     < np.mean (cv2.cvtColor_BGR2GRAY (ccm.condition s frame1)))%Q ->
    (inject_Z (ccm.cooldown_time s) <= t1 - ccm.last_saved_time s)%Q ->
    (t2 - t1 < inject_Z (ccm.cooldown_time s))%Q ->
    let w1 := ccm.handle_new_frame frame1 t1 w in
    let w2 := ccm.toggle_image_saving ccm.Qt_Checked w1 in
    let w3 := ccm.handle_new_frame frame2 t2 w2 in
    ccm.files w1 = ccm.files w /\
    ccm.log_box w1 = ccm.log_box w /\
    ccm.event_lines (ccm.plot_manager w1) = ccm.event_lines (ccm.plot_manager w) /\
    ccm.last_saved_time (ccm.settings w1) = t1 /\
    ccm.save_images (ccm.settings w2) = true /\
    ccm.files w3 = ccm.files w /\
    ccm.event_lines (ccm.plot_manager w3) = ccm.event_lines (ccm.plot_manager w) /\
    ccm.last_saved_time (ccm.settings w3) = t1.
Proof.
  intros cv frame1 frame2 t1 t2 w s Hoff Hcross Hcool Hsoon w1 w2 w3.
  assert (E1 : w1 = {| ccm.settings := ccm.set_last_saved_time t1 s;
                       ccm.plot_manager :=
                         ccm.update_data
                           (np.mean (cv2.cvtColor_BGR2GRAY (ccm.condition s frame1)))
                           (ccm.threshold_value s) (ccm.plot_manager w);
                       ccm.files := ccm.files w;
                       ccm.log_box := ccm.log_box w |}).
  { subst w1. unfold ccm.handle_new_frame. fold s.
    apply py_lt_iff in Hcross. apply py_ge_iff in Hcool.
    rewrite Hcross, Hcool. cbn [ccm.save_images ccm.set_last_saved_time].
    by rewrite Hoff. }
  assert (E3 : ccm.files w3 = ccm.files w /\
               ccm.event_lines (ccm.plot_manager w3)
                 = ccm.event_lines (ccm.plot_manager w) /\
               ccm.last_saved_time (ccm.settings w3) = t1).
  { subst w3 w2. rewrite E1. unfold ccm.handle_new_frame, ccm.toggle_image_saving,
      ccm.log_message.
    cbn [ccm.settings ccm.plot_manager ccm.files ccm.log_box
         ccm.set_save_images ccm.set_last_saved_time ccm.threshold_value
         ccm.last_saved_time ccm.cooldown_time ccm.save_images].
    assert (Hno : py.ge (t2 - t1) (inject_Z (ccm.cooldown_time s)) = false)
      by (by apply py_ge_false_iff).
    rewrite Hno.
    destruct (py.lt _ _); by split_and!. }
  rewrite E1. split_and!; try done; apply E3.
Qed.

Lemma unsaved_event_restarts_cooldown_witness :
  let w := {| ccm.settings := ccm.set_save_images false ccm.CameraSettings_init;
              ccm.plot_manager := ccm.PlotManager_init 128;
              ccm.files := ∅; ccm.log_box := [] |} in
  let w1 := @ccm.handle_new_frame (cv2_8u.with_HSV2BGR id)
              [[(200, 200, 200)]] 10 w in
  let w3 := @ccm.handle_new_frame (cv2_8u.with_HSV2BGR id)
              [[(250, 250, 250)]] 12
              (ccm.toggle_image_saving ccm.Qt_Checked w1) in
  ccm.files w3 = ∅.
Proof.
  intros w w1 w3.
  apply (unsaved_event_restarts_cooldown (cv2_8u.with_HSV2BGR id)
           [[(200, 200, 200)]] [[(250, 250, 250)]] 10 12 w);
    by vm_compute.
Defined.
(** ** The picture in the label *)

Lemma int_of_float_bounds (q : Q) (n : Z) :
  (0 <= q)%Q -> (q <= inject_Z n)%Q -> 0 <= py.int_of_float q <= n.
Proof.
  intros H0 Hn. rewrite int_of_float_floor by done. split.
  - change 0 with (Qfloor 0). by apply Qfloor_resp_le.
  - rewrite <- (Qfloor_Z n). by apply Qfloor_resp_le.
Qed.

(** X11. [update_display_label] of [versions/v3/ccqt.py] fits the picture
    into the label: for a picture and a label of positive height the scaled
    picture is never wider or higher than the label, it fills the label in
    one direction, and the offsets put it inside the label, centred to
    within one pixel. *)
Theorem picture_fits_the_label :
  forall w h label_w label_h : Z,
    0 < w -> 0 < h -> 0 <= label_w -> 0 < label_h ->
    exists final_w final_h offset_x offset_y : Z,
      ccqt.letterbox w h label_w label_h
        = Some (final_w, final_h, offset_x, offset_y) /\
      0 <= final_w <= label_w /\ 0 <= final_h <= label_h /\
      (final_w = label_w \/ final_h = label_h) /\
      0 <= offset_x /\ offset_x + final_w <= label_w /\
      0 <= offset_y /\ offset_y + final_h <= label_h /\
      label_w - final_w - 1 <= 2 * offset_x <= label_w - final_w /\
      label_h - final_h - 1 <= 2 * offset_y <= label_h - final_h.
Proof.
  intros w h lw lh Hw Hh Hlw Hlh. unfold ccqt.letterbox.
  destruct (Z.eqb_spec h 0) as [|_]; [lia|].
  destruct (Z.eqb_spec lh 0) as [|_]; [lia|].
  assert (Qw : (0 < inject_Z w)%Q) by (change 0%Q with (inject_Z 0); by rewrite <- Zlt_Qlt).
  assert (Qh : (0 < inject_Z h)%Q) by (change 0%Q with (inject_Z 0); by rewrite <- Zlt_Qlt).
  assert (Qlh : (0 < inject_Z lh)%Q) by (change 0%Q with (inject_Z 0); by rewrite <- Zlt_Qlt).
  assert (Qlw : (0 <= inject_Z lw)%Q) by (change 0%Q with (inject_Z 0); by rewrite <- Zle_Qle).
  set (a := (inject_Z w / inject_Z h)%Q).
  assert (Ha : (0 < a)%Q).
  { subst a. apply Qlt_shift_div_l; [done|]. lra. }
  assert (Hfit : forall fw fh : Z,
            0 <= fw <= lw -> 0 <= fh <= lh -> fw = lw \/ fh = lh ->
            exists final_w final_h offset_x offset_y : Z,
              Some (fw, fh, (lw - fw) / 2, (lh - fh) / 2)
                = Some (final_w, final_h, offset_x, offset_y) /\
              0 <= final_w <= lw /\ 0 <= final_h <= lh /\
              (final_w = lw \/ final_h = lh) /\
              0 <= offset_x /\ offset_x + final_w <= lw /\
              0 <= offset_y /\ offset_y + final_h <= lh /\
              lw - final_w - 1 <= 2 * offset_x <= lw - final_w /\
              lh - final_h - 1 <= 2 * offset_y <= lh - final_h).
  { intros fw fh Hfw Hfh Hfill.
    exists fw, fh, ((lw - fw) / 2), ((lh - fh) / 2).
    pose proof (Z.div_mod (lw - fw) 2 ltac:(lia)).
    pose proof (Z.mod_pos_bound (lw - fw) 2 ltac:(lia)).
    pose proof (Z.div_mod (lh - fh) 2 ltac:(lia)).
    pose proof (Z.mod_pos_bound (lh - fh) 2 ltac:(lia)).
    split_and!; try done; lia. }
  destruct (py.lt a (inject_Z lw / inject_Z lh)) eqn:Hcmp.
  - apply py_lt_iff in Hcmp.
    assert (a * inject_Z lh <= inject_Z lw)%Q.
    { apply Qlt_le_weak.
      apply (Qmult_lt_r _ _ (inject_Z lh) Qlh) in Hcmp.
      assert (E : (inject_Z lw / inject_Z lh * inject_Z lh == inject_Z lw)%Q)
        by (field; lra).
      rewrite E in Hcmp.
      done. }
    apply Hfit; [|lia|by right].
    apply int_of_float_bounds; [|done]. nra.
  - apply py_lt_false_iff in Hcmp.
    destruct (Qeq_bool a 0) eqn:Hz.
    { apply Qeq_bool_iff in Hz. lra. }
    assert (inject_Z lw / a <= inject_Z lh)%Q.
    { apply Qle_shift_div_r; [done|].
      apply (Qmult_le_r _ _ (inject_Z lh) Qlh) in Hcmp.
      assert (E : (inject_Z lw / inject_Z lh * inject_Z lh == inject_Z lw)%Q)
        by (field; lra).
      rewrite E in Hcmp.
      lra. }
    apply Hfit; [lia| |by left].
    apply int_of_float_bounds; [|done].
    apply Qle_shift_div_l; [done|]. lra.
Qed.

Lemma picture_fits_the_label_witness :
  exists final_w final_h offset_x offset_y : Z,
    ccqt.letterbox 960 1280 800 600
      = Some (final_w, final_h, offset_x, offset_y) /\
    0 <= final_w <= 800 /\ 0 <= final_h <= 600 /\
    (final_w = 800 \/ final_h = 600) /\
    0 <= offset_x /\ offset_x + final_w <= 800 /\
    0 <= offset_y /\ offset_y + final_h <= 600 /\
    800 - final_w - 1 <= 2 * offset_x <= 800 - final_w /\
    600 - final_h - 1 <= 2 * offset_y <= 600 - final_h.
Proof. apply (picture_fits_the_label 960 1280 800 600); lia. Defined.
(** ** The log filter of [versions/v3/cc.py] *)

Lemma level_line_starts (LEVEL LEVEL' message : string) :
  LEVEL ∈ ["INFO"; "WARNING"; "ERROR"] ->
  LEVEL' ∈ ["INFO"; "WARNING"; "ERROR"] ->
  py.startswith (LEVEL +:+ ": " +:+ message +:+ v3_cc.nl) LEVEL'
    = bool_decide (LEVEL = LEVEL').
Proof.
  intros H H'.
  repeat (apply elem_of_cons in H as [->|H]);
    repeat (apply elem_of_cons in H' as [->|H']);
    try (by apply elem_of_nil in H); try (by apply elem_of_nil in H');
    reflexivity.
Qed.

(** X12. [filter_logs] of [versions/v3/cc.py] shows the lines of one
    level: after any sequence of [log_message] calls at the levels info,
    warning and error, filtering by one of these levels shows what was
    shown before the calls followed by exactly the lines logged at that
    level, in the order they were logged. *)
Theorem log_filter_shows_one_level :
  forall (entries : list (string * string)) (level : string) (w : v3_cc.world),
    level ∈ ["info"; "warning"; "error"] ->
    Forall (fun e : string * string => e.2 ∈ ["info"; "warning"; "error"])
           entries ->
    v3_cc.filter_logs level
      (fold_left (fun w e => v3_cc.log_message e.1 (py.upper e.2) w) entries w)
    = v3_cc.filter_logs level w
        ++ ((fun e : string * string =>
               py.upper level +:+ ": " +:+ e.1 +:+ v3_cc.nl)
            <$> filter (fun e : string * string => e.2 = level) entries).
Proof.
  intros entries level w Hlevel Hall. revert w.
  induction Hall as [|[message lv] entries Hlv _ IH]; intros w.
  { simpl. by rewrite app_nil_r. }
  simpl in Hlv. cbn [fold_left fst snd]. rewrite IH. clear IH.
  unfold v3_cc.filter_logs, v3_cc.log_message. cbn [v3_cc.logs].
  rewrite filter_app, filter_cons, filter_nil, filter_cons. cbn [fst snd].
  assert (HU : forall l : string, l ∈ ["info"; "warning"; "error"] ->
            py.upper l ∈ ["INFO"; "WARNING"; "ERROR"]).
  { intros l Hl. repeat (apply elem_of_cons in Hl as [->|Hl]);
      [ | | |by apply elem_of_nil in Hl];
      match goal with |- py.upper ?l ∈ _ =>
        let u := eval vm_compute in (py.upper l) in change (py.upper l) with u
      end; repeat constructor. }
  rewrite (level_line_starts (py.upper lv) (py.upper level) message)
    by (by apply HU).
  assert (Hinj : py.upper lv = py.upper level <-> lv = level).
  { split; [|by intros ->].
    repeat (apply elem_of_cons in Hlv as [->|Hlv]);
      repeat (apply elem_of_cons in Hlevel as [->|Hlevel]);
      try (by apply elem_of_nil in Hlv); try (by apply elem_of_nil in Hlevel);
      done. }
  destruct (decide (lv = level)) as [->|Hne].
  - rewrite decide_True by (by rewrite bool_decide_true).
    cbn [fmap list_fmap app]. by rewrite <- app_assoc.
  - rewrite decide_False.
    + by rewrite app_nil_r.
    + rewrite bool_decide_false; [done|]. by rewrite Hinj.
Qed.

Lemma log_filter_shows_one_level_witness :
  v3_cc.filter_logs "error"
    (fold_left (fun w e => v3_cc.log_message e.1 (py.upper e.2) w)
       [("Webcam 0 started.", "info");
        ("Error: Unable to read the video feed.", "error")]
       {| v3_cc.G := v3_cc.params_init; v3_cc.files := ∅;
          v3_cc.logs := []; v3_cc.canvas := None |})
  = ["ERROR: Error: Unable to read the video feed." +:+ v3_cc.nl].
Proof.
  apply (log_filter_shows_one_level
           [("Webcam 0 started.", "info");
            ("Error: Unable to read the video feed.", "error")] "error"
           {| v3_cc.G := v3_cc.params_init; v3_cc.files := ∅;
              v3_cc.logs := []; v3_cc.canvas := None |}).
  - repeat constructor.
  - repeat constructor.
Defined.

(** ** The prefix entry of [versions/v3/cc.py] *)

(** X13. [update_filename_prefix] of [versions/v3/cc.py] assigns the new
    prefix and then fails: it raises [NameError] for [filename] before it
    logs anything. The assignment stays, so the next event that is saved
    is written under the new prefix. *)
Theorem prefix_is_set_though_the_callback_fails :
  forall (value : string) (frame : cv2.frame) (now : Q) (w : v3_cc.world),
    let r := v3_cc.update_filename_prefix value w in
    r.1 = inl (py.NameError "filename") /\
    v3_cc.filename_prefix (v3_cc.G r.2) = value /\
    v3_cc.logs r.2 = v3_cc.logs w /\
    (v3_cc.save_events (v3_cc.G w) = true ->
     v3_cc.files (v3_cc.handle_event frame now r.2).2
       = <[value +:+ "_" +:+ pretty (py.int_of_float now) +:+ ".jpg"
           := os.ImageFile frame]> (v3_cc.files w)).
Proof.
  intros value frame now w r.
  assert (E : r = (inl (py.NameError "filename"),
                   {| v3_cc.G := v3_cc.set_filename_prefix value (v3_cc.G w);
                      v3_cc.files := v3_cc.files w;
                      v3_cc.logs := v3_cc.logs w;
                      v3_cc.canvas := v3_cc.canvas w |})) by reflexivity.
  rewrite E. split_and!; try reflexivity.
  intros Hs. unfold v3_cc.handle_event.
  cbn [snd v3_cc.G v3_cc.files v3_cc.set_filename_prefix v3_cc.save_events
       v3_cc.filename_prefix].
  rewrite Hs. by destruct (v3_cc.only_view _).
Qed.

Lemma prefix_is_set_though_the_callback_fails_witness :
  let w := {| v3_cc.G :=
                {| v3_cc.running := true; v3_cc.save_events := true;
                   v3_cc.only_view := false;
                   v3_cc.threshold := 1000; v3_cc.low_threshold := 50;
                   v3_cc.high_threshold := 150; v3_cc.cap_opened := true;
                   v3_cc.filename_prefix := "event";
                   v3_cc.cooldown := 5; v3_cc.last_event_time := 0;
                   v3_cc.cooldown_enabled := true;
                   v3_cc.controls := v3_cc.controls v3_cc.params_init;
                   v3_cc.detection_area := (0, 0, 640, 480);
                   v3_cc.gaussian_blur := 5 |};
              v3_cc.files := ∅; v3_cc.logs := []; v3_cc.canvas := None |} in
  let r := v3_cc.update_filename_prefix "muon" w in
  v3_cc.files (v3_cc.handle_event (cv2.fresh []) 3 r.2).2
    = <["muon_3.jpg" := os.ImageFile (cv2.fresh [])]> ∅.
Proof.
  intros w r.
  apply (prefix_is_set_though_the_callback_fails "muon" (cv2.fresh []) 3 w).
  reflexivity.
Defined.
(** ** The callbacks of [cc.py] *)

Lemma cc_handle_event_globals (frame : cv2.frame) (now : Q) (w : cc.world) :
  cc.G (cc.handle_event frame now w).2 = cc.G w.
Proof.
  unfold cc.handle_event.
  destruct (cc.save_events (cc.G w)); simpl;
    destruct (cc.only_view (cc.G w)); reflexivity.
Qed.

Lemma cc_update_feed_globals `{cv2.OpenCV} capture (t te : Q) (w : cc.world) :
  cc.G (cc.update_feed capture t te w) = cc.G w \/
  cc.G (cc.update_feed capture t te w) = cc.set_last_event_time t (cc.G w).
Proof.
  unfold cc.update_feed.
  destruct (negb _); [by left|].
  destruct capture as [frame|]; [|by left].
  destruct (cc.event_passes _ _ _); [|by left].
  right.
  destruct (cc.handle_event _ te w) as [frame' w'] eqn:E.
  pose proof (cc_handle_event_globals
                (cv2.fresh (cv2.resize frame (cc.FRAME_WIDTH, cc.FRAME_HEIGHT)))
                te w) as HG.
  rewrite E in HG. simpl in HG. simpl. by rewrite HG.
Qed.

Lemma cc_select_camera_cases (value : string) (isOpened : bool) (s : cc.tk) :
  let r := cc.select_camera value isOpened s in
  let stopped := if cc.running (cc.G (cc.W s)) then cc.stop_camera s else s in
  match py.index (py.split " - " value) 0 with
  | inl e => r = (inl e, stopped)
  | inr part =>
      match py.int_of_str part with
      | inl e => r = (inl e, stopped)
      | inr n =>
          let chosen :=
            cc.log ("Selected camera: " +:+ pretty n)
              {| cc.W := cc.W stopped; cc.selected_camera := n;
                 cc.pending := cc.pending stopped |} in
          r = (inr tt,
               if cc.running (cc.G (cc.W s))
               then cc.start_camera isOpened chosen else chosen)
      end
  end.
Proof.
  intros r stopped. subst r stopped. unfold cc.select_camera.
  destruct s as [[g d lg cv] sel pend].
  lazy beta iota zeta delta
    [mbind M_bind mret M_ret eff.bind eff.ret eff.read eff.modify eff.lift
     fst snd cc.W cc.G].
  destruct (cc.running g);
    lazy beta iota zeta delta
      [mbind M_bind mret M_ret eff.bind eff.ret eff.read eff.modify eff.lift
       fst snd];
    (destruct (py.index _ 0) as [e|part]; [reflexivity|]);
    destruct (py.int_of_str part) as [e|n]; reflexivity.
Qed.

Lemma cc_act_keeps_flags `{cv2.OpenCV} (s : cc.tk) (a : cc.action) :
  cc.running (cc.G (cc.W s)) = cc.cap_opened (cc.G (cc.W s)) /\
  cc.only_view (cc.G (cc.W s)) = negb (cc.save_events (cc.G (cc.W s))) ->
  cc.running (cc.G (cc.W (cc.act s a)))
    = cc.cap_opened (cc.G (cc.W (cc.act s a))) /\
  cc.only_view (cc.G (cc.W (cc.act s a)))
    = negb (cc.save_events (cc.G (cc.W (cc.act s a)))).
Proof.
  intros [Hrun Hview].
  assert (Hstart : forall (o : bool) (s : cc.tk),
            cc.running (cc.G (cc.W s)) = cc.cap_opened (cc.G (cc.W s)) /\
            cc.only_view (cc.G (cc.W s)) = negb (cc.save_events (cc.G (cc.W s))) ->
            cc.running (cc.G (cc.W (cc.start_camera o s)))
              = cc.cap_opened (cc.G (cc.W (cc.start_camera o s))) /\
            cc.only_view (cc.G (cc.W (cc.start_camera o s)))
              = negb (cc.save_events (cc.G (cc.W (cc.start_camera o s))))).
  { clear.
    intros o [[[r se ov th lo hi cap pre cd le ce] d lg cv] sel pend].
    cbn. intros [Hr Hv]. destruct cap, o; cbn; done. }
  assert (Hstop : forall s : cc.tk,
            cc.only_view (cc.G (cc.W s)) = negb (cc.save_events (cc.G (cc.W s))) ->
            cc.running (cc.G (cc.W (cc.stop_camera s)))
              = cc.cap_opened (cc.G (cc.W (cc.stop_camera s))) /\
            cc.only_view (cc.G (cc.W (cc.stop_camera s)))
              = negb (cc.save_events (cc.G (cc.W (cc.stop_camera s))))).
  { clear.
    intros [[[r se ov th lo hi cap pre cd le ce] d lg cv] sel pend]. cbn. done. }
  destruct a; unfold cc.act.
  - by apply Hstart.
  - by apply Hstop.
  - pose proof (cc_select_camera_cases value isOpened s) as Hsel.
    cbv zeta in Hsel.
    assert (Hst : let stopped :=
                    if cc.running (cc.G (cc.W s)) then cc.stop_camera s else s in
                  cc.running (cc.G (cc.W stopped))
                    = cc.cap_opened (cc.G (cc.W stopped)) /\
                  cc.only_view (cc.G (cc.W stopped))
                    = negb (cc.save_events (cc.G (cc.W stopped)))).
    { cbv zeta. destruct (cc.running (cc.G (cc.W s))) eqn:E;
        [by apply Hstop|split; [congruence|done]]. }
    cbv zeta in Hst.
    destruct (py.index _ 0) as [e|part]; [by rewrite Hsel|].
    destruct (py.int_of_str part) as [e|n]; [by rewrite Hsel|].
    rewrite Hsel. cbn [snd].
    destruct (cc.running (cc.G (cc.W s))); [apply Hstart|]; exact Hst.
  - destruct s as [[[r se ov th lo hi cap pre cd le ce] d lg cv] sel pend].
    cbn in *. subst. by destruct se.
  - destruct s as [[[r se ov th lo hi cap pre cd le ce] d lg cv] sel pend].
    cbn in *. done.
  - destruct s as [[[r se ov th lo hi cap pre cd le ce] d lg cv] sel pend].
    cbn in *. done.
  - destruct s as [[[r se ov th lo hi cap pre cd le ce] d lg cv] sel pend].
    cbn in *. done.
  - destruct s as [[[r se ov th lo hi cap pre cd le ce] d lg cv] sel pend].
    cbn in *. done.
  - destruct s as [[[r se ov th lo hi cap pre cd le ce] d lg cv] sel pend].
    cbn in *. done.
  - destruct s as [[[r se ov th lo hi cap pre cd le ce] d lg cv] sel pend].
    cbn in *. done.
  - destruct (cc.pending s !! k); [|done].
    unfold cc.update_feed_rearmed, cc.root_after, cc.on_world.
    cbn [cc.W].
    destruct (cc_update_feed_globals capture current_time event_time (cc.W s))
      as [-> | ->]; [done|]. by destruct (cc.G (cc.W s)).
Qed.

Lemma cc_run_keeps_flags `{cv2.OpenCV} (actions : list cc.action) :
  forall s : cc.tk,
    cc.running (cc.G (cc.W s)) = cc.cap_opened (cc.G (cc.W s)) /\
    cc.only_view (cc.G (cc.W s)) = negb (cc.save_events (cc.G (cc.W s))) ->
    cc.running (cc.G (cc.W (cc.run actions s)))
      = cc.cap_opened (cc.G (cc.W (cc.run actions s))) /\
    cc.only_view (cc.G (cc.W (cc.run actions s)))
      = negb (cc.save_events (cc.G (cc.W (cc.run actions s)))).
Proof.
  induction actions as [|a actions IH]; intros s Hs; [exact Hs|].
  simpl. by apply IH, cc_act_keeps_flags.
Qed.

(** X14. In [cc.py], whatever the user does and whatever the camera
    delivers, from the start of the program on: [running] is true exactly
    when the program holds a capture it has opened and not released, and
    [only_view] is the negation of [save_events]. *)
Theorem running_means_camera_open :
  forall (cv : cv2.OpenCV) (actions : list cc.action) (d : os.dir),
    let g := cc.G (cc.W (cc.run actions (cc.tk_init d))) in
    cc.running g = cc.cap_opened g /\
    cc.only_view g = negb (cc.save_events g).
Proof.
  intros cv actions d g. subst g. by apply cc_run_keeps_flags.
Qed.

(** X15. In [cc.py], in every state the program can reach, [handle_event]
    writes exactly one line to the log: either that the event was saved or
    that no photo was saved, never both and never neither (the two tests
    of [handle_event] are on flags that are always opposite). *)
Theorem every_event_logs_one_line :
  forall (cv : cv2.OpenCV) (actions : list cc.action) (d : os.dir)
         (frame : cv2.frame) (now : Q),
    let w := cc.W (cc.run actions (cc.tk_init d)) in
    exists line : string,
      cc.log_box (cc.handle_event frame now w).2 = cc.log_box w ++ [line] /\
      line = (if cc.save_events (cc.G w)
              then "Event detected and saved as "
                     +:+ cc.filename_prefix (cc.G w) +:+ "_"
                     +:+ pretty (py.int_of_float now) +:+ ".jpg"
              else "Event detected, no photo saved.").
Proof.
  intros cv actions d frame now w.
  destruct (cc_run_keeps_flags actions (cc.tk_init d)) as [_ Hview]; [done|].
  fold w in Hview. unfold cc.handle_event.
  destruct (cc.save_events (cc.G w)) eqn:Hs; simpl in *; rewrite Hview;
    eexists; split; reflexivity.
Qed.
(** ** The registered [update_feed] calls of [cc.py] *)

Lemma cc_start_pending (o : bool) (s : cc.tk) :
  cc.pending (cc.start_camera o s)
    = if negb (cc.cap_opened (cc.G (cc.W s))) && o
      then cc.pending s ++ [10] else cc.pending s.
Proof.
  destruct s as [[[r se ov th lo hi cap pre cd le ce] d lg cv] sel pend].
  by destruct cap, o.
Qed.

Lemma cc_stop_pending (s : cc.tk) :
  cc.pending (cc.stop_camera s) = cc.pending s /\
  cc.cap_opened (cc.G (cc.W (cc.stop_camera s))) = false.
Proof. by destruct s as [[[r se ov th lo hi cap pre cd le ce] d lg cv] sel pend]. Qed.

Lemma cc_act_pending `{cv2.OpenCV} (s : cc.tk) (a : cc.action) :
  (length (cc.pending s) <= length (cc.pending (cc.act s a)))%nat.
Proof.
  destruct a; unfold cc.act.
  - rewrite cc_start_pending. destruct (_ && _); rewrite ?length_app; simpl; lia.
  - by rewrite (proj1 (cc_stop_pending s)).
  - pose proof (cc_select_camera_cases value isOpened s) as Hsel.
    cbv zeta in Hsel.
    assert (Hst : length (cc.pending
                    (if cc.running (cc.G (cc.W s)) then cc.stop_camera s else s))
                  = length (cc.pending s)).
    { destruct (cc.running _); [|done]. by rewrite (proj1 (cc_stop_pending s)). }
    destruct (py.index _ 0) as [e|part]; [rewrite Hsel; simpl; lia|].
    destruct (py.int_of_str part) as [e|n]; [rewrite Hsel; simpl; lia|].
    rewrite Hsel. cbn [snd].
    destruct (cc.running (cc.G (cc.W s))).
    + rewrite cc_start_pending. cbn [cc.log cc.on_world cc.pending] in *.
      destruct (_ && _); rewrite ?length_app; simpl; lia.
    + cbn [cc.log cc.on_world cc.pending] in *. lia.
  - by destruct s as [[[r se ov th lo hi cap pre cd le ce] d lg cv] sel pend].
  - by destruct s as [[[r se ov th lo hi cap pre cd le ce] d lg cv] sel pend].
  - by destruct s as [[[r se ov th lo hi cap pre cd le ce] d lg cv] sel pend].
  - by destruct s as [[[r se ov th lo hi cap pre cd le ce] d lg cv] sel pend].
  - by destruct s as [[[r se ov th lo hi cap pre cd le ce] d lg cv] sel pend].
  - by destruct s as [[[r se ov th lo hi cap pre cd le ce] d lg cv] sel pend].
  - by destruct s as [[[r se ov th lo hi cap pre cd le ce] d lg cv] sel pend].
  - destruct (cc.pending s !! k) as [ms|] eqn:E; [|done].
    unfold cc.update_feed_rearmed, cc.root_after, cc.on_world.
    cbn [cc.pending]. rewrite length_app, length_delete by (by eexists).
    apply lookup_lt_Some in E. simpl. lia.
Qed.

Lemma cc_run_pending `{cv2.OpenCV} (actions : list cc.action) :
  forall s : cc.tk,
    (length (cc.pending s) <= length (cc.pending (cc.run actions s)))%nat.
Proof.
  induction actions as [|a actions IH]; intros s; [done|].
  simpl. etrans; [apply (cc_act_pending s a)|apply IH].
Qed.

Lemma cc_restart_adds_a_call `{cv2.OpenCV} (s : cc.tk) :
  cc.cap_opened (cc.G (cc.W s)) = false ->
  let s' := cc.run [cc.StartCamera true; cc.StopCamera] s in
  cc.pending s' = cc.pending s ++ [10] /\
  cc.cap_opened (cc.G (cc.W s')) = false.
Proof.
  intros Hc s'. subst s'.
  change (cc.run [cc.StartCamera true; cc.StopCamera] s)
    with (cc.stop_camera (cc.start_camera true s)).
  destruct (cc_stop_pending (cc.start_camera true s)) as [-> ->].
  rewrite cc_start_pending, Hc. done.
Qed.

(** X16. In [cc.py] the calls of [update_feed] that [root.after] has
    registered are never withdrawn: whatever the user does, their number
    does not go down, since every call of [update_feed] registers the next
    one and [stop_camera] cancels nothing. Starting the camera registers
    one more, so after [n] rounds of start and stop there are [n] of them,
    each of which goes on re-registering itself. *)
Theorem feed_loops_pile_up :
  forall (cv : cv2.OpenCV),
    (forall (actions : list cc.action) (s : cc.tk),
       (length (cc.pending s) <= length (cc.pending (cc.run actions s)))%nat) /\
    (forall (n : nat) (d : os.dir),
       cc.pending
         (cc.run (concat (replicate n [cc.StartCamera true; cc.StopCamera]))
                 (cc.tk_init d))
       = replicate n 10).
Proof.
  intros cv. split; [apply cc_run_pending|].
  intros n d.
  assert (Hgen : forall s : cc.tk,
            cc.cap_opened (cc.G (cc.W s)) = false ->
            cc.pending
              (cc.run (concat (replicate n [cc.StartCamera true; cc.StopCamera])) s)
            = cc.pending s ++ replicate n 10).
  { induction n as [|n IH]; intros s Hs.
    - simpl. by rewrite app_nil_r.
    - change (concat (replicate (S n) [cc.StartCamera true; cc.StopCamera]))
        with ([cc.StartCamera true; cc.StopCamera]
              ++ concat (replicate n [cc.StartCamera true; cc.StopCamera])).
      unfold cc.run. rewrite fold_left_app.
      destruct (cc_restart_adds_a_call s Hs) as [Hp Hc].
      fold (cc.run [cc.StartCamera true; cc.StopCamera] s).
      fold (cc.run (concat (replicate n [cc.StartCamera true; cc.StopCamera]))
                   (cc.run [cc.StartCamera true; cc.StopCamera] s)).
      rewrite IH by exact Hc. rewrite Hp, <- app_assoc. done. }
  by rewrite Hgen.
Qed.

(** ** The camera menu of [cc.py] *)

(** X17. Every entry that [list_cameras] puts into the camera menu of
    [cc.py] is read back by [select_camera]: choosing the entry
    [f"{index} - {name}"] sets [selected_camera] to [index] without an
    exception, whatever the device name is (a name that itself holds
    [" - "] included), and the feed runs afterwards exactly if it ran
    before and the chosen camera opens. *)
Theorem menu_entry_selects_its_camera :
  forall (isOpened : Z -> bool) (name : Z -> string) (camera : Z * string)
         (opens : bool) (s : cc.tk),
    camera ∈ cc.list_cameras isOpened name ->
    cc.running (cc.G (cc.W s)) = cc.cap_opened (cc.G (cc.W s)) ->
    let r := cc.select_camera (cc.camera_label camera) opens s in
    r.1 = inr tt /\
    cc.selected_camera r.2 = camera.1 /\
    cc.running (cc.G (cc.W r.2)) = cc.running (cc.G (cc.W s)) && opens.
Proof.
  intros isOpened name [i nm] opens s Hin Hinv r. subst r.
  assert (Hi : 0 <= i < 10).
  { unfold cc.list_cameras in Hin.
    apply list_elem_of_omap in Hin as (j & Hj & Hsome).
    destruct (isOpened j); [|done]. injection Hsome as <- _.
    apply elem_of_seqZ in Hj. lia. }
  pose proof (cc_select_camera_cases (cc.camera_label (i, nm)) opens s) as Hsel.
  cbv zeta in Hsel.
  assert (Hparse : py.index (py.split " - " (cc.camera_label (i, nm))) 0
                   = inr (pretty i) /\ py.int_of_str (pretty i) = inr i).
  { unfold cc.camera_label. cbn [fst snd].
    assert (i = 0 \/ i = 1 \/ i = 2 \/ i = 3 \/ i = 4 \/ i = 5 \/ i = 6
            \/ i = 7 \/ i = 8 \/ i = 9) as Hcase by lia.
    repeat (destruct Hcase as [->|Hcase]); [..|subst i];
      match goal with |- context [pretty ?k] =>
        let p := eval vm_compute in (pretty k) in
        change (pretty k) with p
      end; split; reflexivity. }
  destruct Hparse as [Hidx Hint]. rewrite Hidx, Hint in Hsel.
  rewrite Hsel. cbn [fst snd]. split; [done|].
  destruct s as [[[r se ov th lo hi cap pre cd le ce] d lg cv] sel pend].
  cbn in Hinv. subst cap. cbn.
  destruct r, opens; cbn; done.
Qed.

Lemma menu_entry_selects_its_camera_witness :
  let isOpened := fun i : Z => i =? 1 in
  let name := fun _ : Z => "USB - Cam" in
  let r := cc.select_camera "1 - USB - Cam" true (cc.tk_init ∅) in
  r.1 = inr tt /\ cc.selected_camera r.2 = 1.
Proof.
  intros isOpened name r.
  pose proof (menu_entry_selects_its_camera isOpened name (1, "USB - Cam")
                true (cc.tk_init ∅)) as H.
  destruct H as (H1 & H2 & _).
  - vm_compute. repeat constructor.
  - reflexivity.
  - split; [exact H1|exact H2].
Defined.
(** ** Camera names *)

(** X18. On macOS [get_camera_name] does not look at the index: for one
    output of the profiler, either every index gets the same device name
    or every index gets its fallback ["Camera {index}"]. So all the
    entries [list_cameras] makes carry one and the same device name. *)
Theorem mac_cameras_share_one_name :
  forall (run : py.exn + string) (isOpened : Z -> bool),
    let name := cc.get_camera_name "Darwin" run in
    (forall i j : Z, name i = name j) \/
    (forall i : Z, name i = cc.fallback_name i) /\
    cc.list_cameras isOpened name
      = (fun i => (i, cc.fallback_name i)) <$> filter (fun i => isOpened i = true) (seqZ 0 10).
Proof.
  intros run isOpened name.
  assert (Hfall : (forall i : Z, name i = cc.fallback_name i) ->
            cc.list_cameras isOpened name
            = (fun i => (i, cc.fallback_name i))
                <$> filter (fun i => isOpened i = true) (seqZ 0 10)).
  { intros Hname. unfold cc.list_cameras.
    generalize (seqZ 0 10). intros l. induction l as [|i l IH]; [done|].
    cbn [omap list_omap]. rewrite filter_cons, IH, Hname.
    by destruct (isOpened i). }
  assert (Hcases : (forall i j : Z, name i = name j)
                   \/ (forall i : Z, name i = cc.fallback_name i)).
  { subst name. unfold cc.get_camera_name.
    change (String.eqb "Darwin" "Darwin") with true. cbv iota.
    destruct run as [e|stdout]; [by right|].
    destruct (cc.darwin_scan _ 0 _ None) as [e|[found|]];
      [by right|by left|by right]. }
  destruct Hcases as [Hsame|Hname]; [by left|right].
  split; [exact Hname|by apply Hfall].
Qed.











(** ** Presets across the versions *)

Lemma v3_cc_load_runs (s : v3_cc.session) :
  let r := v3_cc.load_preset s in
  match os.load_json (v3_cc.preset_var s +:+ ".json") (v3_cc.cwd s) with
  | inl (py.FileNotFoundError _) =>
      r.1 = inr tt /\ v3_cc.globals r.2 = v3_cc.globals s /\
      v3_cc.cwd r.2 = v3_cc.cwd s
  | inl e => r = (inl e, s)
  | inr preset =>
      let a := spec.assign_while_readable preset spec.v3_fields
                 (v3_cc.globals s) in
      v3_cc.globals r.2 = a.1 /\
      v3_cc.cwd r.2 = v3_cc.cwd s /\
      r.1 = match a.2 with None => inr tt | Some e => inl e end
  end.
Proof.
  intros r. subst r. destruct s as [g name var avail d lg].
  unfold v3_cc.load_preset, v3_cc.json_load, v3_cc.assign, v3_cc.log,
    spec.v3_fields, spec.cc_110_fields, app.
  step.
  destruct (os.load_json _ _) as [e|preset]; step.
  - by destruct e.
  - run_loader. by split_and!.
Qed.










(** ** What [update_feed] does to the directory *)

(** X22. One call of [update_feed] of [versions/v3/ccqt.py] changes the
    directory in at most one place, the event file
    [{prefix}_{int(time.time())}.jpg]: every other file is left as it is,
    and with saving switched off nothing is written at all. *)
Theorem feed_touches_only_the_event_file :
  forall (cv : cv2.OpenCV) (capture : option cv2.raster) (now event_time : Q)
         (w : ccqt.world),
    let w' := ccqt.update_feed capture now event_time w in
    let name := ccqt.filename_prefix (ccqt.G w) +:+ "_"
                  +:+ pretty (py.int_of_float event_time) +:+ ".jpg" in
    (ccqt.files w' = ccqt.files w \/
     exists img : cv2.frame,
       ccqt.save_events (ccqt.G w) = true /\
       ccqt.files w' = <[name := os.ImageFile img]> (ccqt.files w)) /\
    (forall path : string,
       path <> name -> ccqt.files w' !! path = ccqt.files w !! path).
Proof.
  intros cv capture now event_time w w' name.
  assert (Hcases : ccqt.files w' = ccqt.files w \/
            exists img : cv2.frame,
              ccqt.save_events (ccqt.G w) = true /\
              ccqt.files w' = <[name := os.ImageFile img]> (ccqt.files w)).
  { subst w' name. unfold ccqt.update_feed.
    destruct (negb _ || negb _); [by left|].
    destruct capture as [frame|]; [|by left].
    destruct (ccqt.event_passes _ _ _).
    - unfold ccqt.handle_event, ccqt.stack_and_show.
      destruct (ccqt.save_events (ccqt.G w)) eqn:Hs; simpl;
        destruct (ccqt.detection_area _) as [[[??]?]?]; simpl.
      + right. by eexists.
      + by left.
    - unfold ccqt.stack_and_show.
      destruct (ccqt.detection_area _) as [[[??]?]?]. by left. }
  split; [exact Hcases|].
  intros path Hpath. destruct Hcases as [->|(img & _ & ->)]; [done|].
  by rewrite lookup_insert_ne.
Qed.

Lemma feed_touches_only_the_event_file_witness :
  let w := {| ccqt.G := ccqt.params_init; ccqt.files := ∅; ccqt.logs := [];
              ccqt.last_stacked_frame := None |} in
  ccqt.files (@ccqt.update_feed (cv2_8u.with_HSV2BGR id)
                (Some [[(1, 2, 3)]]) 10 10 w) !! "notes.txt"
  = ccqt.files w !! "notes.txt".
Proof.
  intros w.
  apply (feed_touches_only_the_event_file (cv2_8u.with_HSV2BGR id)
           (Some [[(1, 2, 3)]]) 10 10 w).
  done.
Defined.

(** X23. Two events in one second share a file. In
    [versions/v3/ccqt.py], with saving on and the cooldown switched off,
    two frames that both count as events and are handled within the same
    second of the clock are written under one name, so the picture of the
    first is overwritten by the picture of the second. *)
Theorem events_in_one_second_share_a_file :
  forall (cv : cv2.OpenCV) (frame1 frame2 : cv2.raster)
         (t1 e1 t2 e2 : Q) (w : ccqt.world),
    let g := ccqt.G w in
    let conditioned := fun frame =>
      ccqt.apply_video_controls g
        (cv2.resize frame (ccqt.FRAME_WIDTH, ccqt.FRAME_HEIGHT)) in
    ccqt.running g = true -> ccqt.cap_opened g = true ->
    ccqt.save_events g = true -> ccqt.cooldown_enabled g = false ->
    np.count_positive (ccqt.detect g (conditioned frame1)) > ccqt.threshold g ->
    np.count_positive (ccqt.detect g (conditioned frame2)) > ccqt.threshold g ->
    py.int_of_float e1 = py.int_of_float e2 ->
    let w1 := ccqt.update_feed (Some frame1) t1 e1 w in
    let w2 := ccqt.update_feed (Some frame2) t2 e2 w1 in
    let name := ccqt.filename_prefix g +:+ "_"
                  +:+ pretty (py.int_of_float e2) +:+ ".jpg" in
    ccqt.files w1 = <[name := os.ImageFile (cv2.fresh (conditioned frame1))]>
                      (ccqt.files w) /\
    ccqt.files w2 = <[name := os.ImageFile (cv2.fresh (conditioned frame2))]>
                      (ccqt.files w).
Proof.
  intros cv frame1 frame2 t1 e1 t2 e2 w g conditioned Hr Hc Hs Hcd H1 H2 He
    w1 w2 name.
  assert (Hpass : forall (g' : ccqt.params) (d : bool) (t : Q),
            ccqt.cooldown_enabled g' = false ->
            ccqt.event_passes g' d t = d).
  { intros g' d t Hg'. unfold ccqt.event_passes. rewrite Hg'. simpl.
    apply andb_true_r. }
  assert (E1 : ccqt.files w1
               = <[name := os.ImageFile (cv2.fresh (conditioned frame1))]>
                   (ccqt.files w)).
  { subst w1 name. rewrite <- He.
    apply ccqt_update_feed_saves; try done.
    rewrite Hpass by done. by apply bool_decide_eq_true. }
  assert (G1 : ccqt.G w1 = ccqt.set_last_event_time t1 g).
  { subst w1. rewrite ccqt_update_feed_commit by done.
    rewrite Hpass by done. fold g. fold (conditioned frame1).
    by rewrite bool_decide_true. }
  split; [exact E1|]. subst w2.
  rewrite ccqt_update_feed_saves.
  - rewrite G1, E1. subst name. cbn [ccqt.filename_prefix ccqt.set_last_event_time].
    rewrite insert_insert_eq. reflexivity.
  - by rewrite G1.
  - by rewrite G1.
  - by rewrite G1.
  - rewrite G1. rewrite Hpass by done.
    apply bool_decide_eq_true. exact H2.
Qed.

Lemma events_in_one_second_share_a_file_witness :
  let w := {| ccqt.G :=
                {| ccqt.running := true; ccqt.save_events := true;
                   ccqt.only_view := false;
                   ccqt.threshold := 0; ccqt.low_threshold := 50;
                   ccqt.high_threshold := 150; ccqt.cap_opened := true;
                   ccqt.filename_prefix := "event";
                   ccqt.cooldown := 5; ccqt.last_event_time := 0;
                   ccqt.cooldown_enabled := false;
                   ccqt.contrast := 1; ccqt.brightness := 0;
                   ccqt.saturation := 1; ccqt.black_point := 0;
                   ccqt.detection_area := (0, 0, 960, 640);
                   ccqt.gaussian_blur := 5 |};
              ccqt.files := ∅; ccqt.logs := [];
              ccqt.last_stacked_frame := None |} in
  let w1 := @ccqt.update_feed (cv2_8u.with_HSV2BGR id)
              (Some [[(255, 255, 255)]]) (17 # 10) (17 # 10) w in
  let w2 := @ccqt.update_feed (cv2_8u.with_HSV2BGR id)
              (Some [[(200, 200, 200)]]) (19 # 10) (19 # 10) w1 in
  ccqt.files w2
    = <["event_1.jpg" := os.ImageFile (cv2.fresh [[(200, 200, 200)]])]> ∅.
Proof.
  intros w w1 w2.
  apply (events_in_one_second_share_a_file (cv2_8u.with_HSV2BGR id)
           [[(255, 255, 255)]] [[(200, 200, 200)]]
           (17 # 10) (17 # 10) (19 # 10) (19 # 10) w); by vm_compute.
Defined.
(** ** [ccm.py] against [ccm_100.py] *)

Lemma ccm_conditions_agree `{cv2.OpenCV} (s : ccm.CameraSettings)
    (g : ccm_100.globals) (frame : cv2.raster) :
  ccm.contrast s = ccm_100.contrast g ->
  ccm.brightness s = ccm_100.brightness g ->
  ccm.saturation s = ccm_100.saturation g ->
  ccm.black_point s = ccm_100.black_point g ->
  ccm.condition s frame = ccm_100.condition g frame.
Proof.
  intros Hc Hb Hs Hk. unfold ccm.condition, ccm_100.condition.
  by rewrite Hc, Hb, Hs, Hk.
Qed.

Lemma ccm_frame_same_program `{cv2.OpenCV} frame t
    (w : ccm.CharmCCM) (v : ccm_100.world) :
  spec.same_program w v ->
  spec.same_program (ccm.handle_new_frame frame t w)
                    (ccm_100.handle_new_frame frame t v).
Proof.
  destruct w as [s pm d lg]. destruct v as [g self d' lg'].
  destruct s as [fw fh c b sa k thr lim cd lst pre sv run].
  destruct g as [c' b' sa' k' run' thr' lim' cd' lst' pre' sv'].
  destruct pm as [xs ms mx ls lbs tl xr].
  destruct self as [xs' ms' th ls' lbs' mx' xr'].
  unfold spec.same_program. cbn.
  intros (-> & -> & -> & -> & -> & -> & -> & -> & -> & -> & -> & -> & ->
          & Ht & Hx & -> & ->).
  unfold ccm.handle_new_frame, ccm_100.handle_new_frame.
  cbn [ccm.settings ccm.plot_manager ccm.files ccm.log_box
       ccm_100.G ccm_100.self ccm_100.files ccm_100.log_box].
  rewrite (ccm_conditions_agree _
             {| ccm_100.contrast := c'; ccm_100.brightness := b';
                ccm_100.saturation := sa'; ccm_100.black_point := k';
                ccm_100.running := run'; ccm_100.threshold_value := thr';
                ccm_100.threshold_max_limit := lim';
                ccm_100.cooldown_time := cd'; ccm_100.last_saved_time := lst';
                ccm_100.prefix := pre'; ccm_100.save_images := sv' |} frame)
    by reflexivity.
  set (m := np.mean _).
  assert (Hup : ccm_100.update_plot
                  (ccm_100.append_data m
                     {| ccm_100.xvals := xs'; ccm_100.mean_values := ms';
                        ccm_100.threshold := th; ccm_100.event_lines := ls';
                        ccm_100.event_labels := lbs';
                        ccm_100.max_event_lines := mx';
                        ccm_100.x_range := xr' |})
                = {| ccm_100.xvals :=
                       match last xs' with
                       | None => xs' ++ [0]
                       | Some x => xs' ++ [x + 1]
                       end;
                     ccm_100.mean_values := ms' ++ [m];
                     ccm_100.threshold := th; ccm_100.event_lines := ls';
                     ccm_100.event_labels := lbs';
                     ccm_100.max_event_lines := mx';
                     ccm_100.x_range :=
                       let xs1 := match last xs' with
                                  | None => xs' ++ [0]
                                  | Some x => xs' ++ [x + 1]
                                  end in
                       if (length xs1 <? 300)%nat then (0, 300)
                       else (nth (length xs1 - 300) xs1 0,
                             from_option id 0 (last xs1)) |}).
  { unfold ccm_100.update_plot, ccm_100.append_data.
    cbn [ccm_100.xvals ccm_100.mean_values ccm_100.threshold
         ccm_100.event_lines ccm_100.event_labels ccm_100.max_event_lines].
    destruct (last xs'); by destruct xs'. }
  rewrite Hup. clear Hup.
  cbn [ccm.threshold_value ccm.last_saved_time ccm.cooldown_time
       ccm.save_images ccm.set_last_saved_time ccm.prefix
       ccm_100.threshold ccm_100.last_saved_time ccm_100.cooldown_time
       ccm_100.save_images ccm_100.set_last_saved_time ccm_100.prefix].
  destruct (py.lt th m); [|cbn; by split_and!].
  destruct (py.ge _ _); [|cbn; by split_and!].
  destruct sv'; [|cbn; by split_and!].
  cbn. split_and!; try done.
  - rewrite !prune_fmap, !fmap_app. by rewrite Ht.
  - rewrite !prune_fmap, !fmap_app. by rewrite Hx.
Qed.

(** X24. [versions/v3/ccm.py] does what [ccm_100.py] does: started in the
    same directory and given the same frames at the same clock values, the
    two programs write the same files with the same content, log the same
    lines, hold the same series and place the same markers and the same
    label texts at the same x-positions (only the height at which a label
    is drawn may differ). *)
Theorem refactored_program_saves_the_same :
  forall (cv : cv2.OpenCV) (inputs : list (cv2.raster * Q)) (d : os.dir),
    let w := runs.ccm_frames inputs (ccm.CharmCCM_init d) in
    let v := runs.ccm_100_frames inputs (ccm_100.world_init d) in
    ccm.files w = ccm_100.files v /\
    ccm.log_box w = ccm_100.log_box v /\
    ccm.xvals (ccm.plot_manager w) = ccm_100.xvals (ccm_100.self v) /\
    ccm.mean_values (ccm.plot_manager w)
      = ccm_100.mean_values (ccm_100.self v) /\
    ccm.event_lines (ccm.plot_manager w)
      = ccm_100.event_lines (ccm_100.self v) /\
    ccm.text <$> ccm.event_labels (ccm.plot_manager w)
      = ccm.text <$> ccm_100.event_labels (ccm_100.self v) /\
    ccm.last_saved_time (ccm.settings w)
      = ccm_100.last_saved_time (ccm_100.G v).
Proof.
  intros cv inputs d w v.
  assert (Hrun : forall (inputs : list (cv2.raster * Q))
                   (w : ccm.CharmCCM) (v : ccm_100.world),
            spec.same_program w v ->
            spec.same_program (runs.ccm_frames inputs w)
                              (runs.ccm_100_frames inputs v)).
  { clear. induction inputs as [|[frame t] inputs IH]; intros w v Hwv;
      [exact Hwv|].
    simpl. by apply IH, ccm_frame_same_program. }
  assert (H0 : spec.same_program (ccm.CharmCCM_init d) (ccm_100.world_init d)).
  { unfold spec.same_program. cbn. by split_and!. }
  pose proof (Hrun inputs _ _ H0) as H. fold w v in H.
  unfold spec.same_program in H. cbv zeta in H.
  destruct H as (_ & _ & _ & _ & _ & _ & ? & _ & _ & ? & ? & _ & ? & ? & _
                 & ? & ?).
  by split_and!.
Qed.
(** ** A camera entry that does not parse *)

(** X25. [select_camera] of [cc.py] stops the feed before it reads the
    entry. If the text before [" - "] is not an integer, [int] raises
    [ValueError] and the callback ends there: with a feed that was running,
    the camera is left stopped and closed, it is not started again, and
    [selected_camera] is what it was. *)
Theorem unreadable_entry_leaves_the_feed_stopped :
  forall (value part : string) (isOpened : bool) (s : cc.tk) (e : py.exn),
    cc.running (cc.G (cc.W s)) = true ->
    py.index (py.split " - " value) 0 = inr part ->
    py.int_of_str part = inl e ->
    let r := cc.select_camera value isOpened s in
    r.1 = inl e /\
    r.2 = cc.stop_camera s /\
    cc.running (cc.G (cc.W r.2)) = false /\
    cc.cap_opened (cc.G (cc.W r.2)) = false /\
    cc.selected_camera r.2 = cc.selected_camera s /\
    cc.pending r.2 = cc.pending s.
Proof.
  intros value part isOpened s e Hrun Hidx Hint r.
  pose proof (cc_select_camera_cases value isOpened s) as Hsel.
  cbv zeta in Hsel. rewrite Hidx, Hint, Hrun in Hsel. subst r.
  rewrite Hsel. cbn [fst snd].
  by destruct s as [[[r se ov th lo hi cap pre cd le ce] d lg cv] sel pend].
Qed.

Lemma unreadable_entry_leaves_the_feed_stopped_witness :
  let s := cc.start_camera true (cc.tk_init ∅) in
  let r := cc.select_camera "front camera" true s in
  r.1 = inl py.ValueError /\
  r.2 = cc.stop_camera s /\
  cc.running (cc.G (cc.W r.2)) = false /\
  cc.cap_opened (cc.G (cc.W r.2)) = false /\
  cc.selected_camera r.2 = cc.selected_camera s /\
  cc.pending r.2 = cc.pending s.
Proof.
  intros s.
  apply (unreadable_entry_leaves_the_feed_stopped "front camera"
           "front camera" true s py.ValueError); reflexivity.
Defined.

(** ** What the preset functions leave alone *)

Lemma ccqt_load_leaves_directory (s : ccqt.session) :
  ccqt.cwd (ccqt.load_preset s).2 = ccqt.cwd s.
Proof.
  destruct (decide (ccqt.currentText s = "")) as [Hempty|Hne].
  - unfold ccqt.load_preset. step. rewrite Hempty.
    by destruct s as [g entry combo idx avail d lg].
  - pose proof (ccqt_load_runs s Hne) as Hrun. cbv zeta in Hrun.
    destruct (os.load_json _ _) as [e|loaded].
    + destruct e; try (by rewrite Hrun). by destruct Hrun as (_ & _ & ?).
    + by destruct Hrun as [? _].
Qed.

Lemma ccqt_save_leaves_globals (s : ccqt.session) (reply : ccqt.StandardButton) :
  ccqt.globals (ccqt.save_preset reply s).2 = ccqt.globals s.
Proof.
  destruct s as [g entry combo idx avail d lg].
  unfold ccqt.save_preset, ccqt.global, ccqt.json_dump, ccqt.log,
    ccqt.remember.
  step. set (name := if String.eqb entry "" then "default" else entry).
  repeat match goal with
  | |- context [g !! ?k] => destruct (g !! k); step; [|reflexivity]
  end.
  destruct (bool_decide (name ∈ avail)); destruct reply; step;
    try reflexivity;
    destruct (bool_decide (name ∉ avail)); step; reflexivity.
Qed.

(** X26. The preset functions keep to their side. [load_preset] never
    writes to the directory, whether it succeeds, finds no file or fails
    half way ([cc_110.py], [versions/v3/cc.py], [versions/v3/ccqt.py]);
    [save_preset] of [versions/v3/ccqt.py] never changes a parameter,
    whatever the user answers. *)
Theorem presets_keep_to_their_side :
  (forall w : cc_110.world,
     cc_110.files (cc_110.load_preset w).2 = cc_110.files w) /\
  (forall s : v3_cc.session,
     v3_cc.cwd (v3_cc.load_preset s).2 = v3_cc.cwd s) /\
  (forall s : ccqt.session,
     ccqt.cwd (ccqt.load_preset s).2 = ccqt.cwd s) /\
  (forall (s : ccqt.session) (reply : ccqt.StandardButton),
     ccqt.globals (ccqt.save_preset reply s).2 = ccqt.globals s).
Proof.
  split_and!.
  - intros w. pose proof (cc_110_load_runs w) as Hrun. cbv zeta in Hrun.
    destruct (os.load_json _ _) as [e|preset].
    + destruct e; try (by rewrite Hrun). by destruct Hrun as (_ & _ & ?).
    + by destruct Hrun as (_ & ? & _).
  - intros s. pose proof (v3_cc_load_runs s) as Hrun. cbv zeta in Hrun.
    destruct (os.load_json _ _) as [e|preset].
    + destruct e; try (by rewrite Hrun). by destruct Hrun as (_ & _ & ?).
    + by destruct Hrun as (_ & ? & _).
  - exact ccqt_load_leaves_directory.
  - exact ccqt_save_leaves_globals.
Qed.
